(** * ALIEN task-execution pipeline: a shallow embedding and its properties

    The development follows the TypeScript sources of the repository:
    the runway tracker, the context builder's urgency table, the metrics
    store, the scheduler registry, the completion client, the deploy
    trigger and the output processor, then the time utilities, the
    start-up steps, the content writer and the helpers of the hourly and
    activity decision tasks.  Part I holds the embedding, one module per
    source file; Part II holds the lemmas and theorems; Part III holds
    further properties of the same sources. *)

From Stdlib Require Import ZArith QArith Lqa Bool Ascii String List Lia.
From stdpp Require Import base option list strings pretty gmap.

#[local] Open Scope string_scope.
#[local] Open Scope Z_scope.

(* ===================================================================== *)
(** * Part I: the embedding                                               *)
(* ===================================================================== *)

(** ** JavaScript values used by the sources *)

Module Js.

(** A JavaScript [number].  Every finite double is a rational, and the
    sources only compare numbers, so the finite ones are carried as [Q]. *)
Inductive number : Type :=
| Finite (q : Q)
| PosInfinity
| NegInfinity
| NaN.

Definition Qlt_bool (x y : Q) : bool := negb (Qle_bool y x).

(** JavaScript [a < b]. *)
Definition lt (a b : number) : bool :=
  match a, b with
  | NaN, _ | _, NaN => false
  | Finite x, Finite y => Qlt_bool x y
  | Finite _, PosInfinity => true
  | Finite _, NegInfinity => false
  | PosInfinity, _ => false
  | NegInfinity, NegInfinity => false
  | NegInfinity, _ => true
  end.

(** JavaScript [a <= b]. *)
Definition le (a b : number) : bool :=
  match a, b with
  | NaN, _ | _, NaN => false
  | Finite x, Finite y => Qle_bool x y
  | Finite _, PosInfinity => true
  | Finite _, NegInfinity => false
  | PosInfinity, PosInfinity => true
  | PosInfinity, _ => false
  | NegInfinity, _ => true
  end.

Definition of_Z (z : Z) : number := Finite (inject_Z z).

(** A string is a sequence of code units; [ascii] carries the code units
    below 256. *)

(** White space and line terminators among those code units: what
    [String.prototype.trim] strips and what the regular expression class
    [\s] matches (TAB, LF, VT, FF, CR, SPACE, NBSP). *)
Definition is_whitespace (c : ascii) : bool :=
  let n := nat_of_ascii c in
  ((9 <=? n)%nat && (n <=? 13)%nat) || (n =? 32)%nat || (n =? 160)%nat.

Fixpoint trimStart (s : string) : string :=
  match s with
  | EmptyString => EmptyString
  | String c rest => if is_whitespace c then trimStart rest else s
  end.

Fixpoint trimEnd (s : string) : string :=
  match s with
  | EmptyString => EmptyString
  | String c rest =>
      match trimEnd rest with
      | EmptyString => if is_whitespace c then EmptyString else String c EmptyString
      | rest' => String c rest'
      end
  end.

(** [s.trim()] *)
Definition trim (s : string) : string := trimEnd (trimStart s).

(** A string of white space only (the empty string included). *)
Fixpoint all_whitespace (s : string) : bool :=
  match s with
  | EmptyString => true
  | String c rest => is_whitespace c && all_whitespace rest
  end.

(** [hay.includes(needle)] *)
Fixpoint includes (needle hay : string) : bool :=
  String.prefix needle hay ||
  match hay with
  | EmptyString => false
  | String _ rest => includes needle rest
  end.

(** [s.toLowerCase()] on code units below 256: A-Z and the Latin-1 capitals
    (0xC0-0xDE except the multiplication sign 0xD7) move up by 32. *)
Definition lower_char (c : ascii) : ascii :=
  let n := nat_of_ascii c in
  if ((65 <=? n)%nat && (n <=? 90)%nat)
     || ((192 <=? n)%nat && (n <=? 222)%nat && negb (n =? 215)%nat)
  then ascii_of_nat (n + 32) else c.

Fixpoint toLowerCase (s : string) : string :=
  match s with
  | EmptyString => EmptyString
  | String c rest => String (lower_char c) (toLowerCase rest)
  end.

(** [s.slice(0, n)] for a non-negative [n]. *)
Definition slice0 (n : nat) (s : string) : string := String.substring 0 n s.

(** A value that a [throw] or a rejected promise carries: an [Error]
    instance with its [name], [message] and (when the property exists) a
    numeric [status], or any other value, kept by its [String(v)] text. *)
Inductive thrown : Type :=
| ErrorObj (name message : string) (status : option Z)
| NonError (text : string).

(** [new Error(msg)] *)
Definition mkError (msg : string) : thrown := ErrorObj "Error" msg None.

(** The idiom [err instanceof Error ? err.message : fallback]. *)
Definition messageOr (fallback : string) (err : thrown) : string :=
  match err with
  | ErrorObj _ msg _ => msg
  | NonError _ => fallback
  end.

(** How a call or an awaited promise ends. *)
Inductive outcome (A : Type) : Type :=
| Resolved (a : A)
| Rejected (err : thrown).
Arguments Resolved {A} a.
Arguments Rejected {A} err.

Definition threw {A} (o : outcome A) : option thrown :=
  match o with
  | Resolved _ => None
  | Rejected e => Some e
  end.

End Js.

(** ** State-passing programs

    The sources are sequences of calls on module-level state and on
    injected dependencies, with every exception caught where it arises;
    [Prog S A] threads the state and the reified outcomes through them. *)

Module Prog.

Definition t (S A : Type) : Type := S -> A * S.

Definition ret {S A} (a : A) : t S A := fun s => (a, s).

Definition bind {S A B} (m : t S A) (k : A -> t S B) : t S B :=
  fun s => let (a, s') := m s in k a s'.

Definition modify {S} (f : S -> S) : t S unit := fun s => (tt, f s).

Definition get {S} : t S S := fun s => (s, s).

(** Programs that may throw: the outcome is part of the result. *)
Definition exc (S A : Type) : Type := t S (Js.outcome A).

Definition pure {S A} (a : A) : exc S A := ret (Js.Resolved a).

Definition throw {S A} (e : Js.thrown) : exc S A := ret (Js.Rejected e).

(** Sequencing inside a [try] block: a rejection skips the rest. *)
Definition and_then {S A B} (m : exc S A) (k : A -> exc S B) : exc S B :=
  bind m (fun r =>
    match r with
    | Js.Resolved a => k a
    | Js.Rejected e => ret (Js.Rejected e)
    end).

(** [try { m } catch (err) { h err }] *)
Definition try_catch {S A} (m : exc S A) (h : Js.thrown -> exc S A) : exc S A :=
  bind m (fun r =>
    match r with
    | Js.Resolved a => ret (Js.Resolved a)
    | Js.Rejected e => h e
    end).

(** A step that cannot throw, used inside a [try] block. *)
Definition lift {S A} (m : t S A) : exc S A :=
  bind m (fun a => ret (Js.Resolved a)).

End Prog.

Declare Scope prog_scope.
Delimit Scope prog_scope with prog.
Notation "x <~ m ;; k" := (Prog.bind m (fun x => k))
  (at level 100, m at next level, right associativity) : prog_scope.
Notation "m ;;; k" := (Prog.bind m (fun _ => k))
  (at level 100, right associativity) : prog_scope.
Notation "x <~? m ;; k" := (Prog.and_then m (fun x => k))
  (at level 100, m at next level, right associativity) : prog_scope.

(** ** JSON values and the runtime's built-ins *)

Module Json.
Import Js.

#[warnings="-register-all"]
Inductive json : Type :=
| JNull
| JBool (b : bool)
| JNum (n : number)
| JStr (s : string)
| JArr (items : list json)
| JObj (fields : list (string * json)).

Fixpoint assoc (key : string) (fields : list (string * json)) : option json :=
  match fields with
  | [] => None
  | (k, v) :: rest => if String.eqb k key then Some v else assoc key rest
  end.

(** What the engine supplies and the repository only calls: [JSON.parse]
    (a [SyntaxError] on failure), the text of a number, and the messages
    of the [TypeError]s for a property read on [null] and for a call of a
    missing method. *)
Record Runtime : Type := mkRuntime {
  JSON_parse : string -> outcome json;
  number_toString : number -> string;
  null_read_message : string -> string;
  not_a_function_message : string -> string;
}.

(** [v.key] for the property names the sources read ([None] is
    [undefined]); reading a property of [null] throws. *)
Definition readProp (rt : Runtime) (v : json) (key : string)
  : outcome (option json) :=
  match v with
  | JNull => Rejected (ErrorObj "TypeError" (null_read_message rt key) None)
  | JObj fields => Resolved (assoc key fields)
  | _ => Resolved None
  end.

(** Truthiness of a value or of [undefined]. *)
Definition truthy (v : option json) : bool :=
  match v with
  | None => false
  | Some JNull => false
  | Some (JBool b) => b
  | Some (JNum (Finite q)) => negb (Qeq_bool q 0)
  | Some (JNum NaN) => false
  | Some (JNum _) => true
  | Some (JStr s) => negb (String.eqb s "")
  | Some (JArr _) => true
  | Some (JObj _) => true
  end.

Fixpoint join (sep : string) (parts : list string) : string :=
  match parts with
  | [] => ""
  | [p] => p
  | p :: rest => p ++ sep ++ join sep rest
  end.

(** [String(v)], as a template literal renders a value: arrays join their
    elements with commas, [null] elements rendering as nothing. *)
Fixpoint toText (rt : Runtime) (v : json) : string :=
  match v with
  | JNull => "null"
  | JBool true => "true"
  | JBool false => "false"
  | JNum n => number_toString rt n
  | JStr s => s
  | JArr items =>
      join ","
        (List.map (fun item =>
                     match item with
                     | JNull => ""
                     | _ => toText rt item
                     end) items)
  | JObj _ => "[object Object]"
  end.

Definition toText_opt (rt : Runtime) (v : option json) : string :=
  match v with
  | None => "undefined"
  | Some x => toText rt x
  end.

End Json.

(** ** src/utils/logger.ts, as far as the callers below use it *)

Module Logger.

Inductive LogLevel : Type := LDebug | LInfo | LWarn | LError.

Inductive LogValue : Type :=
| LStr (s : string)
| LNum (z : Z)
| LBool (b : bool)
| LJson (v : option Json.json).

Record LogEntry : Type := mkLog {
  level : LogLevel;
  message : string;
  context : list (string * LogValue);
}.

End Logger.

(** ** src/survival/runway-tracker.ts *)

Module RunwayTracker.
Import Js.

Inductive UrgencyLevel : Type := comfortable | focused | urgent | critical.

Definition getUrgencyLevel (runwayDays : number) : UrgencyLevel :=
  if lt runwayDays (of_Z 3) then critical
  else if lt runwayDays (of_Z 7) then urgent
  else if le runwayDays (of_Z 14) then focused
  else comfortable.

(** The ordering critical > urgent > focused > comfortable, as a rank. *)
Definition urgency_rank (u : UrgencyLevel) : nat :=
  match u with
  | comfortable => 0
  | focused => 1
  | urgent => 2
  | critical => 3
  end.

(** The table as the specification words it, for comparison with
    [getUrgencyLevel]: strict bounds throughout. *)
Definition claimed_urgency_table (days : number) : UrgencyLevel :=
  if lt days (of_Z 3) then critical
  else if lt days (of_Z 7) then urgent
  else if lt days (of_Z 14) then focused
  else comfortable.

End RunwayTracker.

(** ** src/core/context-builder.ts (the urgency table only) *)

Module ContextBuilder.
Import Js.
Import RunwayTracker.

Definition calculateUrgencyLevel (runwayDays : number) : UrgencyLevel :=
  if lt runwayDays (of_Z 3) then critical
  else if lt runwayDays (of_Z 7) then urgent
  else if lt runwayDays (of_Z 14) then focused
  else comfortable.

End ContextBuilder.

(** ** src/survival/metrics.ts *)

Module Metrics.
Import Js.

(** [KeyMetrics] values: [string | number | boolean]. *)
Inductive scalar : Type :=
| SStr (s : string)
| SNum (n : number)
| SBool (b : bool).

Record Metrics : Type := mkMetrics {
  thingsShipped : number;
  revenueTotal : number;
  currentStrategy : string;
  keyMetrics : gmap string scalar;
}.

(** [Partial<Metrics>]: a field is present ([Some]) or absent. *)
Record PartialMetrics : Type := mkPartial {
  p_thingsShipped : option number;
  p_revenueTotal : option number;
  p_currentStrategy : option string;
  p_keyMetrics : option (gmap string scalar);
}.

Definition DEFAULT_METRICS : Metrics :=
  {| thingsShipped := of_Z 0;
     revenueTotal := of_Z 0;
     currentStrategy := "";
     keyMetrics := ∅ |}.

Definition SUPERMEMORY_METRICS_ID : string := "alien-metrics".

(** One [client.memory.create] request of [backupToSupermemory]. *)
Record BackupRequest : Type := mkBackup {
  backup_id : string;
  backup_content : string;
  backup_type : string;
  backup_updatedAt : string;
}.

(** The module-level variables and the environment the module touches:
    the [.alien] directory, the metrics file (absent, or present with the
    outcome of reading it), the [SUPERMEMORY_API_KEY] variable, the clock
    text of [new Date().toISOString()] and the requests sent to the remote
    store. *)
Record State : Type := mkState {
  cachedMetrics : option Metrics;
  supermemoryClient : option string;
  dir_exists : bool;
  metrics_file : option (outcome string);
  env_api_key : option string;
  clock : string;
  backups : list BackupRequest;
}.

Section WithJson.

(** [JSON.parse(data) as Metrics] (the cast is unchecked in the source) and
    [JSON.stringify(metrics, null, indent)]. *)
Variable JSON_parse : string -> outcome Metrics.
Variable JSON_stringify : option Z -> Metrics -> string.

(** The body of the [try] block of [loadFromFile]: [None] when control
    falls out of the [if]. *)
Definition loadFromFile_try (st : State) : outcome (option Metrics) :=
  match metrics_file st with
  | Some read =>
      match read with
      | Resolved data =>
          match JSON_parse data with
          | Resolved m => Resolved (Some m)
          | Rejected e => Rejected e
          end
      | Rejected e => Rejected e
      end
  | None => Resolved None
  end.

Definition loadFromFile (st : State) : Metrics :=
  match loadFromFile_try st with
  | Resolved (Some m) => m
  | Resolved None => DEFAULT_METRICS
  | Rejected _ => DEFAULT_METRICS
  end.

Definition ensureDirectory : Prog.t State unit :=
  Prog.modify (fun st =>
    if dir_exists st then st
    else mkState (cachedMetrics st) (supermemoryClient st) true
           (metrics_file st) (env_api_key st) (clock st) (backups st)).

Definition saveToFile (metrics : Metrics) : Prog.t State unit :=
  (ensureDirectory ;;;
   Prog.modify (fun st =>
     mkState (cachedMetrics st) (supermemoryClient st) (dir_exists st)
       (Some (Resolved (JSON_stringify (Some 2) metrics)))
       (env_api_key st) (clock st) (backups st)))%prog.

Definition getSupermemoryClient : Prog.t State (option string) :=
  fun st =>
    match supermemoryClient st, env_api_key st with
    | Some c, _ => (Some c, st)
    | None, Some key =>
        if String.eqb key "" then (None, st)
        else (Some key,
              mkState (cachedMetrics st) (Some key) (dir_exists st)
                (metrics_file st) (env_api_key st) (clock st) (backups st))
    | None, None => (None, st)
    end.

(** The request is issued; whatever it answers is swallowed. *)
Definition backupToSupermemory (metrics : Metrics) : Prog.t State unit :=
  (client <~ getSupermemoryClient ;;
   match client with
   | None => Prog.ret tt
   | Some _ =>
       Prog.modify (fun st =>
         mkState (cachedMetrics st) (supermemoryClient st) (dir_exists st)
           (metrics_file st) (env_api_key st) (clock st)
           (backups st ++
            [mkBackup SUPERMEMORY_METRICS_ID (JSON_stringify None metrics)
               "metrics" (clock st)]))
   end)%prog.

Definition set_cache (c : option Metrics) : Prog.t State unit :=
  Prog.modify (fun st =>
    mkState c (supermemoryClient st) (dir_exists st) (metrics_file st)
      (env_api_key st) (clock st) (backups st)).

Definition getMetrics : Prog.t State Metrics :=
  fun st =>
    match cachedMetrics st with
    | Some m => (m, st)
    | None => let m := loadFromFile st in (m, snd (set_cache (Some m) st))
    end.

(** One field of [{...current, ...partial}]. *)
Definition spread {A} (current : A) (partial : option A) : A :=
  match partial with
  | Some v => v
  | None => current
  end.

Definition updateMetrics (partial : PartialMetrics) : Prog.t State Metrics :=
  (current <~ getMetrics ;;
   let updated :=
     {| thingsShipped := spread (thingsShipped current) (p_thingsShipped partial);
        revenueTotal := spread (revenueTotal current) (p_revenueTotal partial);
        currentStrategy :=
          spread (currentStrategy current) (p_currentStrategy partial);
        keyMetrics :=
          match p_keyMetrics partial with
          | Some pk => pk ∪ keyMetrics current
          | None => ∅ ∪ keyMetrics current
          end |} in
   set_cache (Some updated) ;;;
   saveToFile updated ;;;
   backupToSupermemory updated ;;;
   Prog.ret updated)%prog.

Definition setStrategy (name : string) : Prog.t State unit :=
  (updateMetrics (mkPartial None None (Some name) None) ;;; Prog.ret tt)%prog.

Definition resetMetricsCache : Prog.t State unit :=
  Prog.modify (fun st =>
    mkState None None (dir_exists st) (metrics_file st) (env_api_key st)
      (clock st) (backups st)).

End WithJson.

End Metrics.

(** ** src/scheduler/index.ts *)

Module Scheduler.
Import Logger.

(** The task functions of the module; what they do when fired is not part
    of the registry. *)
Inductive Handler : Type :=
| activityDecisionTask
| hourlyUpdateTask
| dailyJournalTask
| runwayCheckTask
| goalReviewTask
| weeklyReviewTask
| healthCheckTask
| otherHandler (id : nat).

(** [job] is present once [cron.schedule] has created the timer; [true]
    while it runs. *)
Record ScheduledTask : Type := mkTask {
  name : string;
  schedule : string;
  handler : Handler;
  job : option bool;
}.

(** The module-level [tasks] array and the logger's output. *)
Record State : Type := mkState {
  tasks : list ScheduledTask;
  log : list LogEntry;
}.

Definition emit (e : LogEntry) : Prog.t State unit :=
  Prog.modify (fun st => mkState (tasks st) (log st ++ [e])).

Section WithCron.

(** [cron.validate] of node-cron. *)
Variable validate : string -> bool.

Definition registerTask (name schedule : string) (handler : Handler)
  : Prog.t State unit :=
  if negb (validate schedule) then
    emit (mkLog LError ("Invalid cron schedule for task: " ++ name)
            [("schedule", LStr schedule)])
  else
    (Prog.modify (fun st =>
       mkState (tasks st ++ [mkTask name schedule handler None]) (log st)) ;;;
     emit (mkLog LDebug ("Registered task: " ++ name)
             [("schedule", LStr schedule)]))%prog.

(** The loop of [startScheduler] that creates one timer per task. *)
Fixpoint start_jobs (pending : list ScheduledTask)
  : list ScheduledTask * list LogEntry :=
  match pending with
  | [] => ([], [])
  | task :: rest =>
      let (started, entries) := start_jobs rest in
      (mkTask (name task) (schedule task) (handler task) (Some true) :: started,
       mkLog LInfo ("Started cron job: " ++ name task)
         [("schedule", LStr (schedule task))] :: entries)
  end.

Definition startScheduler : Prog.t State unit :=
  (emit (mkLog LInfo "Starting scheduler" []) ;;;
   registerTask "activityDecision" "55 * * * *" activityDecisionTask ;;;
   registerTask "hourlyUpdate" "50 * * * *" hourlyUpdateTask ;;;
   registerTask "dailyJournal" "0 23 * * *" dailyJournalTask ;;;
   registerTask "runwayCheck" "0 */6 * * *" runwayCheckTask ;;;
   registerTask "goalReview" "15 0 * * *" goalReviewTask ;;;
   registerTask "weeklyReview" "0 12 * * 0" weeklyReviewTask ;;;
   registerTask "healthCheck" "*/5 * * * *" healthCheckTask ;;;
   Prog.modify (fun st =>
     let (started, entries) := start_jobs (tasks st) in
     mkState started (log st ++ entries)) ;;;
   st <~ Prog.get ;;
   emit (mkLog LInfo "Scheduler started"
           [("taskCount", LNum (Z.of_nat (length (tasks st))))]))%prog.

Definition stopScheduler : Prog.t State unit :=
  (emit (mkLog LInfo "Stopping scheduler" []) ;;;
   Prog.modify (fun st =>
     mkState []
       (log st ++
        List.map (fun task => mkLog LDebug ("Stopped cron job: " ++ name task) [])
          (List.filter (fun task => bool_decide (is_Some (job task)))
             (tasks st)))) ;;;
   emit (mkLog LInfo "Scheduler stopped" []))%prog.

End WithCron.

Definition getSchedulerStatus (st : State) : list (string * string) :=
  List.map (fun task => (name task, schedule task)) (tasks st).

End Scheduler.

(** ** src/core/claude-client.ts *)

Module ClaudeClient.
Import Js Logger.

Definition MODEL : string := "claude-sonnet-4-5-20250929".
Definition MAX_RETRIES : Z := 3.
Definition BASE_DELAY_MS : Z := 1000.

Record GenerateContentResponse : Type := mkResult {
  content : string;
  inputTokens : Z;
  outputTokens : Z;
}.

(** The error class raised when every attempt failed. *)
Record ClaudeClientError : Type := mkClientError {
  error_message : string;
  cause : option thrown;
  isRateLimit : bool;
}.

(** The argument of [anthropic.messages.create]. *)
Record Request : Type := mkRequest {
  req_model : string;
  req_max_tokens : Z;
  req_system : string;
  req_messages : list (string * string);
}.

Record ContentBlock : Type := mkBlock {
  block_type : string;
  block_text : string;
}.

Record ApiResponse : Type := mkApiResponse {
  resp_content : list ContentBlock;
  resp_input_tokens : Z;
  resp_output_tokens : Z;
}.

(** What the client has done: the requests sent, the backoff sleeps taken
    (in milliseconds) and the log. *)
Record State : Type := mkState {
  requests : list Request;
  sleeps : list Z;
  log : list LogEntry;
}.

Definition init : State := mkState [] [] [].

Definition isRateLimitError (error : option thrown) : bool :=
  match error with
  | Some (ErrorObj name message status) =>
      if String.eqb name "RateLimitError" then true
      else if includes "rate limit" (toLowerCase message) then true
      else match status with
           | Some code => code =? 429
           | None => false
           end
  | Some (NonError _) => false
  | None => false
  end.

(** [error instanceof Error ? error : new Error(String(error))] *)
Definition toError (error : thrown) : thrown :=
  match error with
  | ErrorObj _ _ _ => error
  | NonError text => mkError text
  end.

(** [lastError?.message] inside a template literal. *)
Definition message_text (lastError : option thrown) : string :=
  match lastError with
  | Some (ErrorObj _ message _) => message
  | Some (NonError _) => "undefined"
  | None => "undefined"
  end.

Definition emit (e : LogEntry) : Prog.t State unit :=
  Prog.modify (fun st => mkState (requests st) (sleeps st) (log st ++ [e])).

Definition sleep (ms : Z) : Prog.t State unit :=
  Prog.modify (fun st => mkState (requests st) (sleeps st ++ [ms]) (log st)).

Section WithTransport.

(** The transport behind [anthropic.messages.create]: how its n-th
    invocation (counting from 0) ends.  [getClient()] only memoises the SDK
    object built from the validated configuration. *)
Variable transport : nat -> Request -> outcome ApiResponse.

Definition messages_create (req : Request) : Prog.exc State ApiResponse :=
  fun st =>
    (transport (length (requests st)) req,
     mkState (requests st ++ [req]) (sleeps st) (log st)).

Definition buildRequest (systemPrompt userPrompt : string) : Request :=
  mkRequest MODEL 8192 systemPrompt [("user", userPrompt)].

(** The [try] block of one attempt. *)
Definition attempt_once (attempt : Z) (systemPrompt userPrompt : string)
  : Prog.exc State GenerateContentResponse :=
  (Prog.lift (emit (mkLog LInfo "Making API call"
     [("attempt", LNum attempt); ("model", LStr MODEL);
      ("systemPromptLength", LNum (Z.of_nat (String.length systemPrompt)));
      ("userPromptLength", LNum (Z.of_nat (String.length userPrompt)))])) ;;;
   response <~? messages_create (buildRequest systemPrompt userPrompt) ;;
   let textContent :=
     List.find (fun block => String.eqb (block_type block) "text")
       (resp_content response) in
   let content :=
     match textContent with
     | Some block =>
         if String.eqb (block_type block) "text" then block_text block else ""
     | None => ""
     end in
   let result :=
     mkResult content (resp_input_tokens response)
       (resp_output_tokens response) in
   Prog.lift (emit (mkLog LInfo "API call successful"
     [("attempt", LNum attempt);
      ("inputTokens", LNum (inputTokens result));
      ("outputTokens", LNum (outputTokens result))])) ;;;
   Prog.pure result)%prog.

(** The statements after the loop. *)
Definition after_loop (lastError : option thrown)
  : Prog.t State (GenerateContentResponse + ClaudeClientError) :=
  let isRateLimit := isRateLimitError lastError in
  Prog.ret
    (inr (mkClientError
            ("Failed after " ++ pretty MAX_RETRIES ++ " attempts: "
             ++ message_text lastError)
            lastError isRateLimit)).

(** [for (let attempt = 1; attempt <= MAX_RETRIES; attempt++)]; [fuel]
    bounds the iterations that remain. *)
Fixpoint retry_loop (fuel : nat) (attempt : Z) (lastError : option thrown)
    (systemPrompt userPrompt : string)
  : Prog.t State (GenerateContentResponse + ClaudeClientError) :=
  match fuel with
  | O => after_loop lastError
  | S fuel' =>
      if attempt <=? MAX_RETRIES then
        (r <~ attempt_once attempt systemPrompt userPrompt ;;
         match r with
         | Resolved result => Prog.ret (inl result)
         | Rejected error =>
             let lastError' := toError error in
             let isRateLimit := isRateLimitError (Some error) in
             emit (mkLog LWarn "API call failed"
               [("attempt", LNum attempt);
                ("error", LStr (message_text (Some lastError')));
                ("isRateLimit", LBool isRateLimit)]) ;;;
             (if attempt <? MAX_RETRIES then
                let delayMs := BASE_DELAY_MS * 2 ^ (attempt - 1) in
                emit (mkLog LInfo "Retrying after delay"
                  [("delayMs", LNum delayMs);
                   ("nextAttempt", LNum (attempt + 1))]) ;;;
                sleep delayMs
              else Prog.ret tt) ;;;
             retry_loop fuel' (attempt + 1) (Some lastError')
               systemPrompt userPrompt
         end)%prog
      else after_loop lastError
  end.

Definition generateContent (systemPrompt userPrompt : string)
  : Prog.t State (GenerateContentResponse + ClaudeClientError) :=
  retry_loop (S (Z.to_nat MAX_RETRIES)) 1 None systemPrompt userPrompt.

End WithTransport.

End ClaudeClient.

(** ** src/website/deploy-trigger.ts *)

Module DeployTrigger.
Import Js Json Logger.

(** The part of the validated configuration the trigger reads. *)
Record Config : Type := mkConfig {
  WEBSITE_DEPLOY_HOOK : string;
}.

(** The arguments of one [fetch] call. *)
Record PostRequest : Type := mkPost {
  post_url : string;
  post_method : string;
  post_headers : list (string * string);
}.

(** A [Response]: its status line and how [response.json()] ends. *)
Record HttpResponse : Type := mkResponse {
  status : Z;
  statusText : string;
  body_json : outcome json;
}.

(** [response.ok]: the status is in the range 200-299. *)
Definition ok (response : HttpResponse) : bool :=
  (200 <=? status response) && (status response <=? 299).

(** The POSTs sent, the backoff delays taken (in milliseconds), the log. *)
Record State : Type := mkState {
  posts : list PostRequest;
  delays : list Z;
  log : list LogEntry;
}.

Definition init : State := mkState [] [] [].

Definition emit (e : LogEntry) : Prog.t State unit :=
  Prog.modify (fun st => mkState (posts st) (delays st) (log st ++ [e])).

Definition delay (ms : Z) : Prog.t State unit :=
  Prog.modify (fun st => mkState (posts st) (delays st ++ [ms]) (log st)).

Definition getBackoffDelay (attempt : Z) : Z := 1000 * 2 ^ attempt.

Definition maxRetries : Z := 3.

Section WithFetch.

Variable rt : Runtime.

(** The configuration [getConfig()] returns; it is validated when the
    process starts. *)
Variable config : Config.

(** The transport behind [fetch]: how its n-th invocation (counting from
    0) ends. *)
Variable fetch : nat -> PostRequest -> outcome HttpResponse.

Definition deployRequest : PostRequest :=
  mkPost (WEBSITE_DEPLOY_HOOK config) "POST"
    [("Content-Type", "application/json")].

Definition do_fetch (req : PostRequest) : Prog.exc State HttpResponse :=
  fun st =>
    (fetch (length (posts st)) req,
     mkState (posts st ++ [req]) (delays st) (log st)).

(** [data.job?.id] *)
Definition job_id (data : json) : outcome (option json) :=
  match readProp rt data "job" with
  | Resolved None => Resolved None
  | Resolved (Some JNull) => Resolved None
  | Resolved (Some job) => readProp rt job "id"
  | Rejected e => Rejected e
  end.

(** The [try] block of one iteration: [Some true] when it executes
    [return true], [None] when control leaves the block at its end. *)
Definition try_block (attempt : Z) : Prog.exc State (option bool) :=
  (Prog.lift (emit (mkLog LInfo "Triggering Vercel deploy"
     [("attempt", LNum (attempt + 1)); ("maxRetries", LNum maxRetries)])) ;;;
   response <~? do_fetch deployRequest ;;
   if ok response then
     (data <~? (fun st => (body_json response, st)) ;;
      jobId <~? (fun st => (job_id data, st)) ;;
      Prog.lift (emit (mkLog LInfo "Deploy triggered successfully"
        [("status", LNum (status response)); ("jobId", LJson jobId)])) ;;;
      Prog.pure (Some true))
   else
     (Prog.lift (emit (mkLog LWarn "Deploy request failed"
        [("status", LNum (status response));
         ("statusText", LStr (statusText response));
         ("attempt", LNum (attempt + 1))])) ;;;
      Prog.pure None))%prog.

Definition catch_block (attempt : Z) (err : thrown)
  : Prog.exc State (option bool) :=
  (Prog.lift (emit (mkLog LWarn "Deploy request error"
     [("error", LStr (messageOr "Unknown error" err));
      ("attempt", LNum (attempt + 1))])) ;;;
   Prog.pure None)%prog.

(** The statements after the loop. *)
Definition after_loop : Prog.exc State bool :=
  (Prog.lift (emit (mkLog LError "Deploy failed after all retries"
     [("maxRetries", LNum maxRetries)])) ;;;
   Prog.pure false)%prog.

(** [for (let attempt = 0; attempt < maxRetries; attempt++)]; [fuel]
    bounds the iterations that remain. *)
Fixpoint deploy_loop (fuel : nat) (attempt : Z) : Prog.exc State bool :=
  match fuel with
  | O => after_loop
  | S fuel' =>
      if attempt <? maxRetries then
        (r <~ Prog.try_catch (try_block attempt) (catch_block attempt) ;;
         match r with
         | Resolved (Some result) => Prog.pure result
         | Resolved None =>
             (if attempt <? maxRetries - 1 then
                let backoffDelay := getBackoffDelay attempt in
                emit (mkLog LInfo "Retrying deploy"
                        [("backoffMs", LNum backoffDelay)]) ;;;
                delay backoffDelay
              else Prog.ret tt) ;;;
             deploy_loop fuel' (attempt + 1)
         | Rejected err => Prog.throw err
         end)%prog
      else after_loop
  end.

Definition triggerDeploy : Prog.exc State bool :=
  deploy_loop (S (Z.to_nat maxRetries)) 0.

(** Whether an attempt with this [fetch] outcome reaches [return true]:
    a response in the 2xx range whose body parses to a value other than
    [null]. *)
Definition attempt_succeeds (o : outcome HttpResponse) : bool :=
  match o with
  | Resolved response =>
      ok response &&
      match body_json response with
      | Resolved JNull => false
      | Resolved _ => true
      | Rejected _ => false
      end
  | Rejected _ => false
  end.

End WithFetch.

End DeployTrigger.

(** ** src/core/output-processor.ts

    The [log.*] calls of this file only write to the console and are left
    out; everything else is kept, stage by stage. *)

Module OutputProcessor.
Import Js Json.

(** [ClaudeResponse]; the optional [usage], [model] and [stop_reason] are
    never read here. *)
Record ClaudeResponse : Type := mkResponse {
  content : string;
}.

Record ContentMetadata : Type := mkMetadata {
  day : number;
  hour : option number;
  timestamp : string;
  runway_days : number;
  urgency : string;
  current_strategy : string;
  word_count : nat;
}.

Record ProcessResult : Type := mkResult {
  success : bool;
  localSaved : bool;
  memorySaved : bool;
  deployed : bool;
  metricsUpdated : bool;
  errors : list string;
}.

(** What [MetricsTracker.getMetrics] resolves to. *)
Record MetricsSnapshot : Type := mkSnapshot {
  thingsShipped : number;
  revenueTotal : number;
  currentStrategy : string;
}.

(** What [RunwayTracker.getRunwayStatus] resolves to. *)
Record RunwayStatus : Type := mkRunway {
  currentDay : number;
  daysRemaining : number;
  runwayDays : number;
  urgencyLevel : string;
}.

(** What the memory store resolves to. *)
Record StoreResult : Type := mkStore {
  store_success : bool;
}.

(** A call on a dependency, with its arguments. *)
Inductive Call : Type :=
| CallGetRunwayStatus
| CallGetMetrics
| CallWriteHourlyUpdate (day hour : number) (content : string)
    (metadata : ContentMetadata)
| CallWriteDailyJournal (day : number) (content : string)
    (metadata : ContentMetadata)
| CallUpdateLanding (currentDay daysRemaining runwayDays thingsShipped
    revenueTotal : number) (currentStrategy : string)
| CallStoreHourlyUpdate (content : string) (metadata : list (string * json))
| CallStoreDailyJournal (content : string) (metadata : list (string * json))
| CallStoreStrategicLearning (content : json) (category : string)
    (confidence : number)
| CallSetStrategy (strategy : string)
| CallTriggerDeploy.

(** A call that was made, and what it threw if it did. *)
Record Event : Type := mkEvent {
  event_call : Call;
  event_threw : option thrown;
}.

Section WithWorld.

(** Whatever the injected dependencies keep between calls. *)
Variable W : Type.

(** [OutputProcessorDeps], flattened: every method acts on the world and
    resolves or rejects. *)
Record OutputProcessorDeps : Type := mkDeps {
  writeHourlyUpdate :
    number -> number -> string -> ContentMetadata -> W -> outcome unit * W;
  writeDailyJournal :
    number -> string -> ContentMetadata -> W -> outcome unit * W;
  updateLanding :
    number -> number -> number -> number -> number -> string ->
    W -> outcome unit * W;
  storeHourlyUpdate :
    string -> list (string * json) -> W -> outcome StoreResult * W;
  storeDailyJournal :
    string -> list (string * json) -> W -> outcome StoreResult * W;
  storeStrategicLearning :
    json -> string -> number -> W -> outcome StoreResult * W;
  getMetrics : W -> outcome MetricsSnapshot * W;
  setStrategy : string -> W -> outcome unit * W;
  getRunwayStatus : W -> outcome RunwayStatus * W;
  triggerDeploy : W -> outcome bool * W;
}.

(** The world and the record of the calls made on the dependencies. *)
Record PState : Type := mkPState {
  world : W;
  trace : list Event;
}.

Definition invoke {A} (c : Call) (f : W -> outcome A * W)
  : Prog.exc PState A :=
  fun st =>
    let (r, w) := f (world st) in
    (r, mkPState w (trace st ++ [mkEvent c (threw r)])).

Definition parseContent (response : ClaudeResponse) : outcome string :=
  if String.eqb (content response) "" then
    Rejected (mkError "Empty response content from Claude")
  else
    let trimmed := trim (content response) in
    if String.eqb trimmed "" then
      Rejected (mkError "Empty response content from Claude")
    else Resolved trimmed.

(** [content.split(/\s+/).filter((word) => word.length > 0).length]: the
    number of maximal runs of characters that are not white space. *)
Fixpoint count_runs (in_word : bool) (s : string) : nat :=
  match s with
  | EmptyString => 0
  | String c rest =>
      if is_whitespace c then count_runs false rest
      else ((if in_word then 0 else 1) + count_runs true rest)%nat
  end.

Definition countWords (content : string) : nat := count_runs false content.

Definition createFailedResult (errors : list string) : ProcessResult :=
  mkResult false false false false false errors.

(** [await Promise.all([getRunwayStatus(), getMetrics()])]: both calls are
    made, then the pair is awaited.  When both reject, the runtime reports
    the one that settles first; the embedding reports the runway one. *)
Definition gather_status (deps : OutputProcessorDeps)
  : Prog.exc PState (RunwayStatus * MetricsSnapshot) :=
  (r1 <~ invoke CallGetRunwayStatus (getRunwayStatus deps) ;;
   r2 <~ invoke CallGetMetrics (getMetrics deps) ;;
   Prog.ret
     match r1, r2 with
     | Resolved runwayStatus, Resolved metrics =>
         Resolved (runwayStatus, metrics)
     | Rejected err, _ => Rejected err
     | _, Rejected err => Rejected err
     end)%prog.

(** Steps 4 to 6 differ between the two content pipelines only in the
    store method; each is a [try]/[catch] that records and goes on. *)
Definition memory_stage (stored : outcome StoreResult) : bool * list string :=
  match stored with
  | Resolved result =>
      if store_success result then (true, [])
      else (false, ["Memory store returned unsuccessful"])
  | Rejected err =>
      (false, ["Memory store failed: " ++ messageOr "Memory store error" err])
  end.

Definition landing_stage (landed : outcome unit) : bool * list string :=
  match landed with
  | Resolved _ => (true, [])
  | Rejected err =>
      (false,
       ["Landing update failed: " ++ messageOr "Landing update error" err])
  end.

Definition deploy_stage (triggered : outcome bool) : bool * list string :=
  match triggered with
  | Resolved true => (true, [])
  | Resolved false => (false, ["Deploy trigger returned false"])
  | Rejected err => (false, ["Deploy failed: " ++ messageOr "Deploy error" err])
  end.

Definition local_stage (saved : outcome unit) : bool * list string :=
  match saved with
  | Resolved _ => (true, [])
  | Rejected err =>
      (false, ["Local save failed: " ++ messageOr "Failed to save locally" err])
  end.

Section WithClock.

(** The text [new Date().toISOString()] yields during the run. *)
Variable now : string.

Definition processHourlyOutput (response : ClaudeResponse) (day hour : number)
    (deps : OutputProcessorDeps) : Prog.t PState ProcessResult :=
  match parseContent response with
  | Rejected err =>
      Prog.ret (createFailedResult [messageOr "Failed to parse content" err])
  | Resolved content =>
      (status <~ gather_status deps ;;
       match status with
       | Rejected err =>
           Prog.ret (createFailedResult [messageOr "Failed to get status" err])
       | Resolved (runwayStatus, metrics) =>
           let metadata :=
             mkMetadata day (Some hour) now (runwayDays runwayStatus)
               (urgencyLevel runwayStatus) (currentStrategy metrics)
               (countWords content) in
           saved <~ invoke (CallWriteHourlyUpdate day hour content metadata)
                      (writeHourlyUpdate deps day hour content metadata) ;;
           let (localSaved, errors3) := local_stage saved in
           let memoryMetadata :=
             [("type", JStr "hourly_update"); ("day", JNum day);
              ("hour", JNum hour); ("timestamp", JStr (timestamp metadata));
              ("runway_days", JNum (runway_days metadata));
              ("current_strategy", JStr (current_strategy metadata))] in
           stored <~ invoke (CallStoreHourlyUpdate content memoryMetadata)
                       (storeHourlyUpdate deps content memoryMetadata) ;;
           let (memorySaved, errors4) := memory_stage stored in
           landed <~ invoke
                       (CallUpdateLanding day (daysRemaining runwayStatus)
                          (runwayDays runwayStatus) (thingsShipped metrics)
                          (revenueTotal metrics) (currentStrategy metrics))
                       (updateLanding deps day (daysRemaining runwayStatus)
                          (runwayDays runwayStatus) (thingsShipped metrics)
                          (revenueTotal metrics) (currentStrategy metrics)) ;;
           let (metricsUpdated, errors5) := landing_stage landed in
           triggered <~ invoke CallTriggerDeploy (triggerDeploy deps) ;;
           let (deployed, errors6) := deploy_stage triggered in
           let success := localSaved in
           Prog.ret
             (mkResult success localSaved memorySaved deployed metricsUpdated
                (errors3 ++ errors4 ++ errors5 ++ errors6))
       end)%prog
  end.

Definition processJournalOutput (response : ClaudeResponse) (day : number)
    (deps : OutputProcessorDeps) : Prog.t PState ProcessResult :=
  match parseContent response with
  | Rejected err =>
      Prog.ret (createFailedResult [messageOr "Failed to parse content" err])
  | Resolved content =>
      (status <~ gather_status deps ;;
       match status with
       | Rejected err =>
           Prog.ret (createFailedResult [messageOr "Failed to get status" err])
       | Resolved (runwayStatus, metrics) =>
           let metadata :=
             mkMetadata day None now (runwayDays runwayStatus)
               (urgencyLevel runwayStatus) (currentStrategy metrics)
               (countWords content) in
           saved <~ invoke (CallWriteDailyJournal day content metadata)
                      (writeDailyJournal deps day content metadata) ;;
           let (localSaved, errors3) := local_stage saved in
           let memoryMetadata :=
             [("type", JStr "daily_journal"); ("day", JNum day);
              ("timestamp", JStr (timestamp metadata));
              ("runway_days", JNum (runway_days metadata));
              ("current_strategy", JStr (current_strategy metadata))] in
           stored <~ invoke (CallStoreDailyJournal content memoryMetadata)
                       (storeDailyJournal deps content memoryMetadata) ;;
           let (memorySaved, errors4) := memory_stage stored in
           landed <~ invoke
                       (CallUpdateLanding day (daysRemaining runwayStatus)
                          (runwayDays runwayStatus) (thingsShipped metrics)
                          (revenueTotal metrics) (currentStrategy metrics))
                       (updateLanding deps day (daysRemaining runwayStatus)
                          (runwayDays runwayStatus) (thingsShipped metrics)
                          (revenueTotal metrics) (currentStrategy metrics)) ;;
           let (metricsUpdated, errors5) := landing_stage landed in
           triggered <~ invoke CallTriggerDeploy (triggerDeploy deps) ;;
           let (deployed, errors6) := deploy_stage triggered in
           let success := localSaved in
           Prog.ret
             (mkResult success localSaved memorySaved deployed metricsUpdated
                (errors3 ++ errors4 ++ errors5 ++ errors6))
       end)%prog
  end.

End WithClock.

(** *** The decision pipeline *)

Definition ACTIVITY_TYPES : list string :=
  ["BUILD"; "WRITE"; "RESEARCH"; "ANALYZE"; "ITERATE"; "SHIP"].

(** The [ActivityDecision] view of a validated object: [parsed] is the
    object itself, the other fields are what validation found in it. *)
Record ActivityDecision : Type := mkDecision {
  parsed : json;
  activities : list json;
  urgency_assessment : string;
  confidence_in_strategy : number;
  strategy_notes : option json;
}.

Record ActivityResult : Type := mkActivityResult {
  result : ProcessResult;
  decision : option ActivityDecision;
}.

Fixpoint skip (n : nat) (s : string) : string :=
  match n, s with
  | O, _ => s
  | S n', String _ rest => skip n' rest
  | S _, EmptyString => EmptyString
  end.

(** The text after the first run of three backticks. *)
Fixpoint after_fence (s : string) : option string :=
  if String.prefix "```" s then Some (skip 3 s)
  else match s with
       | EmptyString => None
       | String _ rest => after_fence rest
       end.

(** The text before the first run of three backticks. *)
Fixpoint before_fence (s : string) : option string :=
  if String.prefix "```" s then Some EmptyString
  else match s with
       | EmptyString => None
       | String c rest =>
           match before_fence rest with
           | Some inner => Some (String c inner)
           | None => None
           end
       end.

(** Group 1 of [content.match(/```(?:json)?\s*([\s\S]*?)```/)]: after the
    opening fence an optional "json" and white space are skipped, and the
    capture runs to the next fence; without a closing fence nothing
    matches. *)
Definition fence_capture (content : string) : option string :=
  match after_fence content with
  | None => None
  | Some rest =>
      let rest1 := if String.prefix "json" rest then skip 4 rest else rest in
      before_fence (trimStart rest1)
  end.

(** The text handed to [JSON.parse]. *)
Definition json_text (content : string) : string :=
  match fence_capture content with
  | Some inner => trim inner
  | None => content
  end.

Definition is_activity_type (ty : option json) : bool :=
  match ty with
  | Some (JStr s) => existsb (String.eqb s) ACTIVITY_TYPES
  | _ => false
  end.

(** The double nearest to 0.4, and 0.5. *)
Definition number_0_4 : number :=
  Finite (3602879701896397 # 9007199254740992).
Definition number_0_5 : number := Finite (1 # 2).

Section WithRuntime.

Variable rt : Runtime.

(** The body of the loop over [parsed.activities]. *)
Definition validate_activity (activity : json) : outcome unit :=
  match readProp rt activity "type" with
  | Rejected e => Rejected e
  | Resolved ty =>
      if negb (is_activity_type ty) then
        Rejected (mkError ("Invalid activity type: " ++ toText_opt rt ty))
      else
        match readProp rt activity "action",
              readProp rt activity "reasoning" with
        | Resolved action, Resolved reasoning =>
            if negb (truthy action) || negb (truthy reasoning) then
              Rejected (mkError "Activity missing action or reasoning")
            else Resolved tt
        | Rejected e, _ => Rejected e
        | _, Rejected e => Rejected e
        end
  end.

Fixpoint validate_activities (items : list json) : outcome unit :=
  match items with
  | [] => Resolved tt
  | activity :: rest =>
      match validate_activity activity with
      | Resolved _ => validate_activities rest
      | Rejected e => Rejected e
      end
  end.

(** The checks of the [try] block of [parseActivityDecision] that follow
    [JSON.parse]. *)
Definition validate_decision (parsed : json) : outcome ActivityDecision :=
  match readProp rt parsed "activities" with
  | Rejected e => Rejected e
  | Resolved (Some (JArr activities)) =>
      match readProp rt parsed "urgency_assessment" with
      | Rejected e => Rejected e
      | Resolved (Some (JStr urgency)) =>
          match readProp rt parsed "confidence_in_strategy" with
          | Rejected e => Rejected e
          | Resolved (Some (JNum confidence)) =>
              match validate_activities activities with
              | Rejected e => Rejected e
              | Resolved _ =>
                  match readProp rt parsed "strategy_notes" with
                  | Rejected e => Rejected e
                  | Resolved notes =>
                      Resolved
                        (mkDecision parsed activities urgency confidence notes)
                  end
              end
          | Resolved _ => Rejected (mkError "Missing confidence_in_strategy")
          end
      | Resolved _ => Rejected (mkError "Missing urgency_assessment")
      end
  | Resolved _ => Rejected (mkError "Missing activities array")
  end.

Definition parseActivityDecision (response : ClaudeResponse)
  : outcome ActivityDecision :=
  match parseContent response with
  | Rejected e => Rejected e
  | Resolved content =>
      let jsonStr := json_text content in
      let attempt :=
        match JSON_parse rt jsonStr with
        | Rejected e => Rejected e
        | Resolved parsed => validate_decision parsed
        end in
      match attempt with
      | Resolved decision => Resolved decision
      | Rejected err =>
          Rejected
            (mkError ("Failed to parse activity decision JSON: "
                      ++ messageOr "Unknown error" err))
      end
  end.

(** [decision.strategy_notes?.toLowerCase().includes("pivot")]: skipped for
    [undefined] and [null], a [TypeError] for a value that is not a
    string. *)
Definition mentions_pivot (notes : option json) : outcome bool :=
  match notes with
  | None => Resolved false
  | Some JNull => Resolved false
  | Some (JStr s) => Resolved (includes "pivot" (toLowerCase s))
  | Some _ =>
      Rejected
        (ErrorObj "TypeError" (not_a_function_message rt "toLowerCase") None)
  end.

Definition processActivityOutput (response : ClaudeResponse)
    (deps : OutputProcessorDeps) : Prog.exc PState ActivityResult :=
  match parseActivityDecision response with
  | Rejected err =>
      Prog.pure
        (mkActivityResult
           (createFailedResult
              [messageOr "Failed to parse activity decision" err])
           None)
  | Resolved decision =>
      (learned <~
         (if lt (confidence_in_strategy decision) number_0_5
             && truthy (strategy_notes decision)
          then
            match strategy_notes decision with
            | Some notes =>
                stored <~ invoke
                            (CallStoreStrategicLearning notes "strategy_concern"
                               (confidence_in_strategy decision))
                            (storeStrategicLearning deps notes "strategy_concern"
                               (confidence_in_strategy decision)) ;;
                Prog.ret
                  match stored with
                  | Resolved stored_result => (store_success stored_result, [])
                  | Rejected err =>
                      (false,
                       ["Strategic learning store failed: "
                        ++ messageOr "Memory store error" err])
                  end
            | None => Prog.ret (false, [])
            end
          else Prog.ret (false, [])) ;;
       let (memorySaved, errors2) := learned : bool * list string in
       match mentions_pivot (strategy_notes decision) with
       | Rejected err => Prog.throw err
       | Resolved pivot =>
           updated <~
             (if pivot && lt (confidence_in_strategy decision) number_0_4 then
                let newStrategy :=
                  "Pivoting: " ++ slice0 100 (urgency_assessment decision) in
                changed <~ invoke (CallSetStrategy newStrategy)
                             (setStrategy deps newStrategy) ;;
                Prog.ret
                  match changed with
                  | Resolved _ => (true, [])
                  | Rejected err =>
                      (false,
                       ["Strategy update failed: "
                        ++ messageOr "Metrics update error" err])
                  end
              else Prog.ret (false, [])) ;;
           let (metricsUpdated, errors3) := updated : bool * list string in
           Prog.pure
             (mkActivityResult
                (mkResult true false memorySaved false metricsUpdated
                   (errors2 ++ errors3))
                (Some decision))
       end)%prog
  end.

End WithRuntime.

(** *** The structural contract, in the words of the specification *)

(** An element of [activities] passes when it is an object whose [type]
    is one of the six names and whose [action] and [reasoning] are truthy
    (for a string: non-empty). *)
Definition well_formed_activity (activity : json) : Prop :=
  exists fields ty,
    activity = JObj fields /\
    assoc "type" fields = Some (JStr ty) /\
    In ty ACTIVITY_TYPES /\
    truthy (assoc "action" fields) = true /\
    truthy (assoc "reasoning" fields) = true.

(** A decision passes when [activities] is an array of such elements,
    [urgency_assessment] a string and [confidence_in_strategy] a number. *)
Definition well_formed_decision (v : json) : Prop :=
  exists fields items urgency confidence,
    v = JObj fields /\
    assoc "activities" fields = Some (JArr items) /\
    Forall well_formed_activity items /\
    assoc "urgency_assessment" fields = Some (JStr urgency) /\
    assoc "confidence_in_strategy" fields = Some (JNum confidence).

(** A response passes when its trimmed content is not empty and the text
    handed to [JSON.parse] parses to a decision that passes. *)
Definition acceptable_response (rt : Runtime) (response : ClaudeResponse)
  : Prop :=
  exists content v,
    parseContent response = Resolved content /\
    JSON_parse rt (json_text content) = Resolved v /\
    well_formed_decision v.

End WithWorld.

Arguments mkPState {W} world trace.
Arguments world {W} p.
Arguments trace {W} p.

End OutputProcessor.

(** ** Sample inputs

    Concrete responses, runtimes and dependencies on which the embedding
    is run in Part II. *)

Module Samples.
Import Js Json OutputProcessor.

Definition dq : string := String (ascii_of_nat 34) EmptyString.

(** [s] between double quotes, as JSON writes a string. *)
Definition quoted (s : string) : string := dq ++ s ++ dq.

(** A runtime whose [JSON.parse] knows one text and the value it denotes,
    and rejects every other text. *)
Definition runtime_for (text : string) (value : json) : Runtime :=
  mkRuntime
    (fun s =>
       if String.eqb s text then Resolved value
       else Rejected (ErrorObj "SyntaxError" "JSON Parse error" None))
    (fun _ => "0")
    (fun key => "null is not an object (reading " ++ key ++ ")")
    (fun key => key ++ " is not a function").

(** Dependencies that all succeed and keep no state. *)
Definition quiet_deps : OutputProcessorDeps unit :=
  mkDeps unit
    (fun _ _ _ _ w => (Resolved tt, w))
    (fun _ _ _ w => (Resolved tt, w))
    (fun _ _ _ _ _ _ w => (Resolved tt, w))
    (fun _ _ w => (Resolved (mkStore true), w))
    (fun _ _ w => (Resolved (mkStore true), w))
    (fun _ _ _ w => (Resolved (mkStore true), w))
    (fun w => (Resolved (mkSnapshot (of_Z 5) (of_Z 100) "Build valuable tools"), w))
    (fun _ w => (Resolved tt, w))
    (fun w => (Resolved (mkRunway (of_Z 10) (of_Z 90) (of_Z 8) "focused"), w))
    (fun w => (Resolved true, w)).

(** A decision with no activity at all. *)
Definition empty_plan_text : string :=
  "{" ++ quoted "activities" ++ ": [], "
      ++ quoted "urgency_assessment" ++ ": " ++ quoted "calm" ++ ", "
      ++ quoted "confidence_in_strategy" ++ ": 0.75}".

Definition empty_plan : json :=
  JObj [("activities", JArr []);
        ("urgency_assessment", JStr "calm");
        ("confidence_in_strategy", JNum (Finite (3 # 4)))].

(** A decision whose only activity has a type outside the six names. *)
Definition play_plan_text : string :=
  "{" ++ quoted "activities" ++ ": [{"
      ++ quoted "type" ++ ": " ++ quoted "PLAY" ++ ", "
      ++ quoted "action" ++ ": " ++ quoted "rest" ++ ", "
      ++ quoted "reasoning" ++ ": " ++ quoted "tired" ++ ", "
      ++ quoted "duration_minutes" ++ ": 30}], "
      ++ quoted "urgency_assessment" ++ ": " ++ quoted "calm" ++ ", "
      ++ quoted "confidence_in_strategy" ++ ": 0.75}".

Definition play_plan : json :=
  JObj [("activities",
         JArr [JObj [("type", JStr "PLAY"); ("action", JStr "rest");
                     ("reasoning", JStr "tired");
                     ("duration_minutes", JNum (of_Z 30))]]);
        ("urgency_assessment", JStr "calm");
        ("confidence_in_strategy", JNum (Finite (3 # 4)))].

(** The empty plan inside a fenced block, as a model sometimes answers. *)
Definition nl : string := String (ascii_of_nat 10) EmptyString.

Definition fenced_empty_plan_text : string :=
  "Here is my plan:" ++ nl ++ "```json" ++ nl ++ empty_plan_text ++ nl ++ "```".

(** Dependencies whose remote memory store is down. *)
Definition store_down_deps : OutputProcessorDeps unit :=
  mkDeps unit
    (fun _ _ _ _ w => (Resolved tt, w))
    (fun _ _ _ w => (Resolved tt, w))
    (fun _ _ _ _ _ _ w => (Resolved tt, w))
    (fun _ _ w => (Rejected (mkError "Network error"), w))
    (fun _ _ w => (Rejected (mkError "Network error"), w))
    (fun _ _ _ w => (Rejected (mkError "Network error"), w))
    (fun w => (Resolved (mkSnapshot (of_Z 5) (of_Z 100) "Build valuable tools"), w))
    (fun _ w => (Resolved tt, w))
    (fun w => (Resolved (mkRunway (of_Z 10) (of_Z 90) (of_Z 8) "focused"), w))
    (fun w => (Resolved true, w)).

(** A completion transport that fails twice and then answers. *)
Definition flaky_transport (k : nat) (_ : ClaudeClient.Request)
  : outcome ClaudeClient.ApiResponse :=
  if (k <? 2)%nat then Rejected (mkError "API Error")
  else Resolved
         (ClaudeClient.mkApiResponse
            [ClaudeClient.mkBlock "text" "Success after retries"] 100 50).

(** A deploy hook that answers 500 once and then accepts. *)
Definition flaky_hook (k : nat) (_ : DeployTrigger.PostRequest)
  : outcome DeployTrigger.HttpResponse :=
  if (k <? 1)%nat then
    Resolved (DeployTrigger.mkResponse 500 "Internal Server Error"
                (Rejected (ErrorObj "SyntaxError" "Unexpected end of JSON input"
                             None)))
  else
    Resolved (DeployTrigger.mkResponse 200 "OK"
                (Resolved (JObj [("job", JObj [("id", JStr "test-job")])]))).

End Samples.

(** ** src/core/claude-client.ts: what a response yields *)

Module ClaudeClientView.
Import ClaudeClient.

(** The text of the first block of type "text", or the empty string when
    the response has none. *)
Definition text_of (response : ApiResponse) : string :=
  match List.find (fun block => String.eqb (block_type block) "text")
          (resp_content response) with
  | Some block => block_text block
  | None => ""
  end.

Definition result_of (response : ApiResponse) : GenerateContentResponse :=
  mkResult (text_of response) (resp_input_tokens response)
    (resp_output_tokens response).

(** The backoff sleeps, in order. *)
Definition backoff_schedule : list Z :=
  [BASE_DELAY_MS * 2 ^ (1 - 1); BASE_DELAY_MS * 2 ^ (2 - 1)].

End ClaudeClientView.

(** ** src/scheduler/index.ts: the registry over a run of the process *)

Module SchedulerRuns.
Import Scheduler.

(** The registrations [startScheduler] makes, in order. *)
Definition DEFAULT_TASKS : list (string * string * Handler) :=
  [("activityDecision", "55 * * * *", activityDecisionTask);
   ("hourlyUpdate", "50 * * * *", hourlyUpdateTask);
   ("dailyJournal", "0 23 * * *", dailyJournalTask);
   ("runwayCheck", "0 */6 * * *", runwayCheckTask);
   ("goalReview", "15 0 * * *", goalReviewTask);
   ("weeklyReview", "0 12 * * 0", weeklyReviewTask);
   ("healthCheck", "*/5 * * * *", healthCheckTask)].

(** The registry states the module can be in: it starts empty and changes
    only through its three functions. *)
Inductive reachable (validate : string -> bool) : State -> Prop :=
| reach_init : reachable validate (mkState [] [])
| reach_register st name schedule handler :
    reachable validate st ->
    reachable validate (snd (registerTask validate name schedule handler st))
| reach_start st :
    reachable validate st ->
    reachable validate (snd (startScheduler validate st))
| reach_stop st :
    reachable validate st ->
    reachable validate (snd (stopScheduler st)).

(** The name and schedule of the default registrations that
    [cron.validate] accepts. *)
Definition accepted_defaults (validate : string -> bool)
  : list (string * string) :=
  List.map (fun entry => (fst (fst entry), snd (fst entry)))
    (List.filter (fun entry => validate (snd (fst entry))) DEFAULT_TASKS).

End SchedulerRuns.

(** ** src/utils/time.ts

    Times are milliseconds since the epoch, as [Date.prototype.getTime]
    gives them; [start_ms] is [getStartDate().getTime()], midnight UTC of
    the configured START_DATE, and the configured day counts are the
    integers [Number.parseInt] produced. *)

Module Time.

Record Env : Type := mkEnv {
  start_ms : Z;
  now_ms : Z;
  TOTAL_DAYS : Z;
  INITIAL_RUNWAY_DAYS : Z;
}.

Definition MS_PER_DAY : Z := 1000 * 60 * 60 * 24.
Definition MS_PER_HOUR : Z := 1000 * 60 * 60.

(** [Math.floor(diffMs / (1000 * 60 * 60 * 24)) + 1] *)
Definition getCurrentDayNumber (env : Env) : Z :=
  let diffMs := now_ms env - start_ms env in
  let diffDays := diffMs / MS_PER_DAY in
  diffDays + 1.

Definition getTotalDays (env : Env) : Z := TOTAL_DAYS env.

Definition getDaysRemaining (env : Env) : Z :=
  let currentDay := getCurrentDayNumber env in
  let totalDays := getTotalDays env in
  Z.max 0 (totalDays - currentDay + 1).

Definition getInitialRunwayDays (env : Env) : Z := INITIAL_RUNWAY_DAYS env.

Definition getHoursSinceStart (env : Env) : Z :=
  let diffMs := now_ms env - start_ms env in
  diffMs / MS_PER_HOUR.

(** The same environment at another instant. *)
Definition at_time (env : Env) (t : Z) : Env :=
  mkEnv (start_ms env) t (TOTAL_DAYS env) (INITIAL_RUNWAY_DAYS env).

End Time.

(** ** src/survival/runway-tracker.ts: the persisted state *)

Module RunwayStore.
Import Js RunwayTracker.

Record RunwayState : Type := mkRunwayState {
  runwayDays : number;
  lastUpdated : string;
}.

Record RunwayStatus : Type := mkRunwayStatus {
  status_currentDay : Z;
  status_daysRemaining : Z;
  status_runwayDays : number;
  status_urgencyLevel : UrgencyLevel;
}.

(** The [.alien] directory, the runway file (absent, or present with the
    outcome of reading it) and the clock text. *)
Record State : Type := mkState {
  dir_exists : bool;
  runway_file : option (outcome string);
  clock : string;
}.

Section WithJson.

(** [JSON.parse(data) as RunwayState] (an unchecked cast in the source:
    what parses is taken to be an object of that shape) and
    [JSON.stringify(state, null, "\t")]. *)
Variable JSON_parse : string -> outcome RunwayState.
Variable JSON_stringify : RunwayState -> string.

Definition loadRunwayState (st : State) : option RunwayState :=
  match runway_file st with
  | None => None
  | Some read =>
      match read with
      | Resolved data =>
          match JSON_parse data with
          | Resolved state => Some state
          | Rejected _ => None
          end
      | Rejected _ => None
      end
  end.

Definition saveRunwayState (state : RunwayState) : Prog.t State unit :=
  Prog.modify (fun st =>
    mkState true (Some (Resolved (JSON_stringify state))) (clock st)).

Definition getRunwayDays (env : Time.Env) (st : State) : number :=
  match loadRunwayState st with
  | Some state => runwayDays state
  | None => of_Z (Time.getInitialRunwayDays env)
  end.

Definition updateRunwayDays (newRunwayDays : number) : Prog.t State unit :=
  fun st => saveRunwayState (mkRunwayState newRunwayDays (clock st)) st.

(** [getRunwayStatus] reads the clock twice: [env] holds the instant of
    the read of [getCurrentDayNumber], [later] is the instant of the read
    of [getDaysRemaining]. *)
Definition getRunwayStatus (env : Time.Env) (later : Z) (st : State)
  : RunwayStatus :=
  let currentDay := Time.getCurrentDayNumber env in
  let daysRemaining := Time.getDaysRemaining (Time.at_time env later) in
  let runwayDays := getRunwayDays env st in
  let urgencyLevel := getUrgencyLevel runwayDays in
  mkRunwayStatus currentDay daysRemaining runwayDays urgencyLevel.

End WithJson.

End RunwayStore.

(** ** src/index.ts: start-up and shutdown steps on the two stores *)

Module Main.
Import Js.

Record State : Type := mkState {
  runway : RunwayStore.State;
  metrics : Metrics.State;
}.

(** A full record passed where a [Partial<Metrics>] is expected. *)
Definition as_partial (m : Metrics.Metrics) : Metrics.PartialMetrics :=
  Metrics.mkPartial (Some (Metrics.thingsShipped m))
    (Some (Metrics.revenueTotal m)) (Some (Metrics.currentStrategy m))
    (Some (Metrics.keyMetrics m)).

Section WithJson.

Variable parse_runway : string -> outcome RunwayStore.RunwayState.
Variable stringify_runway : RunwayStore.RunwayState -> string.
Variable parse_metrics : string -> outcome Metrics.Metrics.
Variable stringify_metrics : option Z -> Metrics.Metrics -> string.

Definition isDay1 (st : State) : bool :=
  match RunwayStore.loadRunwayState parse_runway (runway st) with
  | None => true
  | Some _ => false
  end.


(** The metrics statements of [saveState]:
    [const metrics = getMetrics(); updateMetrics(metrics);] *)
Definition saveState_metrics : Prog.t Metrics.State Metrics.Metrics :=
  (m <~ Metrics.getMetrics parse_metrics ;;
   Metrics.updateMetrics parse_metrics stringify_metrics (as_partial m))%prog.

End WithJson.

End Main.

(** ** More sample inputs *)

Module MoreSamples.
Import Js Json OutputProcessor Samples.

(** A decision whose strategy_notes is a number. *)
Definition numeric_notes_text : string :=
  "{" ++ quoted "activities" ++ ": [], "
      ++ quoted "urgency_assessment" ++ ": " ++ quoted "calm" ++ ", "
      ++ quoted "confidence_in_strategy" ++ ": 0.75, "
      ++ quoted "strategy_notes" ++ ": 7}".

Definition numeric_notes_plan : json :=
  JObj [("activities", JArr []);
        ("urgency_assessment", JStr "calm");
        ("confidence_in_strategy", JNum (Finite (3 # 4)));
        ("strategy_notes", JNum (of_Z 7))].

(** A low-confidence decision that speaks of a pivot. *)
Definition pivot_text : string :=
  "{" ++ quoted "activities" ++ ": [], "
      ++ quoted "urgency_assessment" ++ ": " ++ quoted "runway is short" ++ ", "
      ++ quoted "confidence_in_strategy" ++ ": 0.25, "
      ++ quoted "strategy_notes" ++ ": " ++ quoted "Time to PIVOT" ++ "}".

Definition pivot_plan : json :=
  JObj [("activities", JArr []);
        ("urgency_assessment", JStr "runway is short");
        ("confidence_in_strategy", JNum (Finite (1 # 4)));
        ("strategy_notes", JStr "Time to PIVOT")].

End MoreSamples.

(** ** Further JavaScript built-ins *)

Module JsMore.
Import Js.

(** [d === z] for an integer literal [z]. *)
Definition strict_eq (d : number) (z : Z) : bool :=
  match d with
  | Finite q => Qeq_bool q (inject_Z z)
  | _ => false
  end.

(** [s.split(/\s+/)]: the pieces between the maximal runs of white space.
    [piece] is the piece being read and [in_separator] tells that the
    previous character was white space. *)
Fixpoint split_whitespace (piece : string) (in_separator : bool) (s : string)
  : list string :=
  match s with
  | EmptyString => [piece]
  | String c rest =>
      if is_whitespace c then
        if in_separator then split_whitespace "" true rest
        else piece :: split_whitespace "" true rest
      else split_whitespace (piece ++ String c "") false rest
  end.

Definition split_ws (s : string) : list string := split_whitespace "" false s.

(** The callback of [filter(Boolean)] and of
    [filter((word) => word.length > 0)] on strings. *)
Definition non_empty (word : string) : bool := negb (String.eqb word "").

End JsMore.

(** ** src/tasks/hourly-update.ts (the helpers) *)

Module HourlyUpdateTask.
Import Js JsMore.

Definition getUrgencyLevel (runwayDays : number) : string :=
  if le runwayDays (of_Z 3) then "critical"
  else if le runwayDays (of_Z 7) then "high"
  else if le runwayDays (of_Z 14) then "medium"
  else "low".

(** [text.trim().split(/\s+/).filter(Boolean).length] *)
Definition countWords (text : string) : nat :=
  length (List.filter non_empty (split_ws (trim text))).

(** The level of the runway tracker's vocabulary that a label of this
    module names. *)
Definition as_level (label : string) : option RunwayTracker.UrgencyLevel :=
  if String.eqb label "critical" then Some RunwayTracker.critical
  else if String.eqb label "high" then Some RunwayTracker.urgent
  else if String.eqb label "medium" then Some RunwayTracker.focused
  else if String.eqb label "low" then Some RunwayTracker.comfortable
  else None.

End HourlyUpdateTask.

(** ** src/tasks/activity-decision.ts (the urgency table) *)

Module ActivityDecisionTask.
Import Js Json RunwayTracker.

Definition getUrgencyLevel (runwayDays : number) : UrgencyLevel :=
  if lt runwayDays (of_Z 3) then critical
  else if lt runwayDays (of_Z 7) then urgent
  else if lt runwayDays (of_Z 14) then focused
  else comfortable.

(** The object [parseResponse] returns: the array of [parsed] and three
    more of its properties. *)
Record ActivityDecision : Type := mkDecision {
  activities : list json;
  urgency_assessment : string;
  confidence_in_strategy : number;
  strategy_notes : option json;
}.

(** [typeof v === "string" && v], negated in the source. *)
Definition is_text (v : option json) : bool :=
  match v with
  | Some (JStr s) => negb (String.eqb s "")
  | _ => false
  end.

(** [typeof v === "number" && !(v <= 0)], negated in the source. *)
Definition is_duration (v : option json) : bool :=
  match v with
  | Some (JNum n) => negb (le n (of_Z 0))
  | _ => false
  end.

Section WithRuntime.

Variable rt : Runtime.

(** The body of the loop over [parsed.activities]. *)
Definition check_activity (activity : json) : outcome unit :=
  match readProp rt activity "type" with
  | Rejected e => Rejected e
  | Resolved ty =>
      if negb (OutputProcessor.is_activity_type ty) then
        Rejected (mkError ("Invalid activity type: " ++ toText_opt rt ty))
      else
        match readProp rt activity "action" with
        | Rejected e => Rejected e
        | Resolved action =>
            if negb (is_text action) then
              Rejected (mkError "Activity missing action")
            else
              match readProp rt activity "reasoning" with
              | Rejected e => Rejected e
              | Resolved reasoning =>
                  if negb (is_text reasoning) then
                    Rejected (mkError "Activity missing reasoning")
                  else
                    match readProp rt activity "duration_minutes" with
                    | Rejected e => Rejected e
                    | Resolved duration =>
                        if negb (is_duration duration) then
                          Rejected
                            (mkError "Activity missing valid duration_minutes")
                        else Resolved tt
                    end
              end
        end
  end.

Fixpoint check_activities (items : list json) : outcome unit :=
  match items with
  | [] => Resolved tt
  | activity :: rest =>
      match check_activity activity with
      | Resolved _ => check_activities rest
      | Rejected e => Rejected e
      end
  end.

(** [parseResponse]: no [try] surrounds it, what is thrown leaves as it
    is. *)
Definition parseResponse (content : string) : outcome ActivityDecision :=
  let jsonStr := OutputProcessor.json_text (trim content) in
  match JSON_parse rt jsonStr with
  | Rejected e => Rejected e
  | Resolved parsed =>
      match readProp rt parsed "activities" with
      | Rejected e => Rejected e
      | Resolved (Some (JArr items)) =>
          match readProp rt parsed "urgency_assessment" with
          | Rejected e => Rejected e
          | Resolved (Some (JStr urgency)) =>
              match readProp rt parsed "confidence_in_strategy" with
              | Rejected e => Rejected e
              | Resolved (Some (JNum confidence)) =>
                  match check_activities items with
                  | Rejected e => Rejected e
                  | Resolved _ =>
                      match readProp rt parsed "strategy_notes" with
                      | Rejected e => Rejected e
                      | Resolved notes =>
                          Resolved (mkDecision items urgency confidence notes)
                      end
                  end
              | Resolved _ =>
                  Rejected (mkError "Response missing confidence_in_strategy")
              end
          | Resolved _ =>
              Rejected (mkError "Response missing urgency_assessment")
          end
      | Resolved _ => Rejected (mkError "Response missing activities array")
      end
  end.

End WithRuntime.

(** What the loop of [parseResponse] asks of an activity beyond its type:
    texts that are not empty and a duration above 0. *)
Definition timed_activity (activity : json) : Prop :=
  exists fields action reasoning duration,
    activity = JObj fields /\
    assoc "action" fields = Some (JStr action) /\
    action <> "" /\
    assoc "reasoning" fields = Some (JStr reasoning) /\
    reasoning <> "" /\
    assoc "duration_minutes" fields = Some (JNum duration) /\
    le duration (of_Z 0) = false.

End ActivityDecisionTask.

(** A plan whose only activity has no duration. *)

Module TaskSamples.
Import Js Json Samples.

Definition untimed_plan_text : string :=
  "{" ++ quoted "activities" ++ ": [{"
      ++ quoted "type" ++ ": " ++ quoted "BUILD" ++ ", "
      ++ quoted "action" ++ ": " ++ quoted "ship the page" ++ ", "
      ++ quoted "reasoning" ++ ": " ++ quoted "runway" ++ "}], "
      ++ quoted "urgency_assessment" ++ ": " ++ quoted "calm" ++ ", "
      ++ quoted "confidence_in_strategy" ++ ": 0.75}".

Definition untimed_plan : json :=
  JObj [("activities",
         JArr [JObj [("type", JStr "BUILD"); ("action", JStr "ship the page");
                     ("reasoning", JStr "runway")]]);
        ("urgency_assessment", JStr "calm");
        ("confidence_in_strategy", JNum (Finite (3 # 4)))].

Definition timed_plan_text : string :=
  "{" ++ quoted "activities" ++ ": [{"
      ++ quoted "type" ++ ": " ++ quoted "BUILD" ++ ", "
      ++ quoted "action" ++ ": " ++ quoted "ship the page" ++ ", "
      ++ quoted "reasoning" ++ ": " ++ quoted "runway" ++ ", "
      ++ quoted "duration_minutes" ++ ": 30}], "
      ++ quoted "urgency_assessment" ++ ": " ++ quoted "calm" ++ ", "
      ++ quoted "confidence_in_strategy" ++ ": 0.75}".

Definition timed_plan : json :=
  JObj [("activities",
         JArr [JObj [("type", JStr "BUILD"); ("action", JStr "ship the page");
                     ("reasoning", JStr "runway");
                     ("duration_minutes", JNum (of_Z 30))]]);
        ("urgency_assessment", JStr "calm");
        ("confidence_in_strategy", JNum (Finite (3 # 4)))].

End TaskSamples.

(** ** src/website/content-writer.ts

    The content directory is a finite map from paths to file texts; the
    file-system calls themselves are taken to succeed.  The removal of the
    temporary file is requested and not awaited, so it may or may not have
    taken effect when the writer resolves.  Day and hour are the integers
    the callers pass, and a template literal prints an integer in
    decimal. *)

Module ContentWriter.
Import Js JsMore.

Definition CONTENT_BASE : string := "website/content".

Record HourlyUpdateMetadata : Type := mkHourlyMetadata {
  hourly_runway_days : number;
  hourly_urgency : string;
  hourly_current_strategy : string;
}.

Record HourlyUpdate : Type := mkHourlyUpdate {
  update_day : Z;
  update_hour : Z;
  update_timestamp : string;
  update_content : string;
  update_runway_days : number;
  update_urgency : string;
  update_current_strategy : string;
  update_wordCount : nat;
}.

Record DailyJournalMetadata : Type := mkJournalMetadata {
  journal_meta_runway_days : number;
  journal_meta_urgency : string;
  journal_meta_current_strategy : string;
  journal_meta_things_shipped : list string;
  journal_meta_revenue_total : number;
}.

Record DailyJournal : Type := mkDailyJournal {
  journal_day : Z;
  journal_timestamp : string;
  journal_content : string;
  journal_runway_days : number;
  journal_urgency : string;
  journal_current_strategy : string;
  journal_things_shipped : list string;
  journal_revenue_total : number;
  journal_wordCount : nat;
}.

Record LandingData : Type := mkLandingData {
  landing_currentDay : number;
  landing_daysRemaining : number;
  landing_runwayDays : number;
  landing_thingsShipped : list string;
  landing_revenueTotal : number;
  landing_currentStrategy : string;
  landing_lastUpdated : string;
}.

(** The files by path, the paths whose removal has been requested and has
    not yet taken effect, and the clock text of
    [new Date().toISOString()]. *)
Record State : Type := mkState {
  files : gmap string string;
  pending_unlinks : list string;
  clock : string;
}.

(** The requested removals take effect. *)
Definition settle (st : State) : State :=
  mkState (List.fold_right (fun p fs => delete p fs) (files st)
             (pending_unlinks st))
    [] (clock st).

(** [content.trim().split(/\s+/).filter(Boolean).length] *)
Definition countWords (content : string) : nat :=
  length (List.filter non_empty (split_ws (trim content))).

(** [join(CONTENT_BASE, "hourly", `day${day}_hour${hour}.json`)] and its
    two siblings. *)
Definition hourly_path (day hour : Z) : string :=
  CONTENT_BASE ++ "/hourly/" ++
  ("day" ++ pretty day ++ "_hour" ++ pretty hour ++ ".json").

Definition journal_path (day : Z) : string :=
  CONTENT_BASE ++ "/journals/" ++ ("day" ++ pretty day ++ ".json").

Definition landing_path : string := CONTENT_BASE ++ "/landing.json".

(** [safeWriteJson]: write the text to the temporary path, copy what the
    temporary file holds to the final path, and when the temporary file
    exists call [unlink] on it without awaiting the call.  [unlink_done]
    tells whether that removal has taken effect by the time the function
    resolves; when it has not, the path is left pending.  A removal left
    pending by an earlier call is not run here: the statements about this
    function start from a state without any. *)
Definition safeWriteJson {A : Type} (stringify : A -> string)
    (unlink_done : bool) (filePath : string) (data : A)
  : Prog.exc State unit :=
  fun st =>
    let json := stringify data in
    let tempPath := filePath ++ ".tmp" in
    let written := <[tempPath := json]> (files st) in
    match written !! tempPath with
    | None =>
        (Rejected (ErrorObj "Error" ("ENOENT: " ++ tempPath) None),
         mkState written (pending_unlinks st) (clock st))
    | Some text =>
        let copied := <[filePath := text]> written in
        if bool_decide (is_Some (copied !! tempPath)) then
          if unlink_done then
            (Resolved tt,
             mkState (delete tempPath copied) (pending_unlinks st) (clock st))
          else
            (Resolved tt,
             mkState copied (pending_unlinks st ++ [tempPath]) (clock st))
        else (Resolved tt, mkState copied (pending_unlinks st) (clock st))
    end.

Section WithJson.

Variable stringify_hourly : HourlyUpdate -> string.
Variable stringify_journal : DailyJournal -> string.
Variable stringify_landing : LandingData -> string.

(** Whether the removal of the temporary file has taken effect when the
    writer resolves. *)
Variable unlink_done : bool.

Definition writeHourlyUpdate (day hour : Z) (content : string)
    (metadata : HourlyUpdateMetadata) : Prog.exc State string :=
  fun st =>
    let filePath := hourly_path day hour in
    let update :=
      mkHourlyUpdate day hour (clock st) content
        (hourly_runway_days metadata) (hourly_urgency metadata)
        (hourly_current_strategy metadata) (countWords content) in
    Prog.and_then (safeWriteJson stringify_hourly unlink_done filePath update)
      (fun _ => Prog.pure filePath) st.

Definition writeDailyJournal (day : Z) (content : string)
    (metadata : DailyJournalMetadata) : Prog.exc State string :=
  fun st =>
    let filePath := journal_path day in
    let journal :=
      mkDailyJournal day (clock st) content
        (journal_meta_runway_days metadata) (journal_meta_urgency metadata)
        (journal_meta_current_strategy metadata)
        (journal_meta_things_shipped metadata)
        (journal_meta_revenue_total metadata) (countWords content) in
    Prog.and_then
      (safeWriteJson stringify_journal unlink_done filePath journal)
      (fun _ => Prog.pure filePath) st.

Definition updateLanding (currentDay daysRemaining runwayDays : number)
    (thingsShipped : list string) (revenueTotal : number)
    (currentStrategy : string) : Prog.exc State string :=
  fun st =>
    let filePath := landing_path in
    let landing :=
      mkLandingData currentDay daysRemaining runwayDays thingsShipped
        revenueTotal currentStrategy (clock st) in
    Prog.and_then
      (safeWriteJson stringify_landing unlink_done filePath landing)
      (fun _ => Prog.pure filePath) st.

End WithJson.

(** The files the module writes, named by what they hold. *)
Inductive ContentFile : Type :=
| HourlyFile (day hour : Z)
| JournalFile (day : Z)
| LandingFile.

Definition path_of (file : ContentFile) : string :=
  match file with
  | HourlyFile day hour => hourly_path day hour
  | JournalFile day => journal_path day
  | LandingFile => landing_path
  end.

(** Between two states, [target] now holds [json] and every other path
    holds what it held.  Its temporary sibling is gone when the removal
    has taken effect; otherwise it still holds [json] and its removal is
    pending, and once the pending removals have taken effect it is gone
    while the content files are as they were left. *)
Definition wrote_only (unlink_done : bool) (target : ContentFile)
    (json : string) (st st' : State) : Prop :=
  let tempPath := path_of target ++ ".tmp" in
  files st' !! path_of target = Some json /\
  (if unlink_done
   then files st' !! tempPath = None /\
        pending_unlinks st' = pending_unlinks st
   else files st' !! tempPath = Some json /\
        pending_unlinks st' = (pending_unlinks st ++ [tempPath])%list) /\
  (forall p,
     p <> path_of target -> p <> tempPath ->
     files st' !! p = files st !! p) /\
  (forall other,
     other <> target -> files st' !! path_of other = files st !! path_of other) /\
  files (settle st') !! tempPath = None /\
  (forall file, files (settle st') !! path_of file = files st' !! path_of file) /\
  clock st' = clock st.

(** The characters of a printed integer. *)
Definition is_numeric (c : ascii) : bool :=
  let n := nat_of_ascii c in
  ((48 <=? n)%nat && (n <=? 57)%nat) || (n =? 45)%nat.

Fixpoint numeric (s : string) : bool :=
  match s with
  | EmptyString => true
  | String c rest => is_numeric c && numeric rest
  end.

End ContentWriter.

(** ** Shapes of model answers *)

Module ResponseShapes.

Definition is_backtick (c : ascii) : bool := (nat_of_ascii c =? 96)%nat.

Fixpoint no_backtick (s : string) : bool :=
  match s with
  | EmptyString => true
  | String c rest => negb (is_backtick c) && no_backtick rest
  end.

(** A body inside a markdown code block tagged json. *)
Definition fenced (body : string) : string := "```json" ++ body ++ "```".

End ResponseShapes.

(** ** src/survival/metrics.ts: the shipped counter *)

Module MetricsCounter.
Import Js Metrics.

Section WithRuntime.

Variable JSON_parse : string -> outcome Metrics.
Variable JSON_stringify : option Z -> Metrics -> string.

(** The engine's [x + 1] on numbers. *)
Variable plus_one : number -> number.

Definition incrementShipped : Prog.t State number :=
  (current <~ getMetrics JSON_parse ;;
   updated <~ updateMetrics JSON_parse JSON_stringify
                (mkPartial (Some (plus_one (thingsShipped current)))
                   None None None) ;;
   Prog.ret (thingsShipped updated))%prog.

(** [incrementShipped] called [n] times; the last result, if any. *)
Fixpoint incrementShipped_times (n : nat) : Prog.t State (option number) :=
  match n with
  | O => Prog.ret None
  | S n' =>
      (_ <~ incrementShipped_times n' ;;
       shipped <~ incrementShipped ;;
       Prog.ret (Some shipped))%prog
  end.

End WithRuntime.

End MetricsCounter.

(** ** src/scheduler/index.ts: a scheduled job *)

Module SchedulerJobs.
Import Js Json Logger RunwayTracker.

(** What a job acts on here: the runway store and the logger's output. *)
Record State : Type := mkState {
  store : RunwayStore.State;
  log : list LogEntry;
}.

Definition emit (e : LogEntry) (st : State) : State :=
  mkState (store st) (log st ++ [e]).

(** The text of a level, as the status object carries it. *)
Definition level_text (u : UrgencyLevel) : string :=
  match u with
  | comfortable => "comfortable"
  | focused => "focused"
  | urgent => "urgent"
  | critical => "critical"
  end.

(** [wrapWithLogging(name, handler)], run once; [startTime] and [endTime]
    are what the two reads of [Date.now()] give. *)
Definition wrapWithLogging (name : string) (handler : Prog.exc State unit)
    (startTime endTime : Z) : Prog.exc State unit :=
  fun st =>
    let st1 := emit (mkLog LInfo ("Executing scheduled task: " ++ name) []) st in
    let (r, st2) := handler st1 in
    let duration := endTime - startTime in
    match r with
    | Resolved _ =>
        (Resolved tt,
         emit (mkLog LInfo ("Completed scheduled task: " ++ name)
                 [("durationMs", LNum duration)]) st2)
    | Rejected error =>
        (Resolved tt,
         emit (mkLog LError ("Failed scheduled task: " ++ name)
                 [("durationMs", LNum duration);
                  ("error", LStr (match error with
                                  | ErrorObj _ msg _ => msg
                                  | NonError text => text
                                  end))]) st2)
    end.

Section WithJson.

Variable JSON_parse : string -> outcome RunwayStore.RunwayState.

Definition warn_critical (runwayDays : number) : LogEntry :=
  mkLog LWarn "CRITICAL: Runway is critically low!"
    [("runwayDays", LJson (Some (JNum runwayDays)))].

Definition warn_low (runwayDays : number) : LogEntry :=
  mkLog LWarn "WARNING: Runway is getting low"
    [("runwayDays", LJson (Some (JNum runwayDays)))].

(** [runwayCheckTask]; the dynamic import and the configuration are taken
    to succeed. *)
Definition runwayCheckTask (env : Time.Env) (later : Z)
  : Prog.exc State unit :=
  fun st =>
    let status := RunwayStore.getRunwayStatus JSON_parse env later (store st) in
    let st1 :=
      emit (mkLog LInfo "Runway status check"
              [("runwayDays",
                LJson (Some (JNum (RunwayStore.status_runwayDays status))));
               ("urgencyLevel",
                LStr (level_text (RunwayStore.status_urgencyLevel status)));
               ("currentDay", LNum (RunwayStore.status_currentDay status));
               ("daysRemaining",
                LNum (RunwayStore.status_daysRemaining status))]) st in
    match RunwayStore.status_urgencyLevel status with
    | critical =>
        (Resolved tt,
         emit (warn_critical (RunwayStore.status_runwayDays status)) st1)
    | urgent =>
        (Resolved tt,
         emit (warn_low (RunwayStore.status_runwayDays status)) st1)
    | _ => (Resolved tt, st1)
    end.

(** The job [startScheduler] creates for the runway check. *)
Definition runwayCheckJob (env : Time.Env) (later startTime endTime : Z)
  : Prog.exc State unit :=
  wrapWithLogging "runwayCheck" (runwayCheckTask env later) startTime endTime.

End WithJson.

(** The entries of a log at level [warn]. *)
Definition warnings (entries : list LogEntry) : list LogEntry :=
  List.filter (fun e => match level e with LWarn => true | _ => false end)
    entries.

End SchedulerJobs.

(* ===================================================================== *)
(** * Part II: properties                                                 *)
(* ===================================================================== *)

(** ** JavaScript comparisons *)

Section NumberFacts.
Import Js.

Lemma Qlt_bool_iff (x y : Q) : Qlt_bool x y = true <-> (x < y)%Q.
Proof.
  unfold Qlt_bool. rewrite negb_true_iff.
  split.
  - intros H. apply Qnot_le_lt. intros Hle.
    apply Qle_bool_iff in Hle. congruence.
  - intros H. destruct (Qle_bool y x) eqn:E; [|reflexivity].
    apply Qle_bool_iff in E. exfalso. exact (Qlt_not_le _ _ H E).
Qed.

Lemma lt_le_trans (a b c : number) :
  lt a b = false -> le a c = true -> lt c b = false.
Proof.
  destruct a as [x| | |], b as [y| | |], c as [z| | |]; simpl;
    try congruence; intros Hab Hac.
  destruct (Qlt_bool z y) eqn:E; [|reflexivity].
  apply Qlt_bool_iff in E. apply Qle_bool_iff in Hac.
  assert (Hxy : (x < y)%Q) by (eapply Qle_lt_trans; eassumption).
  apply Qlt_bool_iff in Hxy. congruence.
Qed.

Lemma le_le_trans_false (a b c : number) :
  le a b = false -> le a c = true -> le c b = false.
Proof.
  destruct a as [x| | |], b as [y| | |], c as [z| | |]; simpl;
    try congruence; intros Hab Hac.
  destruct (Qle_bool z y) eqn:E; [|reflexivity].
  apply Qle_bool_iff in E. apply Qle_bool_iff in Hac.
  assert (Hxy : (x <= y)%Q) by (eapply Qle_trans; eassumption).
  apply Qle_bool_iff in Hxy. congruence.
Qed.

Lemma lt_le (a b : number) : lt a b = true -> le a b = true.
Proof.
  destruct a as [x| | |], b as [y| | |]; simpl; try congruence.
  intros H. apply Qlt_bool_iff in H. apply Qle_bool_iff.
  apply Qlt_le_weak. exact H.
Qed.

End NumberFacts.

(** ** Runway tracker *)

Section RunwayTrackerFacts.
Import Js RunwayTracker.

Example getUrgencyLevel_boundaries :
  getUrgencyLevel (Finite (29 # 10)) = critical /\
  getUrgencyLevel (of_Z 3) = urgent /\
  getUrgencyLevel (Finite (69 # 10)) = urgent /\
  getUrgencyLevel (of_Z 7) = focused /\
  getUrgencyLevel (of_Z 14) = focused /\
  getUrgencyLevel (of_Z 15) = comfortable /\
  getUrgencyLevel NaN = comfortable.
Proof. repeat split; reflexivity. Qed.

(** C6 (as stated) fails at the cutoff 14: the runway tracker answers
    [focused] there, while the claimed table answers [comfortable]. *)
Lemma getUrgencyLevel_14_not_comfortable :
  getUrgencyLevel (of_Z 14) = focused /\
  claimed_urgency_table (of_Z 14) = comfortable /\
  ~ (forall days, getUrgencyLevel days = claimed_urgency_table days).
Proof.
  split; [reflexivity|]. split; [reflexivity|].
  intros H. specialize (H (of_Z 14)). discriminate H.
Qed.

(** C6 (amended): for every number of runway days, the runway tracker's
    getUrgencyLevel returns critical when days < 3, urgent when
    3 <= days < 7, focused when 7 <= days <= 14 (so 14 maps to focused),
    and comfortable in every other case; the strict table of the claim
    (focused only below 14) is the one of the context builder's
    calculateUrgencyLevel. *)
Theorem getUrgencyLevel_table (days : number) :
  (lt days (of_Z 3) = true -> getUrgencyLevel days = critical) /\
  (le (of_Z 3) days = true -> lt days (of_Z 7) = true ->
     getUrgencyLevel days = urgent) /\
  (le (of_Z 7) days = true -> le days (of_Z 14) = true ->
     getUrgencyLevel days = focused) /\
  (lt days (of_Z 3) = false -> lt days (of_Z 7) = false ->
     le days (of_Z 14) = false -> getUrgencyLevel days = comfortable) /\
  ContextBuilder.calculateUrgencyLevel days = claimed_urgency_table days.
Proof.
  unfold getUrgencyLevel. repeat split.
  - intros ->. reflexivity.
  - intros H3 H7.
    assert (lt days (of_Z 3) = false) as ->.
    { apply (lt_le_trans (of_Z 3) (of_Z 3) days); [reflexivity|exact H3]. }
    rewrite H7. reflexivity.
  - intros H7 H14.
    assert (lt days (of_Z 7) = false) as E7.
    { apply (lt_le_trans (of_Z 7) (of_Z 7) days); [reflexivity|exact H7]. }
    assert (lt days (of_Z 3) = false) as ->.
    { apply (lt_le_trans (of_Z 7) (of_Z 3) days); [reflexivity|exact H7]. }
    rewrite E7, H14. reflexivity.
  - intros -> -> ->. reflexivity.
Qed.

Lemma getUrgencyLevel_table_witness :
  getUrgencyLevel (of_Z 2) = critical /\
  getUrgencyLevel (of_Z 3) = urgent /\
  getUrgencyLevel (of_Z 14) = focused /\
  getUrgencyLevel (of_Z 15) = comfortable.
Proof.
  split; [apply (proj1 (getUrgencyLevel_table (of_Z 2))); reflexivity|].
  split; [apply (proj1 (proj2 (getUrgencyLevel_table (of_Z 3)))); reflexivity|].
  split; [apply (proj1 (proj2 (proj2 (getUrgencyLevel_table (of_Z 14)))));
          reflexivity|].
  apply (proj1 (proj2 (proj2 (proj2 (getUrgencyLevel_table (of_Z 15))))));
    reflexivity.
Defined.

(** C7: for every pair of runway-day values d1 <= d2, getUrgencyLevel d1
    is at least as urgent as getUrgencyLevel d2 under the ordering
    critical > urgent > focused > comfortable. *)
Theorem getUrgencyLevel_antitone (d1 d2 : number) :
  le d1 d2 = true ->
  (urgency_rank (getUrgencyLevel d2) <= urgency_rank (getUrgencyLevel d1))%nat.
Proof.
  intros Hle. unfold getUrgencyLevel.
  destruct (lt d1 (of_Z 3)) eqn:E3.
  - simpl. repeat case_match; simpl; lia.
  - rewrite (lt_le_trans d1 (of_Z 3) d2 E3 Hle).
    destruct (lt d1 (of_Z 7)) eqn:E7.
    + simpl. repeat case_match; simpl; lia.
    + rewrite (lt_le_trans d1 (of_Z 7) d2 E7 Hle).
      destruct (le d1 (of_Z 14)) eqn:E14.
      * simpl. repeat case_match; simpl; lia.
      * rewrite (le_le_trans_false d1 (of_Z 14) d2 E14 Hle). simpl. lia.
Qed.

Lemma getUrgencyLevel_antitone_witness :
  (urgency_rank (getUrgencyLevel (of_Z 14))
   <= urgency_rank (getUrgencyLevel (Finite (69 # 10))))%nat.
Proof. apply getUrgencyLevel_antitone. reflexivity. Defined.

End RunwayTrackerFacts.

(** ** Metrics store *)

Section MetricsFacts.
Import Js Metrics.

Variable JSON_parse : string -> outcome Metrics.
Variable JSON_stringify : option Z -> Metrics -> string.

(** A cached record answers [getMetrics] without touching anything. *)
Lemma getMetrics_cached (st : State) (m : Metrics) :
  cachedMetrics st = Some m -> getMetrics JSON_parse st = (m, st).
Proof. intros H. unfold getMetrics. rewrite H. reflexivity. Qed.

(** Loading absorbs every read and parse failure. *)
Lemma loadFromFile_defaults (st : State) :
  metrics_file st = None \/
  (exists e, metrics_file st = Some (Rejected e)) \/
  (exists data e, metrics_file st = Some (Resolved data) /\
                  JSON_parse data = Rejected e) ->
  loadFromFile JSON_parse st = DEFAULT_METRICS.
Proof.
  unfold loadFromFile, loadFromFile_try.
  intros [H | [[e H] | [data [e [H Hp]]]]]; rewrite H; try reflexivity.
  rewrite Hp. reflexivity.
Qed.

(** [saveToFile] leaves the cache alone and stores the pretty-printed
    record. *)
Lemma saveToFile_effect (m : Metrics) (st : State) :
  let st' := snd (saveToFile JSON_stringify m st) in
  cachedMetrics st' = cachedMetrics st /\
  dir_exists st' = true /\
  metrics_file st' = Some (Resolved (JSON_stringify (Some 2) m)).
Proof.
  unfold saveToFile, ensureDirectory, Prog.bind, Prog.modify. simpl.
  destruct (dir_exists st) eqn:E; simpl; auto.
Qed.

(** The remote mirror touches neither the cache nor the file. *)
Lemma backupToSupermemory_frame (m : Metrics) (st : State) :
  let st' := snd (backupToSupermemory JSON_stringify m st) in
  cachedMetrics st' = cachedMetrics st /\ metrics_file st' = metrics_file st.
Proof.
  unfold backupToSupermemory, getSupermemoryClient, Prog.bind, Prog.modify,
    Prog.ret.
  destruct (supermemoryClient st); simpl; [auto|].
  destruct (env_api_key st) as [key|]; simpl; [|auto].
  destruct (String.eqb key ""); simpl; auto.
Qed.

End MetricsFacts.

(** C8: for every partial update p and every cached metrics state m,
    updateMetrics p yields a record in which each scalar field present in
    p replaces the old value, keyMetrics is the shallow merge of
    m.keyMetrics with p.keyMetrics, absent fields are unchanged; that
    record becomes the cache and is written to the metrics file. *)
Theorem updateMetrics_merges_and_persists
    (JSON_parse : string -> Js.outcome Metrics.Metrics)
    (JSON_stringify : option Z -> Metrics.Metrics -> string)
    (p : Metrics.PartialMetrics) (m : Metrics.Metrics) (st : Metrics.State) :
  Metrics.cachedMetrics st = Some m ->
  let r := fst (Metrics.updateMetrics JSON_parse JSON_stringify p st) in
  let st' := snd (Metrics.updateMetrics JSON_parse JSON_stringify p st) in
  (forall v, Metrics.p_thingsShipped p = Some v -> Metrics.thingsShipped r = v) /\
  (Metrics.p_thingsShipped p = None ->
     Metrics.thingsShipped r = Metrics.thingsShipped m) /\
  (forall v, Metrics.p_revenueTotal p = Some v -> Metrics.revenueTotal r = v) /\
  (Metrics.p_revenueTotal p = None ->
     Metrics.revenueTotal r = Metrics.revenueTotal m) /\
  (forall v, Metrics.p_currentStrategy p = Some v ->
     Metrics.currentStrategy r = v) /\
  (Metrics.p_currentStrategy p = None ->
     Metrics.currentStrategy r = Metrics.currentStrategy m) /\
  (forall (k : string),
     Metrics.keyMetrics r !! k =
     match Metrics.p_keyMetrics p with
     | Some pk =>
         match pk !! k with
         | Some v => Some v
         | None => Metrics.keyMetrics m !! k
         end
     | None => Metrics.keyMetrics m !! k
     end) /\
  Metrics.cachedMetrics st' = Some r /\
  Metrics.metrics_file st' = Some (Js.Resolved (JSON_stringify (Some 2) r)).
Proof.
  intros Hc r st'. subst r st'.
  unfold Metrics.updateMetrics, Prog.bind.
  rewrite (getMetrics_cached JSON_parse st m Hc).
  cbn [Metrics.set_cache Prog.modify Prog.ret].
  set (updated := Metrics.mkMetrics _ _ _ _).
  set (st1 := Metrics.mkState (Some updated) _ _ _ _ _ _).
  pose proof (saveToFile_effect JSON_stringify updated st1) as Hs.
  destruct (Metrics.saveToFile JSON_stringify updated st1) as [[] st2].
  cbn [snd] in Hs. destruct Hs as (Hs1 & _ & Hs2).
  pose proof (backupToSupermemory_frame JSON_stringify updated st2) as Hb.
  destruct (Metrics.backupToSupermemory JSON_stringify updated st2) as [[] st3].
  cbn [snd fst] in *. destruct Hb as (Hb1 & Hb2).
  unfold Prog.ret. cbn [fst snd].
  repeat split.
  - intros v Hv. subst updated. cbn. rewrite Hv. reflexivity.
  - intros Hv. subst updated. cbn. rewrite Hv. reflexivity.
  - intros v Hv. subst updated. cbn. rewrite Hv. reflexivity.
  - intros Hv. subst updated. cbn. rewrite Hv. reflexivity.
  - intros v Hv. subst updated. cbn. rewrite Hv. reflexivity.
  - intros Hv. subst updated. cbn. rewrite Hv. reflexivity.
  - intros k. subst updated. cbn [Metrics.keyMetrics].
    destruct (Metrics.p_keyMetrics p) as [pk|].
    + rewrite lookup_union. destruct (pk !! k), (Metrics.keyMetrics m !! k);
        reflexivity.
    + rewrite lookup_union, lookup_empty.
      destruct (Metrics.keyMetrics m !! k); reflexivity.
  - rewrite Hb1, Hs1. reflexivity.
  - rewrite Hb2, Hs2. reflexivity.
Qed.

Lemma updateMetrics_merges_and_persists_witness :
  let parse := fun _ : string =>
    Js.Rejected (A := Metrics.Metrics) (Js.ErrorObj "SyntaxError" "bad" None) in
  let stringify := fun (_ : option Z) (m : Metrics.Metrics) =>
    Metrics.currentStrategy m in
  let m := Metrics.mkMetrics (Js.of_Z 2) (Js.of_Z 10) "tools"
             {[ "foo" := Metrics.SStr "bar" ]} in
  let p := Metrics.mkPartial (Some (Js.of_Z 3)) None None
             (Some {[ "baz" := Metrics.SNum (Js.of_Z 123) ]}) in
  let st := Metrics.mkState (Some m) None false None None "t0" [] in
  let r := fst (Metrics.updateMetrics parse stringify p st) in
  Metrics.thingsShipped r = Js.of_Z 3 /\
  Metrics.revenueTotal r = Js.of_Z 10 /\
  Metrics.keyMetrics r !! "foo" = Some (Metrics.SStr "bar") /\
  Metrics.keyMetrics r !! "baz" = Some (Metrics.SNum (Js.of_Z 123)) /\
  Metrics.metrics_file (snd (Metrics.updateMetrics parse stringify p st))
    = Some (Js.Resolved "tools").
Proof.
  intros parse stringify m p st r.
  pose proof (updateMetrics_merges_and_persists parse stringify p m st
                eq_refl) as H.
  cbv zeta in H.
  destruct H as (H1 & _ & _ & H4 & _ & _ & H7 & _ & H9).
  split; [apply H1; reflexivity|].
  split; [apply H4; reflexivity|].
  split; [rewrite H7; reflexivity|].
  split; [rewrite H7; reflexivity|].
  rewrite H9. reflexivity.
Defined.

(** C10 (as stated) fails once a record is cached: with no metrics file,
    [getMetrics] still answers the cached record, not the default one. *)
Lemma getMetrics_cached_not_default :
  let parse := fun _ : string =>
    Js.Rejected (A := Metrics.Metrics) (Js.ErrorObj "SyntaxError" "bad" None) in
  let m := Metrics.mkMetrics (Js.of_Z 5) (Js.of_Z 0) "" ∅ in
  let st := Metrics.mkState (Some m) None false None None "t0" [] in
  Metrics.metrics_file st = None /\
  fst (Metrics.getMetrics parse st) = m /\
  fst (Metrics.getMetrics parse st) <> Metrics.DEFAULT_METRICS.
Proof.
  cbv zeta. split; [reflexivity|]. split; [reflexivity|].
  cbn. intros H. inversion H.
Qed.

(** C10 (amended): getMetrics is total and never raises.  When no record
    is cached and the metrics file is absent, or present but unreadable,
    or present with contents that fail to parse as JSON, it returns the
    default record instead of propagating the read or parse error; when a
    record is cached it returns that record and leaves the state alone. *)
Theorem getMetrics_total_default
    (JSON_parse : string -> Js.outcome Metrics.Metrics) (st : Metrics.State) :
  (Metrics.cachedMetrics st = None ->
   (Metrics.metrics_file st = None \/
    (exists e, Metrics.metrics_file st = Some (Js.Rejected e)) \/
    (exists data e, Metrics.metrics_file st = Some (Js.Resolved data) /\
                    JSON_parse data = Js.Rejected e)) ->
   fst (Metrics.getMetrics JSON_parse st) = Metrics.DEFAULT_METRICS /\
   Metrics.cachedMetrics (snd (Metrics.getMetrics JSON_parse st))
     = Some Metrics.DEFAULT_METRICS) /\
  (forall m, Metrics.cachedMetrics st = Some m ->
     Metrics.getMetrics JSON_parse st = (m, st)).
Proof.
  split.
  - intros Hc Hf. unfold Metrics.getMetrics. rewrite Hc. cbn.
    rewrite (loadFromFile_defaults JSON_parse st Hf). auto.
  - intros m Hm. apply getMetrics_cached. exact Hm.
Qed.

Lemma getMetrics_total_default_witness :
  let parse := fun _ : string =>
    Js.Rejected (A := Metrics.Metrics)
      (Js.ErrorObj "SyntaxError" "JSON Parse error" None) in
  let cold := Metrics.mkState None None true (Some (Js.Resolved "{oops")) None
                "t0" [] in
  let m := Metrics.mkMetrics (Js.of_Z 5) (Js.of_Z 0) "tools" ∅ in
  let warm := Metrics.mkState (Some m) None true None None "t0" [] in
  fst (Metrics.getMetrics parse cold) = Metrics.DEFAULT_METRICS /\
  Metrics.getMetrics parse warm = (m, warm).
Proof.
  intros parse cold m warm. split.
  - apply (proj1 (getMetrics_total_default parse cold)).
    + reflexivity.
    + right. right.
      exists "{oops", (Js.ErrorObj "SyntaxError" "JSON Parse error" None).
      split; reflexivity.
  - apply (proj2 (getMetrics_total_default parse warm) m). reflexivity.
Defined.

(** ** Scheduler *)

Section SchedulerFacts.
Import Logger Scheduler.

Variable validate : string -> bool.

Lemma registerTask_invalid (name schedule : string) (h : Handler) (st : State) :
  validate schedule = false ->
  registerTask validate name schedule h st =
  (tt, mkState (tasks st)
         (log st ++ [mkLog LError ("Invalid cron schedule for task: " ++ name)
                       [("schedule", LStr schedule)]])).
Proof. intros H. unfold registerTask. rewrite H. reflexivity. Qed.

Lemma registerTask_valid (name schedule : string) (h : Handler) (st : State) :
  validate schedule = true ->
  registerTask validate name schedule h st =
  (tt, mkState (tasks st ++ [mkTask name schedule h None])
         (log st ++ [mkLog LDebug ("Registered task: " ++ name)
                       [("schedule", LStr schedule)]])).
Proof. intros H. unfold registerTask. rewrite H. reflexivity. Qed.

End SchedulerFacts.




(** ** Completion client *)

Section ClaudeClientFacts.
Import Js Logger ClaudeClient.

Lemma prefix_toLowerCase (needle hay : string) :
  String.prefix needle hay = true ->
  String.prefix (toLowerCase needle) (toLowerCase hay) = true.
Proof.
  revert hay. induction needle as [|a needle IH]; intros hay H;
    [destruct hay; reflexivity|].
  destruct hay as [|b hay]; [discriminate H|].
  cbn in *. destruct (ascii_dec a b) as [->|]; [|discriminate H].
  destruct (ascii_dec (lower_char b) (lower_char b)); [|congruence].
  apply IH. exact H.
Qed.

Lemma includes_toLowerCase (needle hay : string) :
  includes needle hay = true ->
  includes (toLowerCase needle) (toLowerCase hay) = true.
Proof.
  induction hay as [|b hay IH]; intros H.
  - cbn in *. rewrite orb_false_r in *.
    apply (prefix_toLowerCase needle ""). exact H.
  - cbn [includes] in H. apply orb_true_iff in H as [H|H].
    + cbn [includes toLowerCase].
      change (String (lower_char b) (toLowerCase hay))
        with (toLowerCase (String b hay)).
      rewrite (prefix_toLowerCase _ _ H). reflexivity.
    + cbn [includes toLowerCase]. rewrite (IH H). apply orb_true_r.
Qed.

(** The flag is raised by the error name, by the words "rate limit" in
    the message, whatever their case, and by status 429. *)
Lemma isRateLimitError_when (name message : string) (status : option Z) :
  name = "RateLimitError" \/ includes "rate limit" message = true \/
  status = Some 429 ->
  isRateLimitError (Some (ErrorObj name message status)) = true.
Proof.
  intros [-> | [H | ->]]; cbn [isRateLimitError].
  - reflexivity.
  - destruct (String.eqb name "RateLimitError"); [reflexivity|].
    change "rate limit" with (toLowerCase "rate limit").
    rewrite (includes_toLowerCase _ _ H). reflexivity.
  - destruct (String.eqb name "RateLimitError"); [reflexivity|].
    destruct (includes _ _); reflexivity.
Qed.

(** Exactly those three conditions raise the flag. *)
Lemma isRateLimitError_iff (name message : string) (status : option Z) :
  isRateLimitError (Some (ErrorObj name message status)) = true <->
  name = "RateLimitError" \/
  includes "rate limit" (toLowerCase message) = true \/
  status = Some 429.
Proof.
  cbn [isRateLimitError].
  destruct (String.eqb name "RateLimitError") eqn:En.
  - apply String.eqb_eq in En. tauto.
  - apply String.eqb_neq in En.
    destruct (includes "rate limit" (toLowerCase message)) eqn:Em; [tauto|].
    destruct status as [code|].
    + rewrite Z.eqb_eq. split.
      * intros ->. auto.
      * intros [H | [H | H]]; [contradiction | discriminate | congruence].
    + split; [discriminate|].
      intros [H | [H | H]]; [contradiction | discriminate | discriminate].
Qed.

End ClaudeClientFacts.

Section ClaudeClientRetry.
Import Js Logger ClaudeClient.

Variable transport : nat -> Request -> outcome ApiResponse.

Lemma attempt_once_rejected attempt sp up st e :
  transport (length (requests st)) (buildRequest sp up) = Rejected e ->
  exists l, attempt_once transport attempt sp up st =
    (Rejected e, mkState (requests st ++ [buildRequest sp up]) (sleeps st) l).
Proof.
  intros H. unfold attempt_once, Prog.and_then, Prog.lift, Prog.bind,
    messages_create, emit, Prog.modify, Prog.ret.
  cbn [requests sleeps log]. rewrite H. eexists. reflexivity.
Qed.

Lemma attempt_once_resolved attempt sp up st resp :
  transport (length (requests st)) (buildRequest sp up) = Resolved resp ->
  exists res l, attempt_once transport attempt sp up st =
    (Resolved res, mkState (requests st ++ [buildRequest sp up]) (sleeps st) l).
Proof.
  intros H. unfold attempt_once, Prog.and_then, Prog.lift, Prog.bind,
    messages_create, emit, Prog.modify, Prog.ret, Prog.pure.
  cbn [requests sleeps log]. rewrite H. cbn. eexists. eexists. reflexivity.
Qed.

(** One failed iteration: the request is sent, the backoff is slept when
    another attempt remains, and the loop goes on with the next attempt. *)
Lemma retry_loop_failed fuel attempt last sp up st e :
  attempt <= MAX_RETRIES ->
  transport (length (requests st)) (buildRequest sp up) = Rejected e ->
  exists l,
    retry_loop transport (S fuel) attempt last sp up st =
    retry_loop transport fuel (attempt + 1) (Some (toError e)) sp up
      (mkState (requests st ++ [buildRequest sp up])
         (sleeps st ++
          (if attempt <? MAX_RETRIES
           then [BASE_DELAY_MS * 2 ^ (attempt - 1)] else []))
         l).
Proof.
  intros Ha H. cbn [retry_loop].
  apply Z.leb_le in Ha. rewrite Ha.
  destruct (attempt_once_rejected attempt sp up st e H) as [l Hl].
  unfold Prog.bind at 1. rewrite Hl.
  unfold Prog.bind, emit, sleep, Prog.modify, Prog.ret.
  cbn [requests sleeps log].
  destruct (attempt <? MAX_RETRIES); cbn [requests sleeps log].
  - eexists. reflexivity.
  - rewrite app_nil_r. eexists. reflexivity.
Qed.

Lemma retry_loop_succeeded fuel attempt last sp up st resp :
  attempt <= MAX_RETRIES ->
  transport (length (requests st)) (buildRequest sp up) = Resolved resp ->
  exists res l,
    retry_loop transport (S fuel) attempt last sp up st =
    (inl res, mkState (requests st ++ [buildRequest sp up]) (sleeps st) l).
Proof.
  intros Ha H. cbn [retry_loop].
  apply Z.leb_le in Ha. rewrite Ha.
  destruct (attempt_once_resolved attempt sp up st resp H) as (res & l & Hl).
  unfold Prog.bind at 1. rewrite Hl. unfold Prog.ret. eauto.
Qed.

Lemma retry_loop_exhausted fuel attempt last sp up st :
  MAX_RETRIES < attempt ->
  retry_loop transport fuel attempt last sp up st = after_loop last st.
Proof.
  intros Ha. destruct fuel; [reflexivity|]. cbn [retry_loop].
  apply Z.leb_gt in Ha. rewrite Ha. reflexivity.
Qed.

End ClaudeClientRetry.

Ltac client_step_failed Hrun Hle E :=
  match type of Hrun with
  | _ = ClaudeClient.retry_loop ?t (S ?fuel) ?a ?last ?sp ?up ?st =>
      let l := fresh "l" in
      let Hl := fresh "Hl" in
      destruct (retry_loop_failed t fuel a last sp up st _ Hle E) as (l & Hl);
      rewrite Hl in Hrun; clear Hl
  end.

Ltac client_step_ok Hrun Hle E :=
  match type of Hrun with
  | _ = ClaudeClient.retry_loop ?t (S ?fuel) ?a ?last ?sp ?up ?st =>
      let res := fresh "res" in
      let l := fresh "l" in
      let Hl := fresh "Hl" in
      destruct (retry_loop_succeeded t fuel a last sp up st _ Hle E)
        as (res & l & Hl);
      rewrite Hl in Hrun; clear Hl
  end.

(** C4: for every transport behaviour, generateContent sends at most 3
    requests; after each failed attempt but the last it sleeps
    1000 * 2^(attempt-1) ms (1000, then 2000); when the transport fails on
    all 3 attempts it has been invoked exactly 3 times and generateContent
    raises a ClaudeClientError that carries the last underlying cause and
    the rate-limit flag.  The cause is the value the third call threw,
    wrapped in an Error when it is not one; the flag is true exactly when
    the cause has the name RateLimitError, or a message that contains
    "rate limit" once put in lower case, or status 429, and false
    otherwise; in particular a message containing "rate limit" as written
    raises it. *)
Theorem generateContent_bounded_retry
    (transport : nat -> ClaudeClient.Request -> Js.outcome ClaudeClient.ApiResponse)
    (systemPrompt userPrompt : string) :
  let req := ClaudeClient.buildRequest systemPrompt userPrompt in
  let run := ClaudeClient.generateContent transport systemPrompt userPrompt
               ClaudeClient.init in
  let sent := ClaudeClient.requests (snd run) in
  let failed :=
    length (List.filter (fun k => bool_decide (is_Some (Js.threw (transport k req))))
              (seq 0 (length sent))) in
  (length sent <= 3)%nat /\
  Forall (eq req) sent /\
  ClaudeClient.sleeps (snd run) =
    firstn failed [1000 * 2 ^ (1 - 1); 1000 * 2 ^ (2 - 1)] /\
  (forall e1 e2 e3,
     transport 0%nat req = Js.Rejected e1 ->
     transport 1%nat req = Js.Rejected e2 ->
     transport 2%nat req = Js.Rejected e3 ->
     length sent = 3%nat /\
     ClaudeClient.sleeps (snd run) = [1000; 2000] /\
     exists name message status flag,
       (e3 = Js.ErrorObj name message status \/
        e3 = Js.NonError message /\ name = "Error" /\ status = None) /\
       fst run =
         inr (ClaudeClient.mkClientError
                ("Failed after 3 attempts: " ++ message)
                (Some (Js.ErrorObj name message status)) flag) /\
       (flag = true <->
        name = "RateLimitError" \/
        Js.includes "rate limit" (Js.toLowerCase message) = true \/
        status = Some 429) /\
       (Js.includes "rate limit" message = true -> flag = true)).
Proof.
  intros req run sent failed.
  assert (Hrun : run = ClaudeClient.generateContent transport systemPrompt
                         userPrompt ClaudeClient.init) by reflexivity.
  unfold ClaudeClient.generateContent in Hrun.
  change (Z.to_nat ClaudeClient.MAX_RETRIES) with 3%nat in Hrun.
  assert (H1 : 1 <= ClaudeClient.MAX_RETRIES) by (unfold ClaudeClient.MAX_RETRIES; lia).
  assert (H2 : 1 + 1 <= ClaudeClient.MAX_RETRIES) by (unfold ClaudeClient.MAX_RETRIES; lia).
  assert (H3 : 1 + 1 + 1 <= ClaudeClient.MAX_RETRIES) by (unfold ClaudeClient.MAX_RETRIES; lia).
  assert (H4 : ClaudeClient.MAX_RETRIES < 1 + 1 + 1 + 1) by (unfold ClaudeClient.MAX_RETRIES; lia).
  split_and!;
    subst sent failed; revert Hrun; generalize run; clear run; intros run Hrun.
  all: destruct (transport 0%nat req) as [r1|e1] eqn:E1;
    [ client_step_ok Hrun H1 E1
    | client_step_failed Hrun H1 E1;
      destruct (transport 1%nat req) as [r2|e2] eqn:E2;
      [ client_step_ok Hrun H2 E2
      | client_step_failed Hrun H2 E2;
        destruct (transport 2%nat req) as [r3|e3] eqn:E3;
        [ client_step_ok Hrun H3 E3
        | client_step_failed Hrun H3 E3;
          rewrite (retry_loop_exhausted transport _ _ _ _ _ _ H4) in Hrun ] ] ].
  all: rewrite Hrun; cbn; fold req; rewrite ?E1, ?E2, ?E3; cbn.
  all: try lia; try (repeat constructor; fail).
  all: intros x1 x2 x3 X1 X2 X3; try discriminate.
  injection X3 as <-. split; [reflexivity|]. split; [reflexivity|].
  assert (Hcause : exists name message status,
            ClaudeClient.toError e3 = Js.ErrorObj name message status /\
            (e3 = Js.ErrorObj name message status \/
             e3 = Js.NonError message /\ name = "Error" /\ status = None)).
  { destruct e3 as [name message status|text]; cbn.
    - exists name, message, status. auto.
    - exists "Error", text, None. auto. }
  destruct Hcause as (name & message & status & Hcause & Horigin).
  exists name, message, status,
    (ClaudeClient.isRateLimitError (Some (Js.ErrorObj name message status))).
  rewrite Hcause. cbn [ClaudeClient.message_text].
  split; [exact Horigin|]. split; [reflexivity|].
  split; [apply isRateLimitError_iff|].
  intros Hm. apply isRateLimitError_when. auto.
Qed.

Lemma generateContent_bounded_retry_witness :
  let transport := fun (_ : nat) (_ : ClaudeClient.Request) =>
    Js.Rejected (A := ClaudeClient.ApiResponse)
      (Js.ErrorObj "APIError" "429 Too Many Requests" (Some 429)) in
  let run := ClaudeClient.generateContent transport "system" "user"
               ClaudeClient.init in
  length (ClaudeClient.requests (snd run)) = 3%nat /\
  ClaudeClient.sleeps (snd run) = [1000; 2000] /\
  fst run =
    inr (ClaudeClient.mkClientError
           "Failed after 3 attempts: 429 Too Many Requests"
           (Some (Js.ErrorObj "APIError" "429 Too Many Requests" (Some 429)))
           true).
Proof.
  intros transport run.
  pose proof (generateContent_bounded_retry transport "system" "user") as H.
  cbv zeta in H. destruct H as (_ & _ & _ & H).
  destruct (H _ _ _ eq_refl eq_refl eq_refl)
    as (Hsent & Hsleeps & name & message & status & flag
        & Horigin & Hrun & Hflag & _).
  split; [exact Hsent|]. split; [exact Hsleeps|].
  destruct Horigin as [Ho | (Ho & _)]; [|discriminate Ho].
  injection Ho as <- <- <-.
  assert (flag = true) as -> by (apply Hflag; auto).
  exact Hrun.
Defined.

(** ** Deploy trigger *)

Section DeployTriggerFacts.
Import Js Json Logger DeployTrigger.

Variable rt : Runtime.
Variable config : Config.
Variable fetch : nat -> PostRequest -> outcome HttpResponse.

Lemma readProp_non_null (v : json) (key : string) :
  v <> JNull -> exists r, readProp rt v key = Resolved r.
Proof. destruct v; intros H; cbn; eauto. congruence. Qed.

Lemma job_id_non_null (data : json) :
  data <> JNull -> exists r, job_id rt data = Resolved r.
Proof.
  intros H. unfold job_id.
  destruct (readProp_non_null data "job" H) as [[job|] ->]; [|eauto].
  destruct job; eauto; apply readProp_non_null; congruence.
Qed.

Lemma job_id_null : exists e, job_id rt JNull = Rejected e.
Proof. cbn. eauto. Qed.

(** An attempt that does not succeed ends in the [catch] block or at the
    end of the [try] block; either way nothing is thrown. *)
Lemma attempt_failed (attempt : Z) (st : State) :
  attempt_succeeds (fetch (length (posts st)) (deployRequest config)) = false ->
  exists l,
    Prog.try_catch (try_block rt config fetch attempt) (catch_block attempt) st
    = (Resolved None,
       mkState (posts st ++ [deployRequest config]) (delays st) l).
Proof.
  intros H.
  unfold Prog.try_catch, try_block, catch_block, Prog.and_then, Prog.lift,
    Prog.bind, Prog.pure, Prog.ret, do_fetch, emit, Prog.modify.
  cbn [posts delays log].
  destruct (fetch (length (posts st)) (deployRequest config)) as [resp|e];
    cbn in H |- *; [|eauto].
  destruct (ok resp); cbn in H |- *; [|eauto].
  destruct (body_json resp) as [data|e]; cbn in H |- *; [|eauto].
  destruct data; try discriminate H. cbn. eauto.
Qed.

Lemma attempt_succeeded (attempt : Z) (st : State) :
  attempt_succeeds (fetch (length (posts st)) (deployRequest config)) = true ->
  exists l,
    Prog.try_catch (try_block rt config fetch attempt) (catch_block attempt) st
    = (Resolved (Some true),
       mkState (posts st ++ [deployRequest config]) (delays st) l).
Proof.
  intros H.
  unfold Prog.try_catch, try_block, catch_block, Prog.and_then, Prog.lift,
    Prog.bind, Prog.pure, Prog.ret, do_fetch, emit, Prog.modify.
  cbn [posts delays log].
  destruct (fetch (length (posts st)) (deployRequest config)) as [resp|e];
    cbn in H |- *; [|discriminate H].
  destruct (ok resp); cbn in H |- *; [|discriminate H].
  destruct (body_json resp) as [data|e]; cbn in H |- *; [|discriminate H].
  assert (Hd : data <> JNull) by (intros ->; discriminate H).
  destruct (job_id_non_null data Hd) as [r ->]. cbn. eauto.
Qed.

Lemma deploy_loop_failed (fuel : nat) (attempt : Z) (st : State) :
  attempt < maxRetries ->
  attempt_succeeds (fetch (length (posts st)) (deployRequest config)) = false ->
  exists l,
    deploy_loop rt config fetch (S fuel) attempt st =
    deploy_loop rt config fetch fuel (attempt + 1)
      (mkState (posts st ++ [deployRequest config])
         (delays st ++
          (if attempt <? maxRetries - 1 then [getBackoffDelay attempt] else []))
         l).
Proof.
  intros Ha H. cbn [deploy_loop].
  apply Z.ltb_lt in Ha. rewrite Ha.
  destruct (attempt_failed attempt st H) as [l Hl].
  unfold Prog.bind at 1. rewrite Hl.
  unfold Prog.bind, emit, delay, Prog.modify, Prog.ret.
  cbn [posts delays log].
  destruct (attempt <? maxRetries - 1); cbn [posts delays log].
  - eexists. reflexivity.
  - rewrite app_nil_r. eexists. reflexivity.
Qed.

Lemma deploy_loop_succeeded (fuel : nat) (attempt : Z) (st : State) :
  attempt < maxRetries ->
  attempt_succeeds (fetch (length (posts st)) (deployRequest config)) = true ->
  exists l,
    deploy_loop rt config fetch (S fuel) attempt st =
    (Resolved true, mkState (posts st ++ [deployRequest config]) (delays st) l).
Proof.
  intros Ha H. cbn [deploy_loop].
  apply Z.ltb_lt in Ha. rewrite Ha.
  destruct (attempt_succeeded attempt st H) as [l Hl].
  unfold Prog.bind at 1. rewrite Hl. unfold Prog.pure, Prog.ret. eauto.
Qed.

Lemma deploy_loop_exhausted (fuel : nat) (attempt : Z) (st : State) :
  maxRetries <= attempt ->
  exists l,
    deploy_loop rt config fetch fuel attempt st =
    (Resolved false, mkState (posts st) (delays st) l).
Proof.
  intros Ha.
  assert (Hg : exists l, after_loop st =
                 (Resolved false, mkState (posts st) (delays st) l)).
  { unfold after_loop, Prog.lift, Prog.bind, emit, Prog.modify, Prog.pure,
      Prog.ret. eauto. }
  destruct fuel; [exact Hg|]. cbn [deploy_loop].
  apply Z.ltb_ge in Ha. rewrite Ha. exact Hg.
Qed.

(** The four ways a run can go, by the first attempt that succeeds. *)
Lemma triggerDeploy_cases :
  let a := fun k => attempt_succeeds (fetch k (deployRequest config)) in
  let run := triggerDeploy rt config fetch init in
  (a 0%nat = true ->
     fst run = Resolved true /\ posts (snd run) = [deployRequest config] /\
     delays (snd run) = []) /\
  (a 0%nat = false -> a 1%nat = true ->
     fst run = Resolved true /\
     posts (snd run) = [deployRequest config; deployRequest config] /\
     delays (snd run) = [1000]) /\
  (a 0%nat = false -> a 1%nat = false -> a 2%nat = true ->
     fst run = Resolved true /\
     posts (snd run) =
       [deployRequest config; deployRequest config; deployRequest config] /\
     delays (snd run) = [1000; 2000]) /\
  (a 0%nat = false -> a 1%nat = false -> a 2%nat = false ->
     fst run = Resolved false /\
     posts (snd run) =
       [deployRequest config; deployRequest config; deployRequest config] /\
     delays (snd run) = [1000; 2000]).
Proof.
  intros a run.
  assert (Hrun : run = triggerDeploy rt config fetch init) by reflexivity.
  unfold triggerDeploy in Hrun.
  change (Z.to_nat maxRetries) with 3%nat in Hrun.
  assert (H0 : 0 < maxRetries) by (unfold maxRetries; lia).
  assert (H1 : 0 + 1 < maxRetries) by (unfold maxRetries; lia).
  assert (H2 : 0 + 1 + 1 < maxRetries) by (unfold maxRetries; lia).
  assert (H3 : maxRetries <= 0 + 1 + 1 + 1) by (unfold maxRetries; lia).
  revert Hrun; generalize run; clear run; intros run Hrun. subst a.
  split_and!; intros A0.
  - destruct (deploy_loop_succeeded 3 0 init H0 A0) as [l Hl].
    rewrite Hl in Hrun. rewrite Hrun. cbn. auto.
  - intros A1.
    destruct (deploy_loop_failed 3 0 init H0 A0) as [l Hl].
    rewrite Hl in Hrun. clear Hl.
    match type of Hrun with _ = deploy_loop _ _ _ _ _ ?st =>
      destruct (deploy_loop_succeeded 2 (0 + 1) st H1 A1) as [l' Hl'] end.
    rewrite Hl' in Hrun. rewrite Hrun. cbn. auto.
  - intros A1 A2.
    destruct (deploy_loop_failed 3 0 init H0 A0) as [l Hl].
    rewrite Hl in Hrun. clear Hl.
    match type of Hrun with _ = deploy_loop _ _ _ _ _ ?st =>
      destruct (deploy_loop_failed 2 (0 + 1) st H1 A1) as [l' Hl'] end.
    rewrite Hl' in Hrun. clear Hl'.
    match type of Hrun with _ = deploy_loop _ _ _ _ _ ?st =>
      destruct (deploy_loop_succeeded 1 (0 + 1 + 1) st H2 A2) as [l'' Hl''] end.
    rewrite Hl'' in Hrun. rewrite Hrun. cbn. auto.
  - intros A1 A2.
    destruct (deploy_loop_failed 3 0 init H0 A0) as [l Hl].
    rewrite Hl in Hrun. clear Hl.
    match type of Hrun with _ = deploy_loop _ _ _ _ _ ?st =>
      destruct (deploy_loop_failed 2 (0 + 1) st H1 A1) as [l' Hl'] end.
    rewrite Hl' in Hrun. clear Hl'.
    match type of Hrun with _ = deploy_loop _ _ _ _ _ ?st =>
      destruct (deploy_loop_failed 1 (0 + 1 + 1) st H2 A2) as [l'' Hl''] end.
    rewrite Hl'' in Hrun. clear Hl''.
    match type of Hrun with _ = deploy_loop _ _ _ ?f _ ?st =>
      destruct (deploy_loop_exhausted f (0 + 1 + 1 + 1) st H3) as [l3 Hl3] end.
    rewrite Hl3 in Hrun. rewrite Hrun. cbn. auto.
Qed.

End DeployTriggerFacts.

(** C5: the code departs from the claim on a 2xx response whose body is
    not JSON.  The claim has a first-call 2xx return true after exactly 1
    call; here [response.json()], awaited only to log the job id, rejects
    inside the [try] block, the attempt counts as failed, and a hook that
    answers 200 with such a body every time ends in [false] after 3
    calls. *)
Lemma triggerDeploy_2xx_without_json_body_retries :
  let rt := Json.mkRuntime
              (fun _ => Js.Rejected (Js.ErrorObj "SyntaxError" "bad" None))
              (fun _ => "") (fun _ => "") (fun _ => "") in
  let config := DeployTrigger.mkConfig "https://deploy.example/hook" in
  let response :=
    DeployTrigger.mkResponse 200 "OK"
      (Js.Rejected
         (Js.ErrorObj "SyntaxError" "Unexpected end of JSON input" None)) in
  let fetch := fun (_ : nat) (_ : DeployTrigger.PostRequest) =>
                 Js.Resolved response in
  let run := DeployTrigger.triggerDeploy rt config fetch DeployTrigger.init in
  DeployTrigger.ok response = true /\
  fst run = Js.Resolved false /\
  length (DeployTrigger.posts (snd run)) = 3%nat.
Proof. cbv zeta. split; [reflexivity|]. split; vm_compute; reflexivity. Qed.

(** What holds of the deploy trigger as it is written: for every
    transport behaviour it never throws and makes at most 3 POST calls.
    Given a transport that returns non-2xx twice and then a 2xx response
    with a JSON body other than null, it returns true after exactly 3
    calls; given a transport that always rejects, or always returns
    non-2xx, it returns false after exactly 3 calls; a first-call 2xx
    response with a JSON body other than null returns true after exactly
    1 call. *)
Theorem triggerDeploy_bounded_retry
    (rt : Json.Runtime) (config : DeployTrigger.Config)
    (fetch : nat -> DeployTrigger.PostRequest ->
             Js.outcome DeployTrigger.HttpResponse) :
  let req := DeployTrigger.deployRequest config in
  let run := DeployTrigger.triggerDeploy rt config fetch DeployTrigger.init in
  let sent := DeployTrigger.posts (snd run) in
  (exists b, fst run = Js.Resolved b) /\
  (length sent <= 3)%nat /\
  Forall (eq req) sent /\
  (forall r1 r2 r3 v,
     fetch 0%nat req = Js.Resolved r1 -> DeployTrigger.ok r1 = false ->
     fetch 1%nat req = Js.Resolved r2 -> DeployTrigger.ok r2 = false ->
     fetch 2%nat req = Js.Resolved r3 -> DeployTrigger.ok r3 = true ->
     DeployTrigger.body_json r3 = Js.Resolved v -> v <> Json.JNull ->
     fst run = Js.Resolved true /\ length sent = 3%nat) /\
  ((forall k, exists e, fetch k req = Js.Rejected e) ->
     fst run = Js.Resolved false /\ length sent = 3%nat) /\
  ((forall k, exists r, fetch k req = Js.Resolved r /\
                        DeployTrigger.ok r = false) ->
     fst run = Js.Resolved false /\ length sent = 3%nat) /\
  (forall r v,
     fetch 0%nat req = Js.Resolved r -> DeployTrigger.ok r = true ->
     DeployTrigger.body_json r = Js.Resolved v -> v <> Json.JNull ->
     fst run = Js.Resolved true /\ length sent = 1%nat).
Proof.
  intros req run sent.
  pose proof (triggerDeploy_cases rt config fetch) as Hc. cbv zeta in Hc.
  fold req in Hc. fold run in Hc. fold sent in Hc.
  destruct Hc as (C1 & C2 & C3 & C4).
  assert (Hok : forall r v, DeployTrigger.ok r = true ->
                  DeployTrigger.body_json r = Js.Resolved v ->
                  v <> Json.JNull ->
                  DeployTrigger.attempt_succeeds (Js.Resolved r) = true).
  { intros r v Ho Hb Hv. cbn. rewrite Ho, Hb. destruct v; cbn; congruence. }
  assert (Hno : forall r, DeployTrigger.ok r = false ->
                  DeployTrigger.attempt_succeeds (Js.Resolved r) = false).
  { intros r Ho. cbn. rewrite Ho. reflexivity. }
  assert (Hsent : (sent = [req] \/ sent = [req; req] \/ sent = [req; req; req])
                  /\ exists b, fst run = Js.Resolved b).
  { destruct (DeployTrigger.attempt_succeeds (fetch 0%nat req)) eqn:A0;
      [destruct (C1 eq_refl) as (? & ? & _); eauto|].
    destruct (DeployTrigger.attempt_succeeds (fetch 1%nat req)) eqn:A1;
      [destruct (C2 eq_refl eq_refl) as (? & ? & _); eauto|].
    destruct (DeployTrigger.attempt_succeeds (fetch 2%nat req)) eqn:A2;
      [destruct (C3 eq_refl eq_refl eq_refl) as (? & ? & _); eauto 6|].
    destruct (C4 eq_refl eq_refl eq_refl) as (? & ? & _); eauto 6. }
  destruct Hsent as [Hsent Hres].
  split_and!.
  - exact Hres.
  - destruct Hsent as [-> | [-> | ->]]; cbn; lia.
  - destruct Hsent as [-> | [-> | ->]]; repeat constructor.
  - intros r1 r2 r3 v F1 O1 F2 O2 F3 O3 B3 V3.
    destruct C3 as (? & -> & _); [rewrite F1|rewrite F2|rewrite F3|]; eauto.
  - intros Hall.
    destruct (Hall 0%nat) as [e0 E0], (Hall 1%nat) as [e1 E1],
      (Hall 2%nat) as [e2 E2].
    destruct C4 as (? & -> & _); [rewrite E0|rewrite E1|rewrite E2|]; auto.
  - intros Hall.
    destruct (Hall 0%nat) as [r0 [E0 O0]], (Hall 1%nat) as [r1 [E1 O1]],
      (Hall 2%nat) as [r2 [E2 O2]].
    destruct C4 as (? & -> & _); [rewrite E0|rewrite E1|rewrite E2|]; auto.
  - intros r v F O B V.
    destruct C1 as (? & -> & _); [rewrite F|]; eauto.
Qed.

Lemma triggerDeploy_bounded_retry_witness :
  let rt := Json.mkRuntime
              (fun _ => Js.Rejected (Js.ErrorObj "SyntaxError" "bad" None))
              (fun _ => "") (fun _ => "") (fun _ => "") in
  let config := DeployTrigger.mkConfig "https://deploy.example/hook" in
  let failing := DeployTrigger.mkResponse 500 "Internal Server Error"
                   (Js.Rejected (Js.ErrorObj "SyntaxError" "empty" None)) in
  let body := Json.JObj [("job", Json.JObj [("id", Json.JStr "test-job")])] in
  let accepted := DeployTrigger.mkResponse 200 "OK" (Js.Resolved body) in
  let third := fun (k : nat) (_ : DeployTrigger.PostRequest) =>
    if (k <? 2)%nat then Js.Resolved failing else Js.Resolved accepted in
  let rejecting := fun (_ : nat) (_ : DeployTrigger.PostRequest) =>
    Js.Rejected (A := DeployTrigger.HttpResponse) (Js.mkError "Network error") in
  let always500 := fun (_ : nat) (_ : DeployTrigger.PostRequest) =>
    Js.Resolved failing in
  let first := fun (_ : nat) (_ : DeployTrigger.PostRequest) =>
    Js.Resolved accepted in
  let run := fun fetch =>
    DeployTrigger.triggerDeploy rt config fetch DeployTrigger.init in
  (fst (run third) = Js.Resolved true /\
   length (DeployTrigger.posts (snd (run third))) = 3%nat) /\
  (fst (run rejecting) = Js.Resolved false /\
   length (DeployTrigger.posts (snd (run rejecting))) = 3%nat) /\
  (fst (run always500) = Js.Resolved false /\
   length (DeployTrigger.posts (snd (run always500))) = 3%nat) /\
  (fst (run first) = Js.Resolved true /\
   length (DeployTrigger.posts (snd (run first))) = 1%nat).
Proof.
  intros rt config failing body accepted third rejecting always500 first run.
  split; [|split; [|split]].
  - pose proof (triggerDeploy_bounded_retry rt config third) as H.
    cbv zeta in H. destruct H as (_ & _ & _ & H & _).
    apply (H failing failing accepted body); try reflexivity. discriminate.
  - pose proof (triggerDeploy_bounded_retry rt config rejecting) as H.
    cbv zeta in H. destruct H as (_ & _ & _ & _ & H & _).
    apply H. intros k. eexists. reflexivity.
  - pose proof (triggerDeploy_bounded_retry rt config always500) as H.
    cbv zeta in H. destruct H as (_ & _ & _ & _ & _ & H & _).
    apply H. intros k. exists failing. split; reflexivity.
  - pose proof (triggerDeploy_bounded_retry rt config first) as H.
    cbv zeta in H. destruct H as (_ & _ & _ & _ & _ & _ & H).
    apply (H accepted body); try reflexivity. discriminate.
Defined.

(** ** Output processor: the content pipelines *)

Section ContentPipelineFacts.
Import Js Json OutputProcessor.

Lemma trimStart_all_whitespace (s : string) :
  all_whitespace s = true -> trimStart s = "".
Proof.
  induction s as [|c s IH]; [reflexivity|]. cbn.
  intros H. apply andb_true_iff in H as [Hc Hs]. rewrite Hc. auto.
Qed.

Lemma parseContent_blank (response : ClaudeResponse) :
  content response = "" \/ all_whitespace (content response) = true ->
  parseContent response =
  Rejected (mkError "Empty response content from Claude").
Proof.
  intros H. unfold parseContent.
  destruct (String.eqb (content response) "") eqn:E; [reflexivity|].
  destruct H as [H|H]; [rewrite H in E; discriminate E|].
  unfold trim. rewrite (trimStart_all_whitespace _ H). reflexivity.
Qed.

End ContentPipelineFacts.

Ltac simpl_pipeline :=
  cbn [OutputProcessor.world OutputProcessor.trace fst snd Js.threw
       OutputProcessor.local_stage OutputProcessor.memory_stage
       OutputProcessor.landing_stage OutputProcessor.deploy_stage].

Ltac run_dependency :=
  first
    [ match goal with
      | |- context [let (_, _) := ?call in _] =>
          lazymatch call with
          | context [match _ with pair _ _ => _ end] => fail
          | _ => idtac
          end;
          let w := fresh "w" in
          destruct call as [[?|?] w]
      end
    | match goal with
      | |- context [OutputProcessor.store_success ?r] =>
          destruct (OutputProcessor.store_success r)
      end
    | match goal with
      | |- context [if ?b then _ else _] => is_var b; destruct b
      end ];
  simpl_pipeline.

Ltac run_pipeline :=
  unfold OutputProcessor.gather_status, OutputProcessor.invoke, Prog.bind,
    Prog.ret;
  simpl_pipeline;
  repeat run_dependency.

(** C3: for every response whose content is empty or whitespace-only,
    processHourlyOutput returns {success:false, localSaved:false,
    memorySaved:false, deployed:false, metricsUpdated:false} with the single
    error "Empty response content from Claude", and calls no dependency:
    the world and the record of calls are what they were. *)
Theorem processHourlyOutput_empty_response
    (W : Type) (now : string) (deps : OutputProcessor.OutputProcessorDeps W)
    (response : OutputProcessor.ClaudeResponse) (day hour : Js.number)
    (st : OutputProcessor.PState W) :
  OutputProcessor.content response = "" \/
  Js.all_whitespace (OutputProcessor.content response) = true ->
  OutputProcessor.processHourlyOutput W now response day hour deps st =
    (OutputProcessor.mkResult false false false false false
       ["Empty response content from Claude"], st) /\
  Js.includes "Empty response" "Empty response content from Claude" = true.
Proof.
  intros H. split; [|reflexivity].
  unfold OutputProcessor.processHourlyOutput.
  rewrite (parseContent_blank response H). reflexivity.
Qed.

Lemma processHourlyOutput_empty_response_witness :
  let deps :=
    OutputProcessor.mkDeps unit
      (fun _ _ _ _ w => (Js.Resolved tt, w))
      (fun _ _ _ w => (Js.Resolved tt, w))
      (fun _ _ _ _ _ _ w => (Js.Resolved tt, w))
      (fun _ _ w => (Js.Resolved (OutputProcessor.mkStore true), w))
      (fun _ _ w => (Js.Resolved (OutputProcessor.mkStore true), w))
      (fun _ _ _ w => (Js.Resolved (OutputProcessor.mkStore true), w))
      (fun w => (Js.Resolved
                   (OutputProcessor.mkSnapshot (Js.of_Z 5) (Js.of_Z 100)
                      "Build valuable tools"), w))
      (fun _ w => (Js.Resolved tt, w))
      (fun w => (Js.Resolved
                   (OutputProcessor.mkRunway (Js.of_Z 10) (Js.of_Z 90)
                      (Js.of_Z 8) "focused"), w))
      (fun w => (Js.Resolved true, w)) in
  let st := OutputProcessor.mkPState tt [] in
  OutputProcessor.processHourlyOutput unit "2025-01-10T14:50:00.000Z"
    (OutputProcessor.mkResponse "   ") (Js.of_Z 10) (Js.of_Z 14) deps st =
  (OutputProcessor.mkResult false false false false false
     ["Empty response content from Claude"], st).
Proof.
  intros deps st.
  apply (proj1 (processHourlyOutput_empty_response unit
                  "2025-01-10T14:50:00.000Z" deps
                  (OutputProcessor.mkResponse "   ") (Js.of_Z 10) (Js.of_Z 14)
                  st (or_intror eq_refl))).
Defined.

Section CriticalWriteFacts.
Import Js Json OutputProcessor.

Variable W : Type.
Variable now : string.
Variable deps : OutputProcessorDeps W.

Lemma processHourlyOutput_success (response : ClaudeResponse)
    (day hour : number) (st : PState W) :
  success (fst (processHourlyOutput W now response day hour deps st)) =
  localSaved (fst (processHourlyOutput W now response day hour deps st)).
Proof.
  unfold processHourlyOutput.
  destruct (parseContent response) as [content|err]; [|reflexivity].
  run_pipeline; reflexivity.
Qed.

Lemma processJournalOutput_success (response : ClaudeResponse)
    (day : number) (st : PState W) :
  success (fst (processJournalOutput W now response day deps st)) =
  localSaved (fst (processJournalOutput W now response day deps st)).
Proof.
  unfold processJournalOutput.
  destruct (parseContent response) as [content|err]; [|reflexivity].
  run_pipeline; reflexivity.
Qed.

End CriticalWriteFacts.

(** The content that reaches the stages: a response whose trimmed content
    is not empty parses to that trimmed content. *)
Lemma parseContent_nonblank (response : OutputProcessor.ClaudeResponse) :
  Js.trim (OutputProcessor.content response) <> "" ->
  OutputProcessor.parseContent response
    = Js.Resolved (Js.trim (OutputProcessor.content response)).
Proof.
  intros Hne. unfold OutputProcessor.parseContent.
  destruct (String.eqb (OutputProcessor.content response) "") eqn:E.
  - apply String.eqb_eq in E. rewrite E in Hne. exfalso. apply Hne.
    reflexivity.
  - apply String.eqb_neq in Hne. rewrite Hne. reflexivity.
Qed.

(** C1: for every response with non-empty trimmed content and every
    dependency set, if the local content-store write (writeHourlyUpdate,
    writeDailyJournal) throws, processHourlyOutput and processJournalOutput
    record the error, leave localSaved false, still invoke each remaining
    best-effort stage (remote memory store, landing update, deploy
    trigger), and return a result whose success field equals localSaved.
    The write is the call the pipeline makes once both status getters have
    resolved, with the trimmed content and the metadata built from their
    answers; when the writer rejects that call, the calls made are exactly
    the two getters, the write, the store, the landing update and the
    deploy trigger, each run on the world the previous one left. *)
Theorem content_pipelines_continue_after_failed_write
    (W : Type) (now : string) (deps : OutputProcessor.OutputProcessorDeps W)
    (response : OutputProcessor.ClaudeResponse) (day hour : Js.number) (w : W) :
  Js.trim (OutputProcessor.content response) <> "" ->
  let fresh_run := OutputProcessor.mkPState w [] in
  let hourly :=
    OutputProcessor.processHourlyOutput W now response day hour deps fresh_run in
  let journal :=
    OutputProcessor.processJournalOutput W now response day deps fresh_run in
  let c := Js.trim (OutputProcessor.content response) in
  (forall runwayStatus metrics w1 w2,
     OutputProcessor.getRunwayStatus W deps w = (Js.Resolved runwayStatus, w1) ->
     OutputProcessor.getMetrics W deps w1 = (Js.Resolved metrics, w2) ->
     let landing :=
       OutputProcessor.CallUpdateLanding day
         (OutputProcessor.daysRemaining runwayStatus)
         (OutputProcessor.runwayDays runwayStatus)
         (OutputProcessor.thingsShipped metrics)
         (OutputProcessor.revenueTotal metrics)
         (OutputProcessor.currentStrategy metrics) in
     let update_landing :=
       OutputProcessor.updateLanding W deps day
         (OutputProcessor.daysRemaining runwayStatus)
         (OutputProcessor.runwayDays runwayStatus)
         (OutputProcessor.thingsShipped metrics)
         (OutputProcessor.revenueTotal metrics)
         (OutputProcessor.currentStrategy metrics) in
     let hourly_metadata :=
       OutputProcessor.mkMetadata day (Some hour) now
         (OutputProcessor.runwayDays runwayStatus)
         (OutputProcessor.urgencyLevel runwayStatus)
         (OutputProcessor.currentStrategy metrics)
         (OutputProcessor.countWords c) in
     let hourly_memory :=
       [("type", Json.JStr "hourly_update"); ("day", Json.JNum day);
        ("hour", Json.JNum hour); ("timestamp", Json.JStr now);
        ("runway_days", Json.JNum (OutputProcessor.runwayDays runwayStatus));
        ("current_strategy",
         Json.JStr (OutputProcessor.currentStrategy metrics))] in
     let journal_metadata :=
       OutputProcessor.mkMetadata day None now
         (OutputProcessor.runwayDays runwayStatus)
         (OutputProcessor.urgencyLevel runwayStatus)
         (OutputProcessor.currentStrategy metrics)
         (OutputProcessor.countWords c) in
     let journal_memory :=
       [("type", Json.JStr "daily_journal"); ("day", Json.JNum day);
        ("timestamp", Json.JStr now);
        ("runway_days", Json.JNum (OutputProcessor.runwayDays runwayStatus));
        ("current_strategy",
         Json.JStr (OutputProcessor.currentStrategy metrics))] in
     (forall e w3,
        OutputProcessor.writeHourlyUpdate W deps day hour c hourly_metadata w2
          = (Js.Rejected e, w3) ->
        let stored := OutputProcessor.storeHourlyUpdate W deps c hourly_memory w3 in
        let landed := update_landing (snd stored) in
        let triggered := OutputProcessor.triggerDeploy W deps (snd landed) in
        OutputProcessor.localSaved (fst hourly) = false /\
        OutputProcessor.success (fst hourly) = false /\
        (exists later,
           OutputProcessor.errors (fst hourly) =
           ("Local save failed: " ++ Js.messageOr "Failed to save locally" e)
             :: later) /\
        OutputProcessor.trace (snd hourly) =
          [OutputProcessor.mkEvent OutputProcessor.CallGetRunwayStatus None;
           OutputProcessor.mkEvent OutputProcessor.CallGetMetrics None;
           OutputProcessor.mkEvent
             (OutputProcessor.CallWriteHourlyUpdate day hour c hourly_metadata)
             (Some e);
           OutputProcessor.mkEvent
             (OutputProcessor.CallStoreHourlyUpdate c hourly_memory)
             (Js.threw (fst stored));
           OutputProcessor.mkEvent landing (Js.threw (fst landed));
           OutputProcessor.mkEvent OutputProcessor.CallTriggerDeploy
             (Js.threw (fst triggered))] /\
        OutputProcessor.world (snd hourly) = snd triggered) /\
     (forall e w3,
        OutputProcessor.writeDailyJournal W deps day c journal_metadata w2
          = (Js.Rejected e, w3) ->
        let stored := OutputProcessor.storeDailyJournal W deps c journal_memory w3 in
        let landed := update_landing (snd stored) in
        let triggered := OutputProcessor.triggerDeploy W deps (snd landed) in
        OutputProcessor.localSaved (fst journal) = false /\
        OutputProcessor.success (fst journal) = false /\
        (exists later,
           OutputProcessor.errors (fst journal) =
           ("Local save failed: " ++ Js.messageOr "Failed to save locally" e)
             :: later) /\
        OutputProcessor.trace (snd journal) =
          [OutputProcessor.mkEvent OutputProcessor.CallGetRunwayStatus None;
           OutputProcessor.mkEvent OutputProcessor.CallGetMetrics None;
           OutputProcessor.mkEvent
             (OutputProcessor.CallWriteDailyJournal day c journal_metadata)
             (Some e);
           OutputProcessor.mkEvent
             (OutputProcessor.CallStoreDailyJournal c journal_memory)
             (Js.threw (fst stored));
           OutputProcessor.mkEvent landing (Js.threw (fst landed));
           OutputProcessor.mkEvent OutputProcessor.CallTriggerDeploy
             (Js.threw (fst triggered))] /\
        OutputProcessor.world (snd journal) = snd triggered)) /\
  OutputProcessor.success (fst hourly) = OutputProcessor.localSaved (fst hourly) /\
  OutputProcessor.success (fst journal)
    = OutputProcessor.localSaved (fst journal).
Proof.
  intros Hne fresh_run hourly journal c.
  split; [|split;
           [apply processHourlyOutput_success
           |apply processJournalOutput_success]].
  intros runwayStatus metrics w1 w2 Hrunway Hmetrics.
  cbv zeta. split.
  - intros e w3 Hwrite. subst hourly fresh_run c.
    unfold OutputProcessor.processHourlyOutput.
    rewrite (parseContent_nonblank response Hne).
    unfold OutputProcessor.gather_status, OutputProcessor.invoke, Prog.bind,
      Prog.ret.
    cbn [OutputProcessor.world OutputProcessor.trace].
    rewrite Hrunway. cbn [OutputProcessor.world OutputProcessor.trace].
    rewrite Hmetrics.
    cbn [OutputProcessor.world OutputProcessor.trace fst snd Js.threw
         OutputProcessor.timestamp OutputProcessor.runway_days
         OutputProcessor.current_strategy].
    rewrite Hwrite.
    cbn [OutputProcessor.world OutputProcessor.trace fst snd Js.threw
         OutputProcessor.local_stage].
    repeat run_dependency; cbn;
      (split; [reflexivity|]); (split; [reflexivity|]);
      (split; [eexists; reflexivity|]); split; reflexivity.
  - intros e w3 Hwrite. subst journal fresh_run c.
    unfold OutputProcessor.processJournalOutput.
    rewrite (parseContent_nonblank response Hne).
    unfold OutputProcessor.gather_status, OutputProcessor.invoke, Prog.bind,
      Prog.ret.
    cbn [OutputProcessor.world OutputProcessor.trace].
    rewrite Hrunway. cbn [OutputProcessor.world OutputProcessor.trace].
    rewrite Hmetrics.
    cbn [OutputProcessor.world OutputProcessor.trace fst snd Js.threw
         OutputProcessor.timestamp OutputProcessor.runway_days
         OutputProcessor.current_strategy].
    rewrite Hwrite.
    cbn [OutputProcessor.world OutputProcessor.trace fst snd Js.threw
         OutputProcessor.local_stage].
    repeat run_dependency; cbn;
      (split; [reflexivity|]); (split; [reflexivity|]);
      (split; [eexists; reflexivity|]); split; reflexivity.
Qed.

Lemma content_pipelines_continue_after_failed_write_witness :
  let disk_full := Js.mkError "ENOSPC: no space left on device" in
  let deps :=
    OutputProcessor.mkDeps unit
      (fun _ _ _ _ w => (Js.Rejected disk_full, w))
      (fun _ _ _ w => (Js.Rejected disk_full, w))
      (fun _ _ _ _ _ _ w => (Js.Resolved tt, w))
      (fun _ _ w => (Js.Resolved (OutputProcessor.mkStore true), w))
      (fun _ _ w => (Js.Resolved (OutputProcessor.mkStore true), w))
      (fun _ _ _ w => (Js.Resolved (OutputProcessor.mkStore true), w))
      (fun w => (Js.Resolved
                   (OutputProcessor.mkSnapshot (Js.of_Z 5) (Js.of_Z 100)
                      "Build valuable tools"), w))
      (fun _ w => (Js.Resolved tt, w))
      (fun w => (Js.Resolved
                   (OutputProcessor.mkRunway (Js.of_Z 10) (Js.of_Z 90)
                      (Js.of_Z 8) "focused"), w))
      (fun w => (Js.Resolved true, w)) in
  let response := OutputProcessor.mkResponse "Hello world" in
  let now := "2025-01-05T10:50:00.000Z" in
  let st := OutputProcessor.mkPState tt [] in
  let hourly :=
    OutputProcessor.processHourlyOutput unit now response (Js.of_Z 5)
      (Js.of_Z 10) deps st in
  let journal :=
    OutputProcessor.processJournalOutput unit now response (Js.of_Z 5) deps st in
  (OutputProcessor.localSaved (fst hourly) = false /\
   OutputProcessor.success (fst hourly) = false /\
   length (OutputProcessor.trace (snd hourly)) = 6%nat) /\
  (OutputProcessor.localSaved (fst journal) = false /\
   OutputProcessor.success (fst journal) = false /\
   length (OutputProcessor.trace (snd journal)) = 6%nat).
Proof.
  intros disk_full deps response now st hourly journal.
  assert (Hne : Js.trim (OutputProcessor.content response) <> "")
    by (vm_compute; discriminate).
  pose proof (content_pipelines_continue_after_failed_write unit now deps
                response (Js.of_Z 5) (Js.of_Z 10) tt Hne) as H.
  cbv zeta in H. destruct H as (H & _ & _).
  destruct (H (OutputProcessor.mkRunway (Js.of_Z 10) (Js.of_Z 90)
                 (Js.of_Z 8) "focused")
              (OutputProcessor.mkSnapshot (Js.of_Z 5) (Js.of_Z 100)
                 "Build valuable tools") tt tt eq_refl eq_refl) as [Hh Hj].
  split.
  - destruct (Hh disk_full tt eq_refl) as (H1 & H2 & _ & H4 & _).
    split; [exact H1|]. split; [exact H2|].
    unfold hourly, st. rewrite H4. reflexivity.
  - destruct (Hj disk_full tt eq_refl) as (H1 & H2 & _ & H4 & _).
    split; [exact H1|]. split; [exact H2|].
    unfold journal, st. rewrite H4. reflexivity.
Defined.

(** ** Output processor: the decision pipeline *)

Section DecisionFacts.
Import Js Json OutputProcessor.

Variable rt : Runtime.

Lemma is_activity_type_In (ty : option json) :
  is_activity_type ty = true ->
  exists s, ty = Some (JStr s) /\ In s ACTIVITY_TYPES.
Proof.
  destruct ty as [[| | |s| |]|]; try discriminate. cbn [is_activity_type].
  intros H. exists s. split; [reflexivity|].
  apply existsb_exists in H as (x & Hx & Heq).
  apply String.eqb_eq in Heq. subst x. exact Hx.
Qed.

Lemma In_is_activity_type (s : string) :
  In s ACTIVITY_TYPES -> is_activity_type (Some (JStr s)) = true.
Proof.
  intros H. cbn [is_activity_type]. apply existsb_exists.
  exists s. split; [exact H|apply String.eqb_refl].
Qed.

Lemma validate_activity_sound (activity : json) :
  validate_activity rt activity = Resolved tt ->
  well_formed_activity activity.
Proof.
  unfold validate_activity.
  destruct activity as [| | | | |fields]; cbn [readProp]; try discriminate.
  destruct (is_activity_type (assoc "type" fields)) eqn:Ety; cbn [negb];
    [|discriminate].
  destruct (truthy (assoc "action" fields)) eqn:Ea; cbn; [|discriminate].
  destruct (truthy (assoc "reasoning" fields)) eqn:Er; cbn; [|discriminate].
  intros _. destruct (is_activity_type_In _ Ety) as (ty & Hty & Hin).
  exists fields, ty. auto.
Qed.

Lemma validate_activity_complete (activity : json) :
  well_formed_activity activity ->
  validate_activity rt activity = Resolved tt.
Proof.
  intros (fields & ty & -> & Hty & Hin & Ha & Hr).
  unfold validate_activity. cbn [readProp].
  rewrite Hty, (In_is_activity_type ty Hin), Ha, Hr. reflexivity.
Qed.

Lemma validate_activities_sound (items : list json) :
  validate_activities rt items = Resolved tt ->
  Forall well_formed_activity items.
Proof.
  induction items as [|a items IH]; cbn; [constructor|].
  destruct (validate_activity rt a) as [[]|e] eqn:Ea; [|discriminate].
  intros H. constructor; [apply validate_activity_sound; exact Ea|auto].
Qed.

Lemma validate_activities_complete (items : list json) :
  Forall well_formed_activity items ->
  validate_activities rt items = Resolved tt.
Proof.
  induction 1 as [|a items Ha _ IH]; cbn; [reflexivity|].
  rewrite (validate_activity_complete a Ha). exact IH.
Qed.

(** Validation accepts exactly the well-formed decisions. *)
Lemma validate_decision_sound (v : json) (d : ActivityDecision) :
  validate_decision rt v = Resolved d -> well_formed_decision v.
Proof.
  unfold validate_decision.
  destruct v as [| | | | |fields]; cbn [readProp]; try discriminate.
  destruct (assoc "activities" fields) as [[| | | |items|]|] eqn:Eact;
    try discriminate.
  destruct (assoc "urgency_assessment" fields) as [[| | |urgency| |]|] eqn:Eu;
    try discriminate.
  destruct (assoc "confidence_in_strategy" fields) as [[| |c| | |]|] eqn:Ec;
    try discriminate.
  destruct (validate_activities rt items) as [[]|e] eqn:Ev; [|discriminate].
  intros _. exists fields, items, urgency, c.
  split_and!; auto using validate_activities_sound.
Qed.

Lemma validate_decision_complete (v : json) :
  well_formed_decision v -> exists d, validate_decision rt v = Resolved d.
Proof.
  intros (fields & items & urgency & c & -> & Hact & Hall & Hu & Hc).
  unfold validate_decision. cbn [readProp].
  rewrite Hact, Hu, Hc, (validate_activities_complete items Hall). eauto.
Qed.

Lemma parseActivityDecision_accepts (response : ClaudeResponse)
    (d : ActivityDecision) :
  parseActivityDecision rt response = Resolved d ->
  acceptable_response rt response.
Proof.
  unfold parseActivityDecision, acceptable_response.
  destruct (parseContent response) as [content|e]; [|discriminate].
  destruct (JSON_parse rt (json_text content)) as [v|e] eqn:Ep; [|discriminate].
  destruct (validate_decision rt v) as [d'|e] eqn:Ev; [|discriminate].
  intros _. exists content, v. eauto using validate_decision_sound.
Qed.

Lemma prefix_append (p s : string) : String.prefix p (p ++ s) = true.
Proof.
  induction p as [|c p IH]; [destruct s; reflexivity|].
  change (String.prefix (String c p) (String c (p ++ s)) = true).
  cbn [String.prefix]. destruct (ascii_dec c c); [exact IH|congruence].
Qed.

(** What [parseActivityDecision] throws is an [Error] whose message names
    the failure. *)
Lemma parseActivityDecision_rejection (response : ClaudeResponse) (e : thrown) :
  parseActivityDecision rt response = Rejected e ->
  exists msg,
    e = mkError msg /\
    (msg = "Empty response content from Claude" \/
     String.prefix "Failed to parse activity decision JSON: " msg = true).
Proof.
  unfold parseActivityDecision, parseContent.
  destruct (String.eqb (content response) "");
    [intros [= <-]; eauto|].
  destruct (String.eqb (trim (content response)) "");
    [intros [= <-]; eauto|].
  match goal with |- context [match ?a with Resolved _ => _ | Rejected _ => _ end = _] =>
    destruct a as [d|err] end; [discriminate|].
  intros [= <-]. eexists. split; [reflexivity|]. right. apply prefix_append.
Qed.

End DecisionFacts.

(** C2 (amended): for every response, the structural validation of
    processActivityOutput requires activities to be an array (it may be
    empty) whose every element has a type in {BUILD, WRITE, RESEARCH,
    ANALYZE, ITERATE, SHIP} and non-empty action and reasoning, plus a
    string urgency_assessment and a numeric confidence_in_strategy; any
    violation (as any empty or unparsable response) returns
    {success:false, decision:undefined} with a single descriptive error and
    performs no best-effort write: no dependency is called. *)
Theorem processActivityOutput_rejects_malformed
    (W : Type) (rt : Json.Runtime)
    (deps : OutputProcessor.OutputProcessorDeps W)
    (response : OutputProcessor.ClaudeResponse)
    (st : OutputProcessor.PState W) :
  ~ OutputProcessor.acceptable_response rt response ->
  exists msg,
    OutputProcessor.processActivityOutput W rt response deps st =
      (Js.Resolved
         (OutputProcessor.mkActivityResult
            (OutputProcessor.mkResult false false false false false [msg])
            None),
       st) /\
    (msg = "Empty response content from Claude" \/
     String.prefix "Failed to parse activity decision JSON: " msg = true).
Proof.
  intros Hbad. unfold OutputProcessor.processActivityOutput.
  destruct (OutputProcessor.parseActivityDecision rt response) as [d|e] eqn:Ep.
  - exfalso. apply Hbad. eapply parseActivityDecision_accepts. exact Ep.
  - destruct (parseActivityDecision_rejection rt response e Ep)
      as (msg & -> & Hmsg).
    exists msg. split; [reflexivity|exact Hmsg].
Qed.

(** C2 (as stated) fails on an empty activities array: validation accepts
    it, and the caller receives success with a decision that plans
    nothing. *)
Lemma processActivityOutput_accepts_empty_activities :
  let rt := Samples.runtime_for Samples.empty_plan_text Samples.empty_plan in
  let run :=
    OutputProcessor.processActivityOutput unit rt
      (OutputProcessor.mkResponse Samples.empty_plan_text)
      Samples.quiet_deps (OutputProcessor.mkPState tt []) in
  fst run =
    Js.Resolved
      (OutputProcessor.mkActivityResult
         (OutputProcessor.mkResult true false false false false [])
         (Some (OutputProcessor.mkDecision Samples.empty_plan []
                  "calm" (Js.Finite (3 # 4)) None))) /\
  OutputProcessor.trace (snd run) = [].
Proof. cbv zeta. split; vm_compute; reflexivity. Qed.

Example processActivityOutput_invalid_type_message :
  let rt := Samples.runtime_for Samples.play_plan_text Samples.play_plan in
  OutputProcessor.processActivityOutput unit rt
    (OutputProcessor.mkResponse Samples.play_plan_text)
    Samples.quiet_deps (OutputProcessor.mkPState tt []) =
  (Js.Resolved
     (OutputProcessor.mkActivityResult
        (OutputProcessor.mkResult false false false false false
           ["Failed to parse activity decision JSON: Invalid activity type: PLAY"])
        None),
   OutputProcessor.mkPState tt []).
Proof. vm_compute. reflexivity. Qed.

Lemma processActivityOutput_rejects_malformed_witness :
  let rt := Samples.runtime_for Samples.play_plan_text Samples.play_plan in
  let st := OutputProcessor.mkPState tt [] in
  exists msg,
    OutputProcessor.processActivityOutput unit rt
      (OutputProcessor.mkResponse Samples.play_plan_text)
      Samples.quiet_deps st =
      (Js.Resolved
         (OutputProcessor.mkActivityResult
            (OutputProcessor.mkResult false false false false false [msg])
            None),
       st) /\
    (msg = "Empty response content from Claude" \/
     String.prefix "Failed to parse activity decision JSON: " msg = true).
Proof.
  intros rt st.
  apply (processActivityOutput_rejects_malformed unit rt Samples.quiet_deps
           (OutputProcessor.mkResponse Samples.play_plan_text) st).
  intros (content & v & Hc & Hp & Hwf).
  vm_compute in Hc. injection Hc as <-.
  vm_compute in Hp. injection Hp as <-.
  destruct Hwf as (fields & items & urgency & confidence & Hv & Hact & Hall & _).
  injection Hv as <-. vm_compute in Hact. injection Hact as <-.
  apply Forall_inv in Hall.
  destruct Hall as (fs & ty & Ha & Hty & Hin & _).
  injection Ha as <-. vm_compute in Hty. injection Hty as <-.
  cbn in Hin. intuition discriminate.
Defined.

(** ** The repository's own test scenarios, run on the embedding *)

Section TestScenarios.
Import Js Json.

Example trim_strips_both_ends :
  trim (Samples.nl ++ "  Hello world " ++ Samples.nl) = "Hello world".
Proof. reflexivity. Qed.

Example countWords_hello_world :
  OutputProcessor.countWords ("Hello   world" ++ Samples.nl) = 2%nat.
Proof. reflexivity. Qed.

Example json_text_strips_fence :
  OutputProcessor.json_text Samples.fenced_empty_plan_text
  = Samples.empty_plan_text.
Proof. vm_compute. reflexivity. Qed.

Example json_text_without_closing_fence :
  OutputProcessor.json_text "```json {}" = "```json {}".
Proof. reflexivity. Qed.

Example isRateLimitError_is_case_blind :
  ClaudeClient.isRateLimitError
    (Some (ErrorObj "Error" "Rate Limit exceeded" None)) = true /\
  ClaudeClient.isRateLimitError (Some (ErrorObj "Error" "boom" (Some 500)))
    = false /\
  ClaudeClient.isRateLimitError (Some (NonError "rate limit")) = false.
Proof. repeat split; reflexivity. Qed.

Example truthy_rejects_missing_and_empty :
  truthy None = false /\ truthy (Some (JStr "")) = false /\
  truthy (Some JNull) = false /\ truthy (Some (JStr "ship it")) = true.
Proof. repeat split; reflexivity. Qed.

Example processHourlyOutput_all_stages_succeed :
  OutputProcessor.processHourlyOutput unit "2025-01-05T10:50:00.000Z"
    (OutputProcessor.mkResponse "Hello world") (of_Z 5) (of_Z 10)
    Samples.quiet_deps (OutputProcessor.mkPState tt [])
  = (OutputProcessor.mkResult true true true true true [],
     OutputProcessor.mkPState tt
       [OutputProcessor.mkEvent OutputProcessor.CallGetRunwayStatus None;
        OutputProcessor.mkEvent OutputProcessor.CallGetMetrics None;
        OutputProcessor.mkEvent
          (OutputProcessor.CallWriteHourlyUpdate (of_Z 5) (of_Z 10)
             "Hello world"
             (OutputProcessor.mkMetadata (of_Z 5) (Some (of_Z 10))
                "2025-01-05T10:50:00.000Z" (of_Z 8) "focused"
                "Build valuable tools" 2)) None;
        OutputProcessor.mkEvent
          (OutputProcessor.CallStoreHourlyUpdate "Hello world"
             [("type", JStr "hourly_update"); ("day", JNum (of_Z 5));
              ("hour", JNum (of_Z 10));
              ("timestamp", JStr "2025-01-05T10:50:00.000Z");
              ("runway_days", JNum (of_Z 8));
              ("current_strategy", JStr "Build valuable tools")]) None;
        OutputProcessor.mkEvent
          (OutputProcessor.CallUpdateLanding (of_Z 5) (of_Z 90) (of_Z 8)
             (of_Z 5) (of_Z 100) "Build valuable tools") None;
        OutputProcessor.mkEvent OutputProcessor.CallTriggerDeploy None]).
Proof. vm_compute. reflexivity. Qed.

Example processHourlyOutput_remote_store_down :
  fst (OutputProcessor.processHourlyOutput unit "2025-01-05T10:50:00.000Z"
         (OutputProcessor.mkResponse "Hello world") (of_Z 5) (of_Z 10)
         Samples.store_down_deps (OutputProcessor.mkPState tt []))
  = OutputProcessor.mkResult true true false true true
      ["Memory store failed: Network error"].
Proof. vm_compute. reflexivity. Qed.

Example processActivityOutput_fenced_plan :
  let rt := Samples.runtime_for Samples.empty_plan_text Samples.empty_plan in
  OutputProcessor.success
    (match fst (OutputProcessor.processActivityOutput unit rt
                  (OutputProcessor.mkResponse Samples.fenced_empty_plan_text)
                  Samples.quiet_deps (OutputProcessor.mkPState tt [])) with
     | Resolved r => OutputProcessor.result r
     | Rejected _ => OutputProcessor.createFailedResult []
     end) = true.
Proof. vm_compute. reflexivity. Qed.

Example startScheduler_registers_seven_tasks :
  Scheduler.getSchedulerStatus
    (snd (Scheduler.startScheduler (fun _ => true) (Scheduler.mkState [] [])))
  = [("activityDecision", "55 * * * *"); ("hourlyUpdate", "50 * * * *");
     ("dailyJournal", "0 23 * * *"); ("runwayCheck", "0 */6 * * *");
     ("goalReview", "15 0 * * *"); ("weeklyReview", "0 12 * * 0");
     ("healthCheck", "*/5 * * * *")].
Proof. reflexivity. Qed.

Example stopScheduler_clears_registry :
  Scheduler.getSchedulerStatus
    (snd (Scheduler.stopScheduler
            (snd (Scheduler.startScheduler (fun _ => true)
                    (Scheduler.mkState [] [])))))
  = [].
Proof. reflexivity. Qed.

Example generateContent_succeeds_on_third_attempt :
  let run := ClaudeClient.generateContent Samples.flaky_transport
               "System prompt" "User prompt" ClaudeClient.init in
  fst run = inl (ClaudeClient.mkResult "Success after retries" 100 50) /\
  length (ClaudeClient.requests (snd run)) = 3%nat /\
  ClaudeClient.sleeps (snd run) = [1000; 2000].
Proof. cbv zeta. repeat split; vm_compute; reflexivity. Qed.

Example triggerDeploy_succeeds_on_second_attempt :
  let rt := Samples.runtime_for "" JNull in
  let run := DeployTrigger.triggerDeploy rt
               (DeployTrigger.mkConfig "https://deploy.example/hook")
               Samples.flaky_hook DeployTrigger.init in
  fst run = Resolved true /\
  length (DeployTrigger.posts (snd run)) = 2%nat /\
  DeployTrigger.delays (snd run) = [1000].
Proof. cbv zeta. repeat split; vm_compute; reflexivity. Qed.

Example updateMetrics_merges_keyMetrics_across_updates :
  let parse := fun _ : string =>
    Rejected (A := Metrics.Metrics) (ErrorObj "SyntaxError" "bad" None) in
  let stringify := fun (_ : option Z) (_ : Metrics.Metrics) => "{...}" in
  let st0 := Metrics.mkState None None false None None "t0" [] in
  let st1 := snd (Metrics.updateMetrics parse stringify
                    (Metrics.mkPartial None None None
                       (Some {[ "foo" := Metrics.SStr "bar" ]})) st0) in
  let m2 := fst (Metrics.updateMetrics parse stringify
                   (Metrics.mkPartial None None None
                      (Some {[ "baz" := Metrics.SNum (of_Z 123) ]})) st1) in
  Metrics.keyMetrics m2 !! "foo" = Some (Metrics.SStr "bar") /\
  Metrics.keyMetrics m2 !! "baz" = Some (Metrics.SNum (of_Z 123)) /\
  Metrics.thingsShipped m2 = of_Z 0.
Proof. cbv zeta. repeat split; vm_compute; reflexivity. Qed.

End TestScenarios.

(* ===================================================================== *)
(** * Part III: further properties of the same sources                    *)
(* ===================================================================== *)

(** ** Completion client: the successful runs *)

Section ClaudeClientSuccess.
Import Js Logger ClaudeClient ClaudeClientView.

Variable transport : nat -> Request -> outcome ApiResponse.

Lemma attempt_once_result attempt sp up st resp :
  transport (length (requests st)) (buildRequest sp up) = Resolved resp ->
  exists l, attempt_once transport attempt sp up st =
    (Resolved (result_of resp),
     mkState (requests st ++ [buildRequest sp up]) (sleeps st) l).
Proof.
  intros H. unfold attempt_once, Prog.and_then, Prog.lift, Prog.bind,
    messages_create, emit, Prog.modify, Prog.ret, Prog.pure.
  cbn [requests sleeps log]. rewrite H. cbn [requests sleeps log].
  unfold result_of, text_of.
  destruct (List.find _ (resp_content resp)) as [block|] eqn:Ef.
  - apply List.find_some in Ef as [_ Ht]. rewrite Ht. eauto.
  - eauto.
Qed.

Lemma retry_loop_returns fuel attempt last sp up st resp :
  attempt <= MAX_RETRIES ->
  transport (length (requests st)) (buildRequest sp up) = Resolved resp ->
  exists l,
    retry_loop transport (S fuel) attempt last sp up st =
    (inl (result_of resp),
     mkState (requests st ++ [buildRequest sp up]) (sleeps st) l).
Proof.
  intros Ha H. cbn [retry_loop].
  apply Z.leb_le in Ha. rewrite Ha.
  destruct (attempt_once_result attempt sp up st resp H) as (l & Hl).
  unfold Prog.bind at 1. rewrite Hl. unfold Prog.ret. eauto.
Qed.

End ClaudeClientSuccess.

Ltac client_step_returns Hrun Hle E :=
  match type of Hrun with
  | _ = ClaudeClient.retry_loop ?t (S ?fuel) ?a ?last ?sp ?up ?st =>
      let l := fresh "l" in
      let Hl := fresh "Hl" in
      destruct (retry_loop_returns t fuel a last sp up st _ Hle E) as (l & Hl);
      rewrite Hl in Hrun; clear Hl
  end.

(** How a run of generateContent goes, by the first transport call that
    resolves. *)
Lemma generateContent_cases
    (transport : nat -> ClaudeClient.Request -> Js.outcome ClaudeClient.ApiResponse)
    (sp up : string) :
  let req := ClaudeClient.buildRequest sp up in
  let run := ClaudeClient.generateContent transport sp up ClaudeClient.init in
  (forall r1, transport 0%nat req = Js.Resolved r1 ->
     fst run = inl (ClaudeClientView.result_of r1) /\
     ClaudeClient.requests (snd run) = [req] /\
     ClaudeClient.sleeps (snd run) = []) /\
  (forall e1 r2,
     transport 0%nat req = Js.Rejected e1 ->
     transport 1%nat req = Js.Resolved r2 ->
     fst run = inl (ClaudeClientView.result_of r2) /\
     ClaudeClient.requests (snd run) = [req; req] /\
     ClaudeClient.sleeps (snd run) = [1000]) /\
  (forall e1 e2 r3,
     transport 0%nat req = Js.Rejected e1 ->
     transport 1%nat req = Js.Rejected e2 ->
     transport 2%nat req = Js.Resolved r3 ->
     fst run = inl (ClaudeClientView.result_of r3) /\
     ClaudeClient.requests (snd run) = [req; req; req] /\
     ClaudeClient.sleeps (snd run) = [1000; 2000]) /\
  (forall e1 e2 e3,
     transport 0%nat req = Js.Rejected e1 ->
     transport 1%nat req = Js.Rejected e2 ->
     transport 2%nat req = Js.Rejected e3 ->
     (exists err, fst run = inr err) /\
     ClaudeClient.requests (snd run) = [req; req; req] /\
     ClaudeClient.sleeps (snd run) = [1000; 2000]).
Proof.
  intros req run.
  assert (Hrun : run = ClaudeClient.generateContent transport sp up
                         ClaudeClient.init) by reflexivity.
  unfold ClaudeClient.generateContent in Hrun.
  change (Z.to_nat ClaudeClient.MAX_RETRIES) with 3%nat in Hrun.
  assert (H1 : 1 <= ClaudeClient.MAX_RETRIES)
    by (unfold ClaudeClient.MAX_RETRIES; lia).
  assert (H2 : 1 + 1 <= ClaudeClient.MAX_RETRIES)
    by (unfold ClaudeClient.MAX_RETRIES; lia).
  assert (H3 : 1 + 1 + 1 <= ClaudeClient.MAX_RETRIES)
    by (unfold ClaudeClient.MAX_RETRIES; lia).
  assert (H4 : ClaudeClient.MAX_RETRIES < 1 + 1 + 1 + 1)
    by (unfold ClaudeClient.MAX_RETRIES; lia).
  revert Hrun; generalize run; clear run; intros run Hrun.
  split; [|split; [|split]].
  - intros r1 E1. client_step_returns Hrun H1 E1.
    rewrite Hrun. cbn. auto.
  - intros e1 r2 E1 E2. client_step_failed Hrun H1 E1.
    client_step_returns Hrun H2 E2. rewrite Hrun. cbn. auto.
  - intros e1 e2 r3 E1 E2 E3. client_step_failed Hrun H1 E1.
    client_step_failed Hrun H2 E2. client_step_returns Hrun H3 E3.
    rewrite Hrun. cbn. auto.
  - intros e1 e2 e3 E1 E2 E3. client_step_failed Hrun H1 E1.
    client_step_failed Hrun H2 E2. client_step_failed Hrun H3 E3.
    rewrite (retry_loop_exhausted transport _ _ _ _ _ _ H4) in Hrun.
    rewrite Hrun. cbn. eauto.
Qed.

(** X1: generateContent stops at the first transport call that resolves:
    when the calls before the k-th (k < 3) reject and the k-th resolves, it
    returns the text of that response's first text block (the empty string
    when it has none) with its token counts, after exactly k+1 requests
    and the first k backoff sleeps; and it returns a response only in
    such a run. *)
Theorem generateContent_first_success
    (transport : nat -> ClaudeClient.Request -> Js.outcome ClaudeClient.ApiResponse)
    (sp up : string) :
  let req := ClaudeClient.buildRequest sp up in
  let run := ClaudeClient.generateContent transport sp up ClaudeClient.init in
  (forall (k : nat) resp,
     (k < 3)%nat ->
     (forall j, (j < k)%nat -> exists e, transport j req = Js.Rejected e) ->
     transport k req = Js.Resolved resp ->
     fst run = inl (ClaudeClientView.result_of resp) /\
     length (ClaudeClient.requests (snd run)) = S k /\
     ClaudeClient.sleeps (snd run)
       = firstn k ClaudeClientView.backoff_schedule) /\
  (forall r,
     fst run = inl r ->
     exists (k : nat) resp,
       (k < 3)%nat /\ transport k req = Js.Resolved resp /\
       (forall j, (j < k)%nat -> exists e, transport j req = Js.Rejected e) /\
       r = ClaudeClientView.result_of resp).
Proof.
  intros req run.
  destruct (generateContent_cases transport sp up) as (C1 & C2 & C3 & C4).
  fold req in C1, C2, C3, C4. fold run in C1, C2, C3, C4.
  split.
  - intros k resp Hk Hbefore Hres.
    destruct k as [|[|[|k]]]; [| | |lia].
    + destruct (C1 resp Hres) as (-> & -> & ->). auto.
    + destruct (Hbefore 0%nat ltac:(lia)) as [e1 E1].
      destruct (C2 e1 resp E1 Hres) as (-> & -> & ->). auto.
    + destruct (Hbefore 0%nat ltac:(lia)) as [e1 E1].
      destruct (Hbefore 1%nat ltac:(lia)) as [e2 E2].
      destruct (C3 e1 e2 resp E1 E2 Hres) as (-> & -> & ->). auto.
  - intros r Hr.
    destruct (transport 0%nat req) as [r1|e1] eqn:E1.
    { destruct (C1 r1 eq_refl) as (Hf & _). rewrite Hf in Hr.
      injection Hr as <-. exists 0%nat, r1. split_and!; auto; intros; lia. }
    destruct (transport 1%nat req) as [r2|e2] eqn:E2.
    { destruct (C2 e1 r2 eq_refl eq_refl) as (Hf & _). rewrite Hf in Hr.
      injection Hr as <-. exists 1%nat, r2. split_and!; auto.
      intros j Hj. assert (j = 0%nat) as -> by lia. eauto. }
    destruct (transport 2%nat req) as [r3|e3] eqn:E3.
    { destruct (C3 e1 e2 r3 eq_refl eq_refl eq_refl) as (Hf & _).
      rewrite Hf in Hr. injection Hr as <-. exists 2%nat, r3.
      split_and!; auto.
      intros j Hj.
      assert (j = 0%nat \/ j = 1%nat) as [-> | ->] by lia; eauto. }
    destruct (C4 e1 e2 e3 eq_refl eq_refl eq_refl) as ([err Hf] & _).
    rewrite Hf in Hr. discriminate Hr.
Qed.

Lemma generateContent_first_success_witness :
  let run := ClaudeClient.generateContent Samples.flaky_transport
               "System prompt" "User prompt" ClaudeClient.init in
  fst run = inl (ClaudeClient.mkResult "Success after retries" 100 50) /\
  length (ClaudeClient.requests (snd run)) = 3%nat /\
  ClaudeClient.sleeps (snd run) = [1000; 2000].
Proof.
  intros run.
  pose proof (generateContent_first_success Samples.flaky_transport
                "System prompt" "User prompt") as H.
  cbv zeta in H. destruct H as [H _].
  apply (H 2%nat
           (ClaudeClient.mkApiResponse
              [ClaudeClient.mkBlock "text" "Success after retries"] 100 50)).
  - lia.
  - intros j Hj. exists (Js.mkError "API Error").
    destruct j as [|[|j]]; [reflexivity|reflexivity|lia].
  - reflexivity.
Defined.

(** ** Deploy trigger: the first attempt that succeeds *)

(** X2: triggerDeploy returns true exactly when one of its first three
    attempts succeeds (a 2xx response whose body is JSON other than null);
    it stops at the first such attempt k, after exactly k+1 POSTs and the
    first k backoff delays (1000, then 2000), and after three failed
    attempts it has made 3 POSTs and taken both delays. *)
Theorem triggerDeploy_first_success
    (rt : Json.Runtime) (config : DeployTrigger.Config)
    (fetch : nat -> DeployTrigger.PostRequest ->
             Js.outcome DeployTrigger.HttpResponse) :
  let req := DeployTrigger.deployRequest config in
  let succeeds := fun k => DeployTrigger.attempt_succeeds (fetch k req) in
  let run := DeployTrigger.triggerDeploy rt config fetch DeployTrigger.init in
  (fst run = Js.Resolved true <->
   exists k, (k < 3)%nat /\ succeeds k = true) /\
  (forall k,
     (k < 3)%nat -> succeeds k = true ->
     (forall j, (j < k)%nat -> succeeds j = false) ->
     length (DeployTrigger.posts (snd run)) = S k /\
     DeployTrigger.delays (snd run)
       = firstn k [DeployTrigger.getBackoffDelay 0;
                   DeployTrigger.getBackoffDelay 1]) /\
  ((forall k, (k < 3)%nat -> succeeds k = false) ->
     fst run = Js.Resolved false /\
     length (DeployTrigger.posts (snd run)) = 3%nat /\
     DeployTrigger.delays (snd run)
       = [DeployTrigger.getBackoffDelay 0; DeployTrigger.getBackoffDelay 1]).
Proof.
  intros req succeeds run.
  pose proof (triggerDeploy_cases rt config fetch) as Hc. cbv zeta in Hc.
  fold req in Hc. fold run in Hc.
  change (fun k => DeployTrigger.attempt_succeeds (fetch k req))
    with succeeds in Hc.
  destruct Hc as (C1 & C2 & C3 & C4).
  change (DeployTrigger.getBackoffDelay 0) with 1000.
  change (DeployTrigger.getBackoffDelay 1) with 2000.
  split; [|split].
  - split.
    + intros Htrue.
      destruct (succeeds 0%nat) eqn:A0; [exists 0%nat; split; [lia|auto]|].
      destruct (succeeds 1%nat) eqn:A1; [exists 1%nat; split; [lia|auto]|].
      destruct (succeeds 2%nat) eqn:A2; [exists 2%nat; split; [lia|auto]|].
      destruct (C4 eq_refl eq_refl eq_refl) as (Hf & _). rewrite Hf in Htrue.
      discriminate Htrue.
    + intros (k & Hk & Hs).
      destruct (succeeds 0%nat) eqn:A0; [apply (C1 eq_refl)|].
      destruct (succeeds 1%nat) eqn:A1; [apply (C2 eq_refl eq_refl)|].
      destruct (succeeds 2%nat) eqn:A2; [apply (C3 eq_refl eq_refl eq_refl)|].
      destruct k as [|[|[|k]]]; congruence || lia.
  - intros k Hk Hs Hbefore.
    destruct k as [|[|[|k]]]; [| | |lia].
    + destruct (C1 Hs) as (_ & -> & ->). auto.
    + destruct (C2 (Hbefore 0%nat ltac:(lia)) Hs) as (_ & -> & ->). auto.
    + destruct (C3 (Hbefore 0%nat ltac:(lia)) (Hbefore 1%nat ltac:(lia)) Hs)
        as (_ & -> & ->). auto.
  - intros Hall.
    destruct (C4 (Hall 0%nat ltac:(lia)) (Hall 1%nat ltac:(lia))
                (Hall 2%nat ltac:(lia))) as (-> & -> & ->). auto.
Qed.

Lemma triggerDeploy_first_success_witness :
  let rt := Samples.runtime_for "" Json.JNull in
  let config := DeployTrigger.mkConfig "https://deploy.example/hook" in
  let run := DeployTrigger.triggerDeploy rt config Samples.flaky_hook
               DeployTrigger.init in
  length (DeployTrigger.posts (snd run)) = 2%nat /\
  DeployTrigger.delays (snd run) = [1000].
Proof.
  intros rt config run.
  pose proof (triggerDeploy_first_success rt config Samples.flaky_hook) as H.
  cbv zeta in H. destruct H as (_ & H & _).
  apply (H 1%nat).
  - lia.
  - reflexivity.
  - intros j Hj. assert (j = 0%nat) as -> by lia. reflexivity.
Defined.

(** ** Output processor: more on the content pipelines *)

Section ContentPipelineMore.
Import Js Json OutputProcessor.

Lemma parseContent_trimmed (response : ClaudeResponse) (c : string) :
  parseContent response = Resolved c ->
  c = trim (content response) /\ c <> "".
Proof.
  unfold parseContent.
  destruct (String.eqb (content response) ""); [discriminate|].
  destruct (String.eqb (trim (content response)) "") eqn:E; [discriminate|].
  intros [= <-]. split; [reflexivity|].
  intros H. rewrite H in E. discriminate E.
Qed.

(** What [trimStart] leaves is empty or starts with a character that is
    not white space. *)
Lemma trimStart_head (s : string) :
  trimStart s = "" \/
  exists c rest, trimStart s = String c rest /\ is_whitespace c = false.
Proof.
  induction s as [|c s IH]; [left; reflexivity|].
  cbn [trimStart]. destruct (is_whitespace c) eqn:E; [exact IH|].
  right. eauto.
Qed.

Lemma trimEnd_head (c : ascii) (rest : string) :
  is_whitespace c = false ->
  exists rest', trimEnd (String c rest) = String c rest'.
Proof.
  intros Hc. cbn [trimEnd]. destruct (trimEnd rest); [rewrite Hc|]; eauto.
Qed.

Lemma countWords_trim_positive (s : string) :
  trim s <> "" -> (1 <= countWords (trim s))%nat.
Proof.
  unfold trim. intros Hne.
  destruct (trimStart_head s) as [E | (c & rest & E & Hc)].
  - rewrite E in Hne. cbn in Hne. congruence.
  - rewrite E. destruct (trimEnd_head c rest Hc) as [rest' ->].
    unfold countWords. cbn [count_runs]. rewrite Hc. lia.
Qed.

End ContentPipelineMore.

Ltac pick_event Hin :=
  cbn in Hin;
  repeat match goal with
         | H : _ \/ _ |- _ => destruct H as [H|H]
         end;
  try discriminate; try contradiction;
  simplify_eq.

(** X3: in both content pipelines a failure to fetch the runway status or
    the metrics aborts the run: the result is the all-false result with a
    single error, and the two status getters are the only dependencies
    called; nothing is written, stored or deployed. *)
Theorem content_pipelines_abort_on_status_failure
    (W : Type) (now : string) (deps : OutputProcessor.OutputProcessorDeps W)
    (response : OutputProcessor.ClaudeResponse) (day hour : Js.number) (w : W) :
  let fresh_run := OutputProcessor.mkPState w [] in
  let hourly :=
    OutputProcessor.processHourlyOutput W now response day hour deps fresh_run in
  let journal :=
    OutputProcessor.processJournalOutput W now response day deps fresh_run in
  (forall c e,
     c = OutputProcessor.CallGetRunwayStatus \/
     c = OutputProcessor.CallGetMetrics ->
     In (OutputProcessor.mkEvent c (Some e))
        (OutputProcessor.trace (snd hourly)) ->
     exists msg o1 o2,
       fst hourly = OutputProcessor.createFailedResult [msg] /\
       OutputProcessor.trace (snd hourly) =
         [OutputProcessor.mkEvent OutputProcessor.CallGetRunwayStatus o1;
          OutputProcessor.mkEvent OutputProcessor.CallGetMetrics o2]) /\
  (forall c e,
     c = OutputProcessor.CallGetRunwayStatus \/
     c = OutputProcessor.CallGetMetrics ->
     In (OutputProcessor.mkEvent c (Some e))
        (OutputProcessor.trace (snd journal)) ->
     exists msg o1 o2,
       fst journal = OutputProcessor.createFailedResult [msg] /\
       OutputProcessor.trace (snd journal) =
         [OutputProcessor.mkEvent OutputProcessor.CallGetRunwayStatus o1;
          OutputProcessor.mkEvent OutputProcessor.CallGetMetrics o2]).
Proof.
  intros fresh_run hourly journal. split.
  - subst hourly. unfold OutputProcessor.processHourlyOutput.
    destruct (OutputProcessor.parseContent response) as [content|err];
      [|intros c e _ []].
    run_pipeline; intros c e Hc Hin; destruct Hc; subst c;
      pick_event Hin; cbn; eauto.
  - subst journal. unfold OutputProcessor.processJournalOutput.
    destruct (OutputProcessor.parseContent response) as [content|err];
      [|intros c e _ []].
    run_pipeline; intros c e Hc Hin; destruct Hc; subst c;
      pick_event Hin; cbn; eauto.
Qed.

Lemma content_pipelines_abort_on_status_failure_witness :
  let deps :=
    OutputProcessor.mkDeps unit
      (fun _ _ _ _ w => (Js.Resolved tt, w))
      (fun _ _ _ w => (Js.Resolved tt, w))
      (fun _ _ _ _ _ _ w => (Js.Resolved tt, w))
      (fun _ _ w => (Js.Resolved (OutputProcessor.mkStore true), w))
      (fun _ _ w => (Js.Resolved (OutputProcessor.mkStore true), w))
      (fun _ _ _ w => (Js.Resolved (OutputProcessor.mkStore true), w))
      (fun w => (Js.Rejected (Js.mkError "metrics unavailable"), w))
      (fun _ w => (Js.Resolved tt, w))
      (fun w => (Js.Resolved
                   (OutputProcessor.mkRunway (Js.of_Z 10) (Js.of_Z 90)
                      (Js.of_Z 8) "focused"), w))
      (fun w => (Js.Resolved true, w)) in
  let run :=
    OutputProcessor.processHourlyOutput unit "2025-01-05T10:50:00.000Z"
      (OutputProcessor.mkResponse "Hello world") (Js.of_Z 5) (Js.of_Z 10) deps
      (OutputProcessor.mkPState tt []) in
  exists msg o1 o2,
    fst run = OutputProcessor.createFailedResult [msg] /\
    OutputProcessor.trace (snd run) =
      [OutputProcessor.mkEvent OutputProcessor.CallGetRunwayStatus o1;
       OutputProcessor.mkEvent OutputProcessor.CallGetMetrics o2].
Proof.
  intros deps run.
  pose proof (content_pipelines_abort_on_status_failure unit
                "2025-01-05T10:50:00.000Z" deps
                (OutputProcessor.mkResponse "Hello world")
                (Js.of_Z 5) (Js.of_Z 10) tt) as H.
  cbv zeta in H. destruct H as [H _].
  apply (H OutputProcessor.CallGetMetrics (Js.mkError "metrics unavailable")).
  - right. reflexivity.
  - right. left. reflexivity.
Defined.

(** X4: in both content pipelines the error list is empty exactly when all
    five flags of the result are true: every stage that does not complete
    leaves an entry, and no entry is recorded for a stage that does. *)
Theorem content_pipelines_errors_iff_flags
    (W : Type) (now : string) (deps : OutputProcessor.OutputProcessorDeps W)
    (response : OutputProcessor.ClaudeResponse) (day hour : Js.number)
    (st : OutputProcessor.PState W) :
  let all_true := fun r =>
    OutputProcessor.success r && OutputProcessor.localSaved r
    && OutputProcessor.memorySaved r && OutputProcessor.deployed r
    && OutputProcessor.metricsUpdated r in
  let hourly :=
    fst (OutputProcessor.processHourlyOutput W now response day hour deps st) in
  let journal :=
    fst (OutputProcessor.processJournalOutput W now response day deps st) in
  (OutputProcessor.errors hourly = [] <-> all_true hourly = true) /\
  (OutputProcessor.errors journal = [] <-> all_true journal = true).
Proof.
  intros all_true hourly journal. subst all_true hourly journal. split.
  - unfold OutputProcessor.processHourlyOutput.
    destruct (OutputProcessor.parseContent response) as [content|err];
      [|cbn; split; discriminate].
    run_pipeline; cbn; split; intros H; try discriminate H; reflexivity.
  - unfold OutputProcessor.processJournalOutput.
    destruct (OutputProcessor.parseContent response) as [content|err];
      [|cbn; split; discriminate].
    run_pipeline; cbn; split; intros H; try discriminate H; reflexivity.
Qed.

(** X5: whatever the hourly pipeline hands to the content writer and to
    the memory store is the trimmed response content, never empty, for the
    day and hour of the call; the metadata carries the clock text and a
    word count that is the count of that content and at least 1. *)
Theorem processHourlyOutput_writes_trimmed_content
    (W : Type) (now : string) (deps : OutputProcessor.OutputProcessorDeps W)
    (response : OutputProcessor.ClaudeResponse) (day hour : Js.number) (w : W) :
  let run :=
    OutputProcessor.processHourlyOutput W now response day hour deps
      (OutputProcessor.mkPState w []) in
  (forall d h c m o,
     In (OutputProcessor.mkEvent (OutputProcessor.CallWriteHourlyUpdate d h c m) o)
        (OutputProcessor.trace (snd run)) ->
     d = day /\ h = hour /\
     c = Js.trim (OutputProcessor.content response) /\ c <> "" /\
     OutputProcessor.day m = day /\
     OutputProcessor.hour m = Some hour /\
     OutputProcessor.timestamp m = now /\
     OutputProcessor.word_count m = OutputProcessor.countWords c /\
     (1 <= OutputProcessor.word_count m)%nat) /\
  (forall c mm o,
     In (OutputProcessor.mkEvent (OutputProcessor.CallStoreHourlyUpdate c mm) o)
        (OutputProcessor.trace (snd run)) ->
     c = Js.trim (OutputProcessor.content response) /\
     Json.assoc "type" mm = Some (Json.JStr "hourly_update") /\
     Json.assoc "timestamp" mm = Some (Json.JStr now)).
Proof.
  intros run. subst run. unfold OutputProcessor.processHourlyOutput.
  destruct (OutputProcessor.parseContent response) as [content|err] eqn:Ep;
    [|split; intros; contradiction].
  destruct (parseContent_trimmed response content Ep) as [Hc Hne].
  assert (Hpos : (1 <= OutputProcessor.countWords content)%nat).
  { rewrite Hc. apply countWords_trim_positive. rewrite <- Hc. exact Hne. }
  split.
  - run_pipeline; intros d h c m o Hin; pick_event Hin; cbn; auto 10.
  - run_pipeline; intros c mm o Hin; pick_event Hin; cbn; auto.
Qed.

Lemma processHourlyOutput_writes_trimmed_content_witness :
  let m :=
    OutputProcessor.mkMetadata (Js.of_Z 5) (Some (Js.of_Z 10))
      "2025-01-05T10:50:00.000Z" (Js.of_Z 8) "focused"
      "Build valuable tools" 2 in
  "Hello world" = Js.trim "  Hello world  " /\
  OutputProcessor.word_count m = OutputProcessor.countWords "Hello world" /\
  (1 <= OutputProcessor.word_count m)%nat.
Proof.
  intros m.
  pose proof (processHourlyOutput_writes_trimmed_content unit
                "2025-01-05T10:50:00.000Z" Samples.quiet_deps
                (OutputProcessor.mkResponse "  Hello world  ")
                (Js.of_Z 5) (Js.of_Z 10) tt) as H.
  cbv zeta in H. destruct H as [H _].
  destruct (H (Js.of_Z 5) (Js.of_Z 10) "Hello world" m None)
    as (_ & _ & Hc & _ & _ & _ & _ & Hw & Hpos).
  - right. right. left. reflexivity.
  - auto.
Defined.

(** ** Output processor: more on the decision pipeline *)

Section DecisionPipelineMore.
Import Js Json OutputProcessor.

Lemma lt_0_4_lt_0_5 (c : number) :
  lt c number_0_4 = true -> lt c number_0_5 = true.
Proof.
  destruct c as [q| | |]; cbn; try congruence.
  intros H. apply Qlt_bool_iff in H. apply Qlt_bool_iff.
  eapply Qlt_trans; [exact H|]. reflexivity.
Qed.

Lemma includes_empty_hay (needle : string) :
  needle <> "" -> includes needle "" = false.
Proof. destruct needle; [congruence|reflexivity]. Qed.

Lemma pivot_notes_truthy (rt : Runtime) (notes : option json) :
  mentions_pivot rt notes = Resolved true -> truthy notes = true.
Proof.
  destruct notes as [[| | |s| |]|]; cbn; try discriminate.
  intros [= H]. destruct s; [discriminate H|reflexivity].
Qed.

Lemma parseActivityDecision_complete (rt : Runtime) (response : ClaudeResponse) :
  acceptable_response rt response ->
  exists d, parseActivityDecision rt response = Resolved d /\
            well_formed_decision (parsed d).
Proof.
  intros (content & v & Hc & Hp & Hwf).
  destruct (validate_decision_complete rt v Hwf) as [d Hd].
  exists d. unfold parseActivityDecision. rewrite Hc, Hp, Hd.
  split; [reflexivity|].
  assert (parsed d = v) as ->; [|exact Hwf].
  revert Hd. unfold validate_decision.
  repeat case_match; intros; simplify_eq; reflexivity.
Qed.

End DecisionPipelineMore.

Ltac run_decision :=
  unfold OutputProcessor.invoke, Prog.bind, Prog.ret, Prog.pure, Prog.throw;
  cbn [OutputProcessor.world OutputProcessor.trace fst snd Js.threw];
  repeat
    (first
       [ match goal with
         | |- context [let (_, _) := ?call in _] =>
             lazymatch call with
             | context [match _ with pair _ _ => _ end] => fail
             | _ => idtac
             end;
             let w := fresh "w" in
             destruct call as [[?|?] w]
         end ];
     cbn [OutputProcessor.world OutputProcessor.trace fst snd Js.threw]).

(** X6: the decision pipeline only ever calls the strategic-learning store
    and the strategy setter: a run makes no call, or one store call, or a
    store call followed by one setStrategy call (never setStrategy alone,
    never the content writer or the deploy trigger), and a result it
    returns has localSaved and deployed false. *)
Theorem processActivityOutput_calls
    (W : Type) (rt : Json.Runtime)
    (deps : OutputProcessor.OutputProcessorDeps W)
    (response : OutputProcessor.ClaudeResponse) (w : W) :
  let run :=
    OutputProcessor.processActivityOutput W rt response deps
      (OutputProcessor.mkPState w []) in
  (OutputProcessor.trace (snd run) = [] \/
   (exists notes confidence o,
      OutputProcessor.trace (snd run) =
        [OutputProcessor.mkEvent
           (OutputProcessor.CallStoreStrategicLearning notes
              "strategy_concern" confidence) o]) \/
   (exists notes confidence o urgency o',
      OutputProcessor.trace (snd run) =
        [OutputProcessor.mkEvent
           (OutputProcessor.CallStoreStrategicLearning notes
              "strategy_concern" confidence) o;
         OutputProcessor.mkEvent
           (OutputProcessor.CallSetStrategy
              ("Pivoting: " ++ Js.slice0 100 urgency)) o'])) /\
  (forall r,
     fst run = Js.Resolved r ->
     OutputProcessor.localSaved (OutputProcessor.result r) = false /\
     OutputProcessor.deployed (OutputProcessor.result r) = false).
Proof.
  intros run. subst run. unfold OutputProcessor.processActivityOutput.
  destruct (OutputProcessor.parseActivityDecision rt response) as [d|err].
  2:{ cbn. split; [auto|]. intros r [= <-]. auto. }
  destruct (OutputProcessor.mentions_pivot rt (OutputProcessor.strategy_notes d))
    as [pivot|err] eqn:Ep.
  2:{ destruct (Js.lt _ OutputProcessor.number_0_5
               && Json.truthy (OutputProcessor.strategy_notes d));
        [destruct (OutputProcessor.strategy_notes d) as [notes|]|];
        run_decision; (split; [eauto 10|intros; discriminate]). }
  destruct (pivot && Js.lt (OutputProcessor.confidence_in_strategy d)
                       OutputProcessor.number_0_4) eqn:Eset.
  - apply andb_true_iff in Eset as [-> Hlt].
    rewrite (lt_0_4_lt_0_5 _ Hlt), (pivot_notes_truthy rt _ Ep). cbn [andb].
    destruct (OutputProcessor.strategy_notes d) as [notes|] eqn:En;
      [|discriminate (pivot_notes_truthy rt None Ep)].
    run_decision; (split; [right; right; eauto 10|]);
      intros r [= <-]; auto.
  - destruct (Js.lt _ OutputProcessor.number_0_5
              && Json.truthy (OutputProcessor.strategy_notes d));
      [destruct (OutputProcessor.strategy_notes d) as [notes|]|];
      run_decision; (split; [eauto 10|]); intros r [= <-]; auto.
Qed.

(** X7: the decision pipeline lets a TypeError escape when a validated
    decision carries strategy_notes that are neither absent, null nor a
    string: the call of toLowerCase on them sits outside every try block,
    so processActivityOutput rejects instead of returning a result. *)
Theorem processActivityOutput_throws_on_non_string_notes
    (W : Type) (rt : Json.Runtime)
    (deps : OutputProcessor.OutputProcessorDeps W)
    (response : OutputProcessor.ClaudeResponse)
    (st : OutputProcessor.PState W)
    (d : OutputProcessor.ActivityDecision) (notes : Json.json) :
  OutputProcessor.parseActivityDecision rt response = Js.Resolved d ->
  OutputProcessor.strategy_notes d = Some notes ->
  notes <> Json.JNull ->
  (forall s, notes <> Json.JStr s) ->
  fst (OutputProcessor.processActivityOutput W rt response deps st) =
  Js.Rejected
    (Js.ErrorObj "TypeError" (Json.not_a_function_message rt "toLowerCase")
       None).
Proof.
  intros Hp Hn Hnull Hstr. unfold OutputProcessor.processActivityOutput.
  rewrite Hp, Hn.
  assert (Hm : OutputProcessor.mentions_pivot rt (Some notes) =
               Js.Rejected
                 (Js.ErrorObj "TypeError"
                    (Json.not_a_function_message rt "toLowerCase") None)).
  { destruct notes; cbn; try reflexivity; [congruence|].
    exfalso. eapply Hstr. reflexivity. }
  rewrite Hm.
  destruct (Js.lt _ OutputProcessor.number_0_5 && Json.truthy (Some notes));
    run_decision; reflexivity.
Qed.

Lemma processActivityOutput_throws_on_non_string_notes_witness :
  let rt := Samples.runtime_for MoreSamples.numeric_notes_text
              MoreSamples.numeric_notes_plan in
  fst (OutputProcessor.processActivityOutput unit rt
         (OutputProcessor.mkResponse MoreSamples.numeric_notes_text)
         Samples.quiet_deps (OutputProcessor.mkPState tt [])) =
  Js.Rejected (Js.ErrorObj "TypeError" "toLowerCase is not a function" None).
Proof.
  intros rt.
  apply (processActivityOutput_throws_on_non_string_notes unit rt
           Samples.quiet_deps
           (OutputProcessor.mkResponse MoreSamples.numeric_notes_text)
           (OutputProcessor.mkPState tt [])
           (OutputProcessor.mkDecision MoreSamples.numeric_notes_plan []
              "calm" (Js.Finite (3 # 4)) (Some (Json.JNum (Js.of_Z 7))))
           (Json.JNum (Js.of_Z 7))).
  - vm_compute. reflexivity.
  - reflexivity.
  - discriminate.
  - discriminate.
Defined.

(** X8: a response that passes the structural contract is never reported
    as a failure: whenever processActivityOutput returns for it, success
    is true and the decision is the validated object; and it does return
    whenever strategy_notes is absent, null or a string. *)
Theorem processActivityOutput_accepts_well_formed
    (W : Type) (rt : Json.Runtime)
    (deps : OutputProcessor.OutputProcessorDeps W)
    (response : OutputProcessor.ClaudeResponse)
    (st : OutputProcessor.PState W) :
  OutputProcessor.acceptable_response rt response ->
  exists d,
    OutputProcessor.parseActivityDecision rt response = Js.Resolved d /\
    OutputProcessor.well_formed_decision (OutputProcessor.parsed d) /\
    (forall r,
       fst (OutputProcessor.processActivityOutput W rt response deps st)
         = Js.Resolved r ->
       OutputProcessor.success (OutputProcessor.result r) = true /\
       OutputProcessor.decision r = Some d) /\
    (OutputProcessor.strategy_notes d = None \/
     OutputProcessor.strategy_notes d = Some Json.JNull \/
     (exists s, OutputProcessor.strategy_notes d = Some (Json.JStr s)) ->
     exists r,
       fst (OutputProcessor.processActivityOutput W rt response deps st)
         = Js.Resolved r).
Proof.
  intros Hacc.
  destruct (parseActivityDecision_complete rt response Hacc) as (d & Hp & Hwf).
  exists d. split; [exact Hp|]. split; [exact Hwf|].
  unfold OutputProcessor.processActivityOutput. rewrite Hp.
  split.
  - intros r.
    destruct (OutputProcessor.mentions_pivot rt
                (OutputProcessor.strategy_notes d)) as [pivot|err];
      destruct (Js.lt _ OutputProcessor.number_0_5
                && Json.truthy (OutputProcessor.strategy_notes d));
      try destruct (OutputProcessor.strategy_notes d) as [notes|];
      try destruct (pivot && Js.lt _ OutputProcessor.number_0_4);
      run_decision; intros [= <-]; auto.
  - intros Hnotes.
    assert (Hm : exists pivot,
               OutputProcessor.mentions_pivot rt
                 (OutputProcessor.strategy_notes d) = Js.Resolved pivot).
    { destruct Hnotes as [-> | [-> | [s ->]]]; cbn; eauto. }
    destruct Hm as [pivot ->].
    destruct (Js.lt _ OutputProcessor.number_0_5
              && Json.truthy (OutputProcessor.strategy_notes d));
      try destruct (OutputProcessor.strategy_notes d) as [notes|];
      destruct (pivot && Js.lt _ OutputProcessor.number_0_4);
      run_decision; eauto.
Qed.

Lemma processActivityOutput_accepts_well_formed_witness :
  let rt := Samples.runtime_for MoreSamples.pivot_text MoreSamples.pivot_plan in
  exists d,
    OutputProcessor.parseActivityDecision rt
      (OutputProcessor.mkResponse MoreSamples.pivot_text) = Js.Resolved d /\
    OutputProcessor.well_formed_decision (OutputProcessor.parsed d).
Proof.
  intros rt.
  destruct (processActivityOutput_accepts_well_formed unit rt
              Samples.quiet_deps
              (OutputProcessor.mkResponse MoreSamples.pivot_text)
              (OutputProcessor.mkPState tt [])) as (d & Hp & Hwf & _).
  - exists MoreSamples.pivot_text, MoreSamples.pivot_plan.
    split; [vm_compute; reflexivity|]. split; [vm_compute; reflexivity|].
    exists [("activities", Json.JArr []);
            ("urgency_assessment", Json.JStr "runway is short");
            ("confidence_in_strategy", Json.JNum (Js.Finite (1 # 4)));
            ("strategy_notes", Json.JStr "Time to PIVOT")],
      [], "runway is short", (Js.Finite (1 # 4)).
    split_and!; try reflexivity. constructor.
  - exists d. auto.
Defined.

Example processActivityOutput_pivot_run :
  let rt := Samples.runtime_for MoreSamples.pivot_text MoreSamples.pivot_plan in
  let run :=
    OutputProcessor.processActivityOutput unit rt
      (OutputProcessor.mkResponse MoreSamples.pivot_text)
      Samples.quiet_deps (OutputProcessor.mkPState tt []) in
  OutputProcessor.trace (snd run) =
    [OutputProcessor.mkEvent
       (OutputProcessor.CallStoreStrategicLearning
          (Json.JStr "Time to PIVOT") "strategy_concern" (Js.Finite (1 # 4)))
       None;
     OutputProcessor.mkEvent
       (OutputProcessor.CallSetStrategy "Pivoting: runway is short") None].
Proof. vm_compute. reflexivity. Qed.

(** ** Metrics store: composition of its operations *)

Section MetricsMore.
Import Js Metrics.

Variable JSON_parse : string -> outcome Metrics.
Variable JSON_stringify : option Z -> Metrics -> string.

(** A run of [updateMetrics] from any state, cold cache included. *)
Lemma updateMetrics_run (p : PartialMetrics) (st : State) :
  let current := fst (getMetrics JSON_parse st) in
  let updated :=
    mkMetrics
      (spread (thingsShipped current) (p_thingsShipped p))
      (spread (revenueTotal current) (p_revenueTotal p))
      (spread (currentStrategy current) (p_currentStrategy p))
      (match p_keyMetrics p with
       | Some pk => pk ∪ keyMetrics current
       | None => ∅ ∪ keyMetrics current
       end) in
  let run := updateMetrics JSON_parse JSON_stringify p st in
  fst run = updated /\
  cachedMetrics (snd run) = Some updated /\
  metrics_file (snd run) = Some (Resolved (JSON_stringify (Some 2) updated)).
Proof.
  intros current updated run. subst run current updated.
  unfold updateMetrics, Prog.bind.
  destruct (getMetrics JSON_parse st) as [current st0].
  cbn [fst Metrics.set_cache Prog.modify Prog.ret].
  set (updated := mkMetrics _ _ _ _).
  set (st1 := mkState (Some updated) _ _ _ _ _ _).
  pose proof (saveToFile_effect JSON_stringify updated st1) as Hs.
  destruct (saveToFile JSON_stringify updated st1) as [[] st2].
  cbn [snd] in Hs. destruct Hs as (Hs1 & _ & Hs2).
  pose proof (backupToSupermemory_frame JSON_stringify updated st2) as Hb.
  destruct (backupToSupermemory JSON_stringify updated st2) as [[] st3].
  cbn [snd fst] in *. destruct Hb as (Hb1 & Hb2).
  unfold Prog.ret. cbn [fst snd].
  rewrite Hb1, Hb2, Hs1, Hs2. auto.
Qed.

Lemma resetMetricsCache_effect (st : State) :
  cachedMetrics (snd (resetMetricsCache st)) = None /\
  metrics_file (snd (resetMetricsCache st)) = metrics_file st.
Proof. split; reflexivity. Qed.

End MetricsMore.

(** X9: updateMetrics never removes a key of keyMetrics: every key of the
    record getMetrics would return is still a key of the updated record,
    whatever the partial update holds (an empty keyMetrics in the update
    clears nothing). *)
Theorem updateMetrics_keeps_keys
    (JSON_parse : string -> Js.outcome Metrics.Metrics)
    (JSON_stringify : option Z -> Metrics.Metrics -> string)
    (p : Metrics.PartialMetrics) (st : Metrics.State) (k : string) :
  is_Some (Metrics.keyMetrics (fst (Metrics.getMetrics JSON_parse st)) !! k) ->
  is_Some
    (Metrics.keyMetrics
       (fst (Metrics.updateMetrics JSON_parse JSON_stringify p st)) !! k).
Proof.
  intros [v Hv].
  destruct (updateMetrics_run JSON_parse JSON_stringify p st) as (-> & _).
  cbn [Metrics.keyMetrics].
  destruct (Metrics.p_keyMetrics p) as [pk|].
  - rewrite lookup_union, Hv. destruct (pk !! k); cbn; eauto.
  - rewrite lookup_union, lookup_empty, Hv. cbn. eauto.
Qed.

Lemma updateMetrics_keeps_keys_witness :
  let parse := fun _ : string =>
    Js.Rejected (A := Metrics.Metrics) (Js.ErrorObj "SyntaxError" "bad" None) in
  let stringify := fun (_ : option Z) (_ : Metrics.Metrics) => "{...}" in
  let m := Metrics.mkMetrics (Js.of_Z 2) (Js.of_Z 10) "tools"
             {[ "foo" := Metrics.SStr "bar" ]} in
  let st := Metrics.mkState (Some m) None false None None "t0" [] in
  is_Some
    (Metrics.keyMetrics
       (fst (Metrics.updateMetrics parse stringify
               (Metrics.mkPartial (Some (Js.of_Z 0)) (Some (Js.of_Z 0))
                  (Some "Building in public - shipping daily") (Some ∅)) st))
     !! "foo").
Proof.
  intros parse stringify m st.
  apply updateMetrics_keeps_keys. exists (Metrics.SStr "bar"). reflexivity.
Defined.

(** X10: writing the current record back, as saveState does with
    updateMetrics(getMetrics()), changes nothing in the record: the same
    record is returned, cached and written to the metrics file. *)
Theorem saveState_metrics_idempotent
    (JSON_parse : string -> Js.outcome Metrics.Metrics)
    (JSON_stringify : option Z -> Metrics.Metrics -> string)
    (st : Metrics.State) :
  let m := fst (Metrics.getMetrics JSON_parse st) in
  let run := Main.saveState_metrics JSON_parse JSON_stringify st in
  fst run = m /\
  Metrics.cachedMetrics (snd run) = Some m /\
  Metrics.metrics_file (snd run)
    = Some (Js.Resolved (JSON_stringify (Some 2) m)).
Proof.
  intros m run. subst run m. unfold Main.saveState_metrics, Prog.bind.
  destruct (Metrics.getMetrics JSON_parse st) as [m st0] eqn:Eg.
  cbn [fst].
  assert (Hcur : fst (Metrics.getMetrics JSON_parse st0) = m).
  { revert Eg. unfold Metrics.getMetrics.
    destruct (Metrics.cachedMetrics st) as [c|] eqn:Ec.
    - intros [= <- <-]. rewrite Ec. reflexivity.
    - intros [= <- <-]. reflexivity. }
  destruct (updateMetrics_run JSON_parse JSON_stringify (Main.as_partial m) st0)
    as (Hr & Hc & Hf).
  rewrite Hcur in Hr, Hc, Hf. cbn in Hr, Hc, Hf.
  assert (Hm : Metrics.mkMetrics (Metrics.thingsShipped m)
                 (Metrics.revenueTotal m) (Metrics.currentStrategy m)
                 (Metrics.keyMetrics m ∪ Metrics.keyMetrics m) = m).
  { rewrite map_union_idemp. destruct m; reflexivity. }
  rewrite Hm in Hr, Hc, Hf. auto.
Qed.

(** X11: an update survives a restart of the cache: provided the written
    text parses back to the record, getMetrics after updateMetrics and
    resetMetricsCache returns the updated record; without the reset it
    returns it from the cache whatever the file holds. *)
Theorem updateMetrics_survives_reset
    (JSON_parse : string -> Js.outcome Metrics.Metrics)
    (JSON_stringify : option Z -> Metrics.Metrics -> string)
    (p : Metrics.PartialMetrics) (st : Metrics.State) :
  let r := fst (Metrics.updateMetrics JSON_parse JSON_stringify p st) in
  let st' := snd (Metrics.updateMetrics JSON_parse JSON_stringify p st) in
  fst (Metrics.getMetrics JSON_parse st') = r /\
  (JSON_parse (JSON_stringify (Some 2) r) = Js.Resolved r ->
   fst (Metrics.getMetrics JSON_parse (snd (Metrics.resetMetricsCache st')))
     = r).
Proof.
  intros r st'. subst r st'.
  destruct (updateMetrics_run JSON_parse JSON_stringify p st) as (Hr & Hc & Hf).
  cbv zeta in Hr, Hc, Hf. rewrite Hr in *.
  set (updated := Metrics.mkMetrics _ _ _ _) in *.
  split.
  - rewrite (getMetrics_cached JSON_parse _ updated Hc). reflexivity.
  - intros Hround. unfold Metrics.getMetrics.
    cbn [Metrics.resetMetricsCache Prog.modify snd Metrics.cachedMetrics fst].
    unfold Metrics.loadFromFile, Metrics.loadFromFile_try.
    cbn [Metrics.metrics_file]. rewrite Hf, Hround. reflexivity.
Qed.

Lemma updateMetrics_survives_reset_witness :
  let m := Metrics.mkMetrics (Js.of_Z 10) (Js.of_Z 0) "" ∅ in
  let parse := fun s : string =>
    if String.eqb s "ten shipped" then Js.Resolved m
    else Js.Rejected (Js.ErrorObj "SyntaxError" "bad" None) in
  let stringify := fun (_ : option Z) (_ : Metrics.Metrics) => "ten shipped" in
  let st := Metrics.mkState None None false None None "t0" [] in
  let st' := snd (Metrics.updateMetrics parse stringify
                    (Metrics.mkPartial (Some (Js.of_Z 10)) None None None) st) in
  Metrics.thingsShipped
    (fst (Metrics.getMetrics parse (snd (Metrics.resetMetricsCache st'))))
  = Js.of_Z 10.
Proof.
  intros m parse stringify st st'.
  pose proof (updateMetrics_survives_reset parse stringify
                (Metrics.mkPartial (Some (Js.of_Z 10)) None None None) st) as H.
  cbv zeta in H. destruct H as [_ H].
  fold st' in H. rewrite H; [reflexivity|].
  vm_compute. reflexivity.
Defined.

(** X12: setStrategy replaces the strategy and nothing else: afterwards
    getMetrics returns the record it returned before with currentStrategy
    set to the new name, and that record is on disk. *)
Theorem setStrategy_changes_only_strategy
    (JSON_parse : string -> Js.outcome Metrics.Metrics)
    (JSON_stringify : option Z -> Metrics.Metrics -> string)
    (name : string) (st : Metrics.State) :
  let before := fst (Metrics.getMetrics JSON_parse st) in
  let st' := snd (Metrics.setStrategy JSON_parse JSON_stringify name st) in
  let after := fst (Metrics.getMetrics JSON_parse st') in
  Metrics.currentStrategy after = name /\
  Metrics.thingsShipped after = Metrics.thingsShipped before /\
  Metrics.revenueTotal after = Metrics.revenueTotal before /\
  Metrics.keyMetrics after = Metrics.keyMetrics before /\
  Metrics.metrics_file st'
    = Some (Js.Resolved (JSON_stringify (Some 2) after)).
Proof.
  intros before st' after. subst after st' before.
  unfold Metrics.setStrategy, Prog.bind.
  destruct (updateMetrics_run JSON_parse JSON_stringify
              (Metrics.mkPartial None None (Some name) None) st)
    as (Hr & Hc & Hf).
  destruct (Metrics.updateMetrics JSON_parse JSON_stringify _ st) as [r st1].
  cbn [fst snd Prog.ret] in *.
  rewrite (getMetrics_cached JSON_parse st1 _ Hc). cbn [fst].
  cbn [Metrics.spread Metrics.p_thingsShipped Metrics.p_revenueTotal
       Metrics.p_currentStrategy Metrics.p_keyMetrics] in *.
  rewrite Hf. cbn. rewrite (left_id_L ∅ (∪)). auto.
Qed.

(** ** Scheduler: the registry across calls *)

Section SchedulerMore.
Import Logger Scheduler SchedulerRuns.

Variable validate : string -> bool.

Lemma registerTask_tasks (name schedule : string) (h : Handler) (st : State) :
  tasks (snd (registerTask validate name schedule h st)) =
  (tasks st ++
   if validate schedule then [mkTask name schedule h None] else [])%list.
Proof.
  destruct (validate schedule) eqn:Hv.
  - rewrite registerTask_valid by exact Hv. reflexivity.
  - rewrite registerTask_invalid by exact Hv. cbn. now rewrite app_nil_r.
Qed.

Lemma start_jobs_tasks (pending : list ScheduledTask) :
  fst (start_jobs pending) =
  List.map (fun task =>
              mkTask (name task) (schedule task) (handler task) (Some true))
    pending.
Proof.
  induction pending as [|task rest IH]; [reflexivity|].
  cbn [start_jobs]. destruct (start_jobs rest) as [started entries].
  cbn [fst] in *. now rewrite IH.
Qed.

(** The registry after [startScheduler]: the old tasks and the accepted
    defaults, each with a running timer. *)
Lemma startScheduler_tasks (st : State) :
  tasks (snd (startScheduler validate st)) =
  List.map (fun task =>
              mkTask (name task) (schedule task) (handler task) (Some true))
    (tasks st ++
     List.map (fun entry =>
                 mkTask (fst (fst entry)) (snd (fst entry)) (snd entry) None)
       (List.filter (fun entry => validate (snd (fst entry))) DEFAULT_TASKS)).
Proof.
  unfold startScheduler, Prog.bind.
  cbn [emit Prog.modify].
  repeat match goal with
  | |- context [registerTask validate ?n ?s ?h ?st0] =>
      let H := fresh "Hr" in
      pose proof (registerTask_tasks n s h st0) as H;
      destruct (registerTask validate n s h st0) as [[] ?st]; cbn [snd] in H
  end.
  cbn [Prog.get Prog.modify emit snd tasks].
  match goal with
  | |- context [start_jobs (tasks ?s)] =>
      pose proof (start_jobs_tasks (tasks s)) as Hj;
      destruct (start_jobs (tasks s)) as [started entries]
  end.
  cbn [fst snd tasks] in *. rewrite Hj.
  repeat match goal with
  | H : tasks ?s = _ |- context [tasks ?s] => rewrite H; clear H
  end.
  cbn [tasks].
  f_equal. rewrite <- !app_assoc. f_equal.
  unfold DEFAULT_TASKS. cbn [List.filter fst snd].
  repeat (destruct (validate _); cbn [List.map List.app fst snd]);
    reflexivity.
Qed.

Lemma stopScheduler_tasks (st : State) :
  tasks (snd (stopScheduler st)) = [].
Proof. reflexivity. Qed.

End SchedulerMore.

(** X13: startScheduler appends to the registry: afterwards the status
    lists what it listed before followed by the default registrations that
    cron.validate accepts (a second call without a stop lists them twice),
    and every task in the registry has a running timer. *)
Theorem startScheduler_appends_defaults
    (validate : string -> bool) (st : Scheduler.State) :
  let st' := snd (Scheduler.startScheduler validate st) in
  Scheduler.getSchedulerStatus st' =
    (Scheduler.getSchedulerStatus st
     ++ SchedulerRuns.accepted_defaults validate)%list /\
  Forall (fun task => Scheduler.job task = Some true) (Scheduler.tasks st') /\
  Scheduler.getSchedulerStatus
    (snd (Scheduler.startScheduler validate st')) =
    (Scheduler.getSchedulerStatus st
     ++ SchedulerRuns.accepted_defaults validate
     ++ SchedulerRuns.accepted_defaults validate)%list.
Proof.
  intros st'. subst st'.
  assert (Hstatus : forall st0,
    Scheduler.getSchedulerStatus (snd (Scheduler.startScheduler validate st0))
    = (Scheduler.getSchedulerStatus st0
       ++ SchedulerRuns.accepted_defaults validate)%list).
  { intros st0. unfold Scheduler.getSchedulerStatus.
    rewrite startScheduler_tasks.
    rewrite List.map_map. cbn [Scheduler.name Scheduler.schedule].
    rewrite List.map_app. f_equal.
    unfold SchedulerRuns.accepted_defaults.
    rewrite List.map_map. reflexivity. }
  split; [apply Hstatus|]. split.
  - rewrite startScheduler_tasks. apply List.Forall_forall.
    intros task Hin. apply List.in_map_iff in Hin.
    destruct Hin as (t0 & <- & _). reflexivity.
  - rewrite Hstatus, Hstatus. now rewrite <- app_assoc.
Qed.

(** X14: every task in the registry has a schedule cron.validate accepts,
    in every state reached from the empty registry through registerTask,
    startScheduler and stopScheduler; and stopScheduler always leaves the
    registry empty. *)
Theorem registry_schedules_valid
    (validate : string -> bool) (st : Scheduler.State) :
  SchedulerRuns.reachable validate st ->
  Forall (fun task => validate (Scheduler.schedule task) = true)
    (Scheduler.tasks st) /\
  Scheduler.getSchedulerStatus (snd (Scheduler.stopScheduler st)) = [].
Proof.
  intros Hreach. split; [|reflexivity].
  induction Hreach as [|st name schedule h _ IH|st _ IH|st _ IH].
  - constructor.
  - rewrite registerTask_tasks. apply Forall_app. split; [exact IH|].
    destruct (validate schedule) eqn:Hv; repeat constructor. exact Hv.
  - rewrite startScheduler_tasks. apply List.Forall_forall.
    intros task Hin. apply List.in_map_iff in Hin.
    destruct Hin as (t0 & <- & Hin). cbn [Scheduler.schedule].
    apply List.in_app_iff in Hin. destruct Hin as [Hin|Hin].
    + rewrite List.Forall_forall in IH. now apply IH.
    + apply List.in_map_iff in Hin. destruct Hin as (entry & <- & Hin).
      apply List.filter_In in Hin. apply Hin.
  - rewrite stopScheduler_tasks. constructor.
Qed.

Lemma registry_schedules_valid_witness :
  let validate := fun s : string => negb (String.eqb s "0 */6 * * *") in
  let st :=
    snd (Scheduler.startScheduler validate
           (snd (Scheduler.registerTask validate "bad" "0 */6 * * *"
                   (Scheduler.otherHandler 0) (Scheduler.mkState [] [])))) in
  length (Scheduler.tasks st) = 6%nat /\
  Forall (fun task => validate (Scheduler.schedule task) = true)
    (Scheduler.tasks st).
Proof.
  intros validate st. split; [reflexivity|].
  apply (registry_schedules_valid validate st).
  subst st. apply SchedulerRuns.reach_start, SchedulerRuns.reach_register,
    SchedulerRuns.reach_init.
Defined.

(** ** Time: day numbers and remaining days *)

Section TimeFacts.
Import Time.

Lemma MS_PER_DAY_pos : 0 < MS_PER_DAY.
Proof. reflexivity. Qed.

Lemma MS_PER_DAY_hours : MS_PER_DAY = MS_PER_HOUR * 24.
Proof. reflexivity. Qed.

Lemma getCurrentDayNumber_mono (env : Env) (t t' : Z) :
  t <= t' ->
  getCurrentDayNumber (at_time env t) <= getCurrentDayNumber (at_time env t').
Proof.
  intros Hle. unfold getCurrentDayNumber, at_time. cbn [now_ms start_ms].
  pose proof (Z.div_le_mono (t - start_ms env) (t' - start_ms env) MS_PER_DAY
                MS_PER_DAY_pos).
  lia.
Qed.

End TimeFacts.

(** X15: while the clock is inside the project, from the start instant up
    to total days later, the day number lies between 1 and the total and
    the remaining days count the current day: day number plus remaining
    days is the total plus one. *)
Theorem day_accounting_within_project (env : Time.Env) :
  Time.start_ms env <= Time.now_ms env ->
  Time.now_ms env < Time.start_ms env + Time.TOTAL_DAYS env * Time.MS_PER_DAY ->
  1 <= Time.getCurrentDayNumber env <= Time.getTotalDays env /\
  1 <= Time.getDaysRemaining env /\
  Time.getCurrentDayNumber env + Time.getDaysRemaining env
    = Time.getTotalDays env + 1.
Proof.
  intros Hstart Hend.
  unfold Time.getDaysRemaining, Time.getTotalDays, Time.getCurrentDayNumber.
  cbv zeta.
  set (d := Time.now_ms env - Time.start_ms env).
  assert (H0 : 0 <= d / Time.MS_PER_DAY).
  { apply Z.div_pos; [subst d; lia | exact MS_PER_DAY_pos]. }
  assert (H1 : d / Time.MS_PER_DAY < Time.TOTAL_DAYS env).
  { apply Z.div_lt_upper_bound; [exact MS_PER_DAY_pos | subst d; lia]. }
  lia.
Qed.

Lemma day_accounting_within_project_witness :
  let env := Time.mkEnv 1700000000000 (1700000000000 + 3 * 86400000 + 5) 100 11 in
  Time.getCurrentDayNumber env = 4 /\
  Time.getCurrentDayNumber env + Time.getDaysRemaining env
    = Time.getTotalDays env + 1.
Proof.
  intros env. split; [reflexivity|].
  apply (day_accounting_within_project env); vm_compute; congruence.
Defined.

(** X16: outside the project the remaining days stop counting the
    calendar: once the total number of days has elapsed they are 0 for
    good, and before the start instant the day number is 0 or less and
    the remaining days exceed the total. They are never negative. *)
Theorem days_remaining_outside_project (env : Time.Env) :
  0 <= Time.getDaysRemaining env /\
  (Time.start_ms env + Time.TOTAL_DAYS env * Time.MS_PER_DAY
     <= Time.now_ms env ->
   Time.getDaysRemaining env = 0) /\
  (Time.now_ms env < Time.start_ms env ->
   Time.getCurrentDayNumber env <= 0 /\
   (0 <= Time.TOTAL_DAYS env ->
    Time.getTotalDays env < Time.getDaysRemaining env)).
Proof.
  unfold Time.getDaysRemaining, Time.getTotalDays, Time.getCurrentDayNumber.
  cbv zeta.
  set (d := Time.now_ms env - Time.start_ms env).
  split; [lia|]. split.
  - intros Hend.
    assert (Time.TOTAL_DAYS env <= d / Time.MS_PER_DAY).
    { apply Z.div_le_lower_bound; [exact MS_PER_DAY_pos | subst d; lia]. }
    lia.
  - intros Hbefore.
    assert (d / Time.MS_PER_DAY < 0).
    { apply Z.div_lt_upper_bound; [exact MS_PER_DAY_pos | subst d; lia]. }
    lia.
Qed.

Lemma days_remaining_outside_project_witness :
  Time.getDaysRemaining (Time.mkEnv 0 (100 * 86400000) 100 11) = 0 /\
  Time.getTotalDays (Time.mkEnv 86400000 0 100 11)
    < Time.getDaysRemaining (Time.mkEnv 86400000 0 100 11).
Proof.
  split.
  - apply (days_remaining_outside_project
             (Time.mkEnv 0 (100 * 86400000) 100 11)).
    vm_compute. congruence.
  - apply (days_remaining_outside_project (Time.mkEnv 86400000 0 100 11));
      vm_compute; congruence.
Defined.

(** X17: the day number is the whole days contained in the hours since
    the start, plus one, and as the clock advances the day number never
    decreases and the remaining days never increase. *)
Theorem day_number_follows_clock (env : Time.Env) (t t' : Z) :
  Time.getCurrentDayNumber env = Time.getHoursSinceStart env / 24 + 1 /\
  (t <= t' ->
   Time.getCurrentDayNumber (Time.at_time env t)
     <= Time.getCurrentDayNumber (Time.at_time env t') /\
   Time.getDaysRemaining (Time.at_time env t')
     <= Time.getDaysRemaining (Time.at_time env t)).
Proof.
  split.
  - unfold Time.getCurrentDayNumber, Time.getHoursSinceStart. cbv zeta.
    rewrite MS_PER_DAY_hours, Z.div_div by (vm_compute; congruence || lia).
    reflexivity.
  - intros Hle. pose proof (getCurrentDayNumber_mono env t t' Hle) as Hm.
    split; [exact Hm|].
    unfold Time.getDaysRemaining, Time.getTotalDays. cbv zeta.
    change (Time.TOTAL_DAYS (Time.at_time env t')) with (Time.TOTAL_DAYS env).
    change (Time.TOTAL_DAYS (Time.at_time env t)) with (Time.TOTAL_DAYS env).
    lia.
Qed.

Lemma day_number_follows_clock_witness :
  let env := Time.mkEnv 0 (49 * 3600000 + 7) 100 11 in
  Time.getCurrentDayNumber env = 3 /\
  Time.getCurrentDayNumber (Time.at_time env 5)
    <= Time.getCurrentDayNumber (Time.at_time env (86400000 * 2)).
Proof.
  intros env. split; [reflexivity|].
  apply (day_number_follows_clock env 5 (86400000 * 2)). vm_compute. congruence.
Defined.

(** ** Runway store and start-up *)

Section RunwayStoreFacts.
Import Js RunwayStore.

Variable JSON_parse : string -> outcome RunwayState.
Variable JSON_stringify : RunwayState -> string.

Lemma loadRunwayState_after_save (state : RunwayState) (st : State) :
  JSON_parse (JSON_stringify state) = Resolved state ->
  loadRunwayState JSON_parse (snd (saveRunwayState JSON_stringify state st))
  = Some state.
Proof.
  intros Hround. unfold loadRunwayState, saveRunwayState, Prog.modify.
  cbn [snd runway_file]. now rewrite Hround.
Qed.

Lemma loadRunwayState_unavailable (st : State) :
  runway_file st = None \/
  (exists e, runway_file st = Some (Rejected e)) \/
  (exists data e,
     runway_file st = Some (Resolved data) /\ JSON_parse data = Rejected e) ->
  loadRunwayState JSON_parse st = None.
Proof.
  unfold loadRunwayState.
  intros [-> | [[e ->] | (data & e & -> & ->)]]; reflexivity.
Qed.

End RunwayStoreFacts.

(** X18: a runway update is what the tracker reports next: provided the
    written text parses back to the saved state, after updateRunwayDays(d)
    getRunwayDays returns d and getRunwayStatus reports d with the urgency
    of d, whatever the file held before and whatever the configured
    initial runway is. *)
Theorem updateRunwayDays_then_status
    (JSON_parse : string -> Js.outcome RunwayStore.RunwayState)
    (JSON_stringify : RunwayStore.RunwayState -> string)
    (env : Time.Env) (later : Z) (d : Js.number) (st : RunwayStore.State) :
  JSON_parse
    (JSON_stringify (RunwayStore.mkRunwayState d (RunwayStore.clock st)))
    = Js.Resolved (RunwayStore.mkRunwayState d (RunwayStore.clock st)) ->
  let st' := snd (RunwayStore.updateRunwayDays JSON_stringify d st) in
  RunwayStore.getRunwayDays JSON_parse env st' = d /\
  RunwayStore.status_runwayDays
    (RunwayStore.getRunwayStatus JSON_parse env later st') = d /\
  RunwayStore.status_urgencyLevel
    (RunwayStore.getRunwayStatus JSON_parse env later st')
    = RunwayTracker.getUrgencyLevel d.
Proof.
  intros Hround st'. subst st'.
  unfold RunwayStore.getRunwayStatus, RunwayStore.getRunwayDays,
    RunwayStore.updateRunwayDays.
  cbn [RunwayStore.status_runwayDays RunwayStore.status_urgencyLevel].
  rewrite (loadRunwayState_after_save JSON_parse JSON_stringify _ st Hround).
  auto.
Qed.

Lemma updateRunwayDays_then_status_witness :
  let saved := RunwayStore.mkRunwayState (Js.of_Z 2) "t1" in
  let parse := fun s : string =>
    if String.eqb s "two days" then Js.Resolved saved
    else Js.Rejected (Js.ErrorObj "SyntaxError" "bad" None) in
  let stringify := fun _ : RunwayStore.RunwayState => "two days" in
  let st := RunwayStore.mkState false None "t1" in
  let st' := snd (RunwayStore.updateRunwayDays stringify (Js.of_Z 2) st) in
  RunwayStore.status_urgencyLevel
    (RunwayStore.getRunwayStatus parse (Time.mkEnv 0 5 100 11) 6 st')
  = RunwayTracker.getUrgencyLevel (Js.of_Z 2).
Proof.
  intros saved parse stringify st st'.
  apply (updateRunwayDays_then_status parse stringify
           (Time.mkEnv 0 5 100 11) 6 (Js.of_Z 2) st).
  reflexivity.
Defined.

(** X19: when the runway file is absent, cannot be read or does not parse,
    the tracker falls back to the configured initial runway: getRunwayDays
    returns INITIAL_RUNWAY_DAYS, getRunwayStatus reports its urgency, and
    isDay1 answers true. *)
Theorem runway_fallback_without_state
    (JSON_parse : string -> Js.outcome RunwayStore.RunwayState)
    (env : Time.Env) (later : Z) (st : Main.State) :
  RunwayStore.runway_file (Main.runway st) = None \/
  (exists e, RunwayStore.runway_file (Main.runway st) = Some (Js.Rejected e)) \/
  (exists data e,
     RunwayStore.runway_file (Main.runway st) = Some (Js.Resolved data) /\
     JSON_parse data = Js.Rejected e) ->
  RunwayStore.getRunwayDays JSON_parse env (Main.runway st)
    = Js.of_Z (Time.INITIAL_RUNWAY_DAYS env) /\
  RunwayStore.status_urgencyLevel
    (RunwayStore.getRunwayStatus JSON_parse env later (Main.runway st))
    = RunwayTracker.getUrgencyLevel (Js.of_Z (Time.INITIAL_RUNWAY_DAYS env)) /\
  Main.isDay1 JSON_parse st = true.
Proof.
  intros Hfile.
  pose proof (loadRunwayState_unavailable JSON_parse _ Hfile) as Hload.
  unfold RunwayStore.getRunwayStatus, RunwayStore.getRunwayDays, Main.isDay1.
  cbn [RunwayStore.status_urgencyLevel].
  rewrite Hload. auto.
Qed.

Lemma runway_fallback_without_state_witness :
  let parse := fun _ : string =>
    Js.Rejected (A := RunwayStore.RunwayState)
      (Js.ErrorObj "SyntaxError" "Unexpected end of JSON input" None) in
  let st := Main.mkState
              (RunwayStore.mkState true (Some (Js.Resolved "{")) "t0")
              (Metrics.mkState None None false None None "t0" []) in
  RunwayStore.getRunwayDays parse (Time.mkEnv 0 5 100 30) (Main.runway st)
    = Js.of_Z 30 /\
  Main.isDay1 parse st = true.
Proof.
  intros parse st.
  destruct (runway_fallback_without_state parse
              (Time.mkEnv 0 5 100 30) 6 st) as (H1 & _ & H3).
  - right. right. exists "{", (Js.ErrorObj "SyntaxError"
                                "Unexpected end of JSON input" None).
    split; reflexivity.
  - split; [exact H1 | exact H3].
Defined.



(** ** The urgency tables of the modules *)

Section UrgencyTables.
Import Js.

Lemma Qlt_bool_false (x y : Q) : Qlt_bool x y = false <-> (y <= x)%Q.
Proof.
  unfold Qlt_bool. rewrite negb_false_iff. apply Qle_bool_iff.
Qed.

Lemma Qle_bool_false (x y : Q) : Qle_bool x y = false <-> (y < x)%Q.
Proof.
  split.
  - intros H. apply Qnot_le_lt. intros Hle. apply Qle_bool_iff in Hle.
    congruence.
  - intros H. destruct (Qle_bool x y) eqn:E; [|reflexivity].
    apply Qle_bool_iff in E. lra.
Qed.

End UrgencyTables.

(** Turns the boolean comparisons of a goal on rationals into propositions. *)
Ltac compare_rationals :=
  repeat match goal with
  | H : Js.Qlt_bool _ _ = true |- _ => apply Qlt_bool_iff in H
  | H : Js.Qlt_bool _ _ = false |- _ => apply Qlt_bool_false in H
  | H : Qle_bool _ _ = true |- _ => apply Qle_bool_iff in H
  | H : Qle_bool _ _ = false |- _ => apply Qle_bool_false in H
  | H : Qeq_bool _ _ = true |- _ => apply Qeq_bool_iff in H
  | H : Qeq_bool _ _ = false |- _ => apply Qeq_bool_neq in H
  end.

(** X21: the modules do not share one urgency table.  The activity
    decision task and the context builder agree everywhere; the runway
    tracker differs from them exactly at 14 days; the hourly update task,
    whose bounds are all inclusive, differs from the tracker exactly at 3
    and at 7 days, and never names a less urgent level than the tracker. *)
Theorem urgency_tables_compared (d : Js.number) :
  ActivityDecisionTask.getUrgencyLevel d
    = ContextBuilder.calculateUrgencyLevel d /\
  (RunwayTracker.getUrgencyLevel d <> ContextBuilder.calculateUrgencyLevel d
   <-> JsMore.strict_eq d 14 = true) /\
  exists level,
    HourlyUpdateTask.as_level (HourlyUpdateTask.getUrgencyLevel d)
      = Some level /\
    (RunwayTracker.urgency_rank (RunwayTracker.getUrgencyLevel d)
       <= RunwayTracker.urgency_rank level)%nat /\
    (level <> RunwayTracker.getUrgencyLevel d
     <-> JsMore.strict_eq d 3 = true \/ JsMore.strict_eq d 7 = true).
Proof.
  split; [reflexivity|].
  unfold RunwayTracker.getUrgencyLevel, ContextBuilder.calculateUrgencyLevel,
    HourlyUpdateTask.getUrgencyLevel, JsMore.strict_eq, Js.of_Z.
  destruct d as [q| | |]; cbn [Js.lt Js.le].
  2-4: split; [split; [congruence | discriminate]
              | eexists; split; [reflexivity|];
                split; [cbn; lia | split; [congruence | intros [?|?]; discriminate]]].
  split.
  - destruct (Js.Qlt_bool q (inject_Z 3)) eqn:E3;
      destruct (Js.Qlt_bool q (inject_Z 7)) eqn:E7;
      destruct (Js.Qlt_bool q (inject_Z 14)) eqn:E14;
      destruct (Qle_bool q (inject_Z 14)) eqn:L14;
      destruct (Qeq_bool q (inject_Z 14)) eqn:Q14;
      compare_rationals;
      (split; [intros Hne | intros Heq]);
      try congruence; try discriminate;
      exfalso; unfold inject_Z in *; lra.
  - destruct (Js.Qlt_bool q (inject_Z 3)) eqn:E3;
      destruct (Js.Qlt_bool q (inject_Z 7)) eqn:E7;
      destruct (Qle_bool q (inject_Z 3)) eqn:L3;
      destruct (Qle_bool q (inject_Z 7)) eqn:L7;
      destruct (Qle_bool q (inject_Z 14)) eqn:L14;
      destruct (Qeq_bool q (inject_Z 3)) eqn:Q3;
      destruct (Qeq_bool q (inject_Z 7)) eqn:Q7;
      compare_rationals;
      try (exfalso; unfold inject_Z in *; lra);
      (eexists; split; [reflexivity|]; split; [cbn; lia|]);
      (split; [intros Hne | intros [Heq|Heq]]);
      try congruence; try discriminate; auto;
      exfalso; unfold inject_Z in *; lra.
Qed.

(** ** Word counts *)

Section WordCounts.
Import Js JsMore OutputProcessor.

Lemma non_empty_snoc (piece : string) (c : ascii) :
  non_empty (piece ++ String c "") = true.
Proof. destruct piece; reflexivity. Qed.

Lemma split_whitespace_count (s piece : string) (in_separator : bool) :
  (in_separator = true -> piece = "") ->
  length (List.filter non_empty (split_whitespace piece in_separator s)) =
  if non_empty piece then S (count_runs true s) else count_runs false s.
Proof.
  revert piece in_separator.
  induction s as [|c rest IH]; intros piece in_separator Hsep.
  - cbn. destruct (non_empty piece); reflexivity.
  - cbn [split_whitespace count_runs].
    destruct (is_whitespace c).
    + destruct in_separator.
      * rewrite (Hsep eq_refl). rewrite IH by reflexivity. reflexivity.
      * cbn [List.filter]. destruct (non_empty piece) eqn:Hp; cbn [length];
          rewrite IH by reflexivity; reflexivity.
    + rewrite IH by discriminate. rewrite non_empty_snoc.
      destruct (non_empty piece); reflexivity.
Qed.

Lemma count_runs_trimStart (s : string) :
  count_runs false (trimStart s) = count_runs false s.
Proof.
  induction s as [|c rest IH]; [reflexivity|].
  cbn [trimStart count_runs].
  destruct (is_whitespace c) eqn:Hc; [exact IH|].
  cbn [count_runs]. now rewrite Hc.
Qed.

Lemma count_runs_trimEnd (s : string) (in_word : bool) :
  count_runs in_word (trimEnd s) = count_runs in_word s.
Proof.
  revert in_word. induction s as [|c rest IH]; intros in_word; [reflexivity|].
  cbn [trimEnd].
  destruct (trimEnd rest) as [|c' rest'] eqn:Ht.
  - destruct (is_whitespace c) eqn:Hc; cbn [count_runs]; rewrite Hc;
      rewrite <- IH; reflexivity.
  - cbn [count_runs]. destruct (is_whitespace c) eqn:Hc.
    + rewrite <- IH. reflexivity.
    + rewrite <- (IH true). reflexivity.
Qed.

Lemma count_runs_trim (s : string) :
  count_runs false (trim s) = count_runs false s.
Proof.
  unfold trim. now rewrite count_runs_trimEnd, count_runs_trimStart.
Qed.

Lemma split_ws_count (s : string) :
  length (List.filter non_empty (split_ws s)) = count_runs false s.
Proof.
  unfold split_ws.
  rewrite (split_whitespace_count s "" false) by discriminate. reflexivity.
Qed.

Lemma ContentWriter_countWords_runs (s : string) :
  ContentWriter.countWords s = count_runs false s.
Proof.
  unfold ContentWriter.countWords. now rewrite split_ws_count, count_runs_trim.
Qed.

End WordCounts.

(** X22: the three word counters agree on every text: the output
    processor's count of the pieces of split(/\s+/) that are not empty,
    the content writer's and the hourly task's counts after trim(); and
    all of them count the maximal runs of characters that are not white
    space, so a text of white space only has 0 words. *)
Theorem countWords_agree (text : string) :
  OutputProcessor.countWords text
    = length (List.filter JsMore.non_empty (JsMore.split_ws text)) /\
  ContentWriter.countWords text = OutputProcessor.countWords text /\
  HourlyUpdateTask.countWords text = OutputProcessor.countWords text /\
  (Js.all_whitespace text = true -> ContentWriter.countWords text = 0%nat).
Proof.
  split; [symmetry; apply split_ws_count|].
  split; [apply ContentWriter_countWords_runs|].
  split; [apply ContentWriter_countWords_runs|].
  intros Hws. rewrite ContentWriter_countWords_runs.
  induction text as [|c rest IH]; [reflexivity|].
  cbn [Js.all_whitespace] in Hws. apply andb_true_iff in Hws.
  destruct Hws as [Hc Hrest]. cbn [OutputProcessor.count_runs].
  rewrite Hc. now apply IH.
Qed.

Lemma countWords_agree_witness :
  ContentWriter.countWords "  " = 0%nat /\
  ContentWriter.countWords " shipped  the page "
    = OutputProcessor.countWords " shipped  the page ".
Proof.
  split.
  - apply (countWords_agree "  "). reflexivity.
  - apply (countWords_agree " shipped  the page ").
Defined.

(** ** Content files *)

Section ContentPaths.
Import Js ContentWriter.

Lemma pretty_N_char_numeric (x : N) : is_numeric (pretty_N_char x) = true.
Proof. unfold pretty_N_char. repeat case_match; reflexivity. Qed.

Lemma pretty_N_go_numeric (x : N) (s : string) :
  numeric s = true -> numeric (pretty_N_go x s) = true.
Proof.
  revert s. induction (N.lt_wf_0 x) as [x _ IH]. intros s Hs.
  destruct (decide (x = 0)%N) as [->|Hx].
  - now rewrite pretty_N_go_0.
  - rewrite pretty_N_go_step by lia. apply IH.
    + apply N.div_lt; lia.
    + cbn [numeric]. now rewrite pretty_N_char_numeric.
Qed.

Lemma pretty_N_numeric (x : N) : numeric (pretty x) = true.
Proof.
  unfold pretty, pretty_N. destruct (decide (x = 0)%N); [reflexivity|].
  now apply pretty_N_go_numeric.
Qed.

Lemma pretty_Z_numeric (z : Z) : numeric (pretty z) = true.
Proof.
  destruct z as [|p|p]; [reflexivity| |].
  - apply (pretty_N_numeric (N.pos p)).
  - change (numeric (String "-" (pretty (N.pos p))) = true).
    cbn [numeric]. now rewrite (pretty_N_numeric (N.pos p)).
Qed.

(** Two texts that start with printed integers and go on with another
    character split at the same place. *)
Lemma numeric_split (s1 s2 : string) (c1 c2 : ascii) (r1 r2 : string) :
  numeric s1 = true -> numeric s2 = true ->
  is_numeric c1 = false -> is_numeric c2 = false ->
  s1 ++ String c1 r1 = s2 ++ String c2 r2 ->
  s1 = s2 /\ String c1 r1 = String c2 r2.
Proof.
  revert s2. induction s1 as [|a s1 IH]; intros [|b s2] H1 H2 Hc1 Hc2 Heq;
    cbn [String.append numeric] in *.
  - auto.
  - injection Heq as -> _. apply andb_true_iff in H2. destruct H2. congruence.
  - injection Heq as -> _. apply andb_true_iff in H1. destruct H1. congruence.
  - injection Heq as -> Heq. apply andb_true_iff in H1, H2.
    destruct (IH s2) as [-> ?]; tauto.
Qed.

Lemma append_cancel_l (p a b : string) : p ++ a = p ++ b -> a = b.
Proof.
  induction p as [|c p IH]; cbn [String.append]; [auto|].
  intros [= H]. auto.
Qed.

Lemma append_assoc_l (a b c : string) : (a ++ b) ++ c = a ++ (b ++ c).
Proof.
  induction a as [|x a IH]; [reflexivity|].
  change (String x ((a ++ b) ++ c) = String x (a ++ (b ++ c))).
  f_equal. exact IH.
Qed.

Lemma hourly_path_tail (day hour : Z) (suffix : string) :
  hourly_path day hour ++ suffix =
  "website/content/hourly/day" ++
  (pretty day ++ String "_" ("hour" ++ (pretty hour ++ String "." ("json" ++ suffix)))).
Proof.
  unfold hourly_path, CONTENT_BASE.
  rewrite !append_assoc_l. reflexivity.
Qed.

Lemma journal_path_tail (day : Z) (suffix : string) :
  journal_path day ++ suffix =
  "website/content/journals/day" ++
  (pretty day ++ String "." ("json" ++ suffix)).
Proof.
  unfold journal_path, CONTENT_BASE.
  rewrite !append_assoc_l. reflexivity.
Qed.

Lemma append_empty_r (s : string) : s ++ "" = s.
Proof.
  induction s as [|c s IH]; [reflexivity|].
  change (String c (s ++ "") = String c s). f_equal. exact IH.
Qed.

(** Two content files with the same path, up to a suffix on the first,
    are the same file and the suffix is empty. *)
Lemma path_of_suffix_inj (f g : ContentFile) (suffix : string) :
  (suffix = "" \/ suffix = ".tmp") ->
  path_of f ++ suffix = path_of g -> f = g /\ suffix = "".
Proof.
  intros Hsuffix Heq.
  rewrite <- (append_empty_r (path_of g)) in Heq.
  destruct f as [d h| d |], g as [d' h'| d' |]; cbn [path_of] in Heq;
    rewrite ?hourly_path_tail, ?journal_path_tail in Heq;
    try (destruct Hsuffix as [-> | ->]; discriminate Heq).
  - apply append_cancel_l in Heq.
    apply numeric_split in Heq;
      [|apply pretty_Z_numeric|apply pretty_Z_numeric|reflexivity|reflexivity].
    destruct Heq as [Hd Heq]. apply (inj pretty) in Hd. subst d'.
    injection Heq as Heq.
    apply (numeric_split (pretty h) (pretty h') "." "."
             ("json" ++ suffix) ("json" ++ "")) in Heq;
      [|apply pretty_Z_numeric|apply pretty_Z_numeric|reflexivity|reflexivity].
    destruct Heq as [Hh Heq]. apply (inj pretty) in Hh. subst h'.
    split; [reflexivity|].
    destruct Hsuffix as [-> | ->]; [reflexivity | discriminate Heq].
  - apply append_cancel_l in Heq.
    apply numeric_split in Heq;
      [|apply pretty_Z_numeric|apply pretty_Z_numeric|reflexivity|reflexivity].
    destruct Heq as [Hd Heq]. apply (inj pretty) in Hd. subst d'.
    split; [reflexivity|].
    destruct Hsuffix as [-> | ->]; [reflexivity | discriminate Heq].
  - split; [reflexivity|].
    destruct Hsuffix as [-> | ->]; [reflexivity | discriminate Heq].
Qed.

Lemma path_of_inj (f g : ContentFile) : path_of f = path_of g -> f = g.
Proof.
  intros Heq. apply (path_of_suffix_inj f g ""); [now left|].
  now rewrite append_empty_r.
Qed.

Lemma temp_path_not_content (f g : ContentFile) :
  path_of f ++ ".tmp" <> path_of g.
Proof.
  intros Heq. destruct (path_of_suffix_inj f g ".tmp") as [_ H];
    [now right | exact Heq | discriminate H].
Qed.

Lemma safeWriteJson_effect {A : Type} (stringify : A -> string)
    (unlink_done : bool) (target : ContentFile) (data : A) (st : State) :
  pending_unlinks st = [] ->
  fst (safeWriteJson stringify unlink_done (path_of target) data st)
    = Resolved tt /\
  wrote_only unlink_done target (stringify data) st
    (snd (safeWriteJson stringify unlink_done (path_of target) data st)).
Proof.
  intros Hquiet. unfold safeWriteJson. cbv zeta.
  rewrite lookup_insert_eq.
  assert (Hne : path_of target ++ ".tmp" <> path_of target).
  { apply temp_path_not_content. }
  rewrite bool_decide_eq_true_2.
  2:{ rewrite lookup_insert_ne by congruence. rewrite lookup_insert_eq. eauto. }
  destruct unlink_done; cbn [fst snd]; (split; [reflexivity|]);
    unfold wrote_only, settle;
    cbn [files clock pending_unlinks]; rewrite !Hquiet;
    cbn [List.fold_right List.app].
  - split; [|split; [|split; [|split; [|split; [|split]]]]].
    + rewrite lookup_delete_ne by exact Hne. apply lookup_insert_eq.
    + split; [apply lookup_delete_eq | reflexivity].
    + intros p Hp Htmp.
      rewrite lookup_delete_ne by congruence.
      rewrite lookup_insert_ne by congruence.
      rewrite lookup_insert_ne by congruence. reflexivity.
    + intros other Hother.
      rewrite lookup_delete_ne by apply temp_path_not_content.
      rewrite lookup_insert_ne
        by (intros H; apply path_of_inj in H; congruence).
      rewrite lookup_insert_ne by apply temp_path_not_content. reflexivity.
    + apply lookup_delete_eq.
    + reflexivity.
    + reflexivity.
  - split; [|split; [|split; [|split; [|split; [|split]]]]].
    + apply lookup_insert_eq.
    + split; [|reflexivity].
      rewrite lookup_insert_ne by congruence. apply lookup_insert_eq.
    + intros p Hp Htmp.
      rewrite lookup_insert_ne by congruence.
      rewrite lookup_insert_ne by congruence. reflexivity.
    + intros other Hother.
      rewrite lookup_insert_ne
        by (intros H; apply path_of_inj in H; congruence).
      rewrite lookup_insert_ne by apply temp_path_not_content. reflexivity.
    + apply lookup_delete_eq.
    + intros file.
      rewrite lookup_delete_ne by apply temp_path_not_content. reflexivity.
    + reflexivity.
Qed.

End ContentPaths.

(** X23: started with no removal pending, each content writer resolves
    to the path of its file and writes that file only: the file holds the
    JSON text of the record built from the arguments, the clock and the
    word count of the content, and every other path, in particular the
    file of every other day, hour or kind, holds what it held.  The
    removal of the temporary sibling is not awaited: when the writer
    resolves the sibling is either gone or still holds the same text with
    its removal pending, and once the pending removal has taken effect it
    is gone and the content files are untouched by it. *)
Theorem content_writers_write_only_their_file
    (stringify_hourly : ContentWriter.HourlyUpdate -> string)
    (stringify_journal : ContentWriter.DailyJournal -> string)
    (stringify_landing : ContentWriter.LandingData -> string)
    (unlink_done : bool) (st : ContentWriter.State) :
  ContentWriter.pending_unlinks st = [] ->
  (forall day hour content metadata,
     let run :=
       ContentWriter.writeHourlyUpdate stringify_hourly unlink_done day hour
         content metadata st in
     fst run = Js.Resolved (ContentWriter.hourly_path day hour) /\
     ContentWriter.wrote_only unlink_done (ContentWriter.HourlyFile day hour)
       (stringify_hourly
          (ContentWriter.mkHourlyUpdate day hour (ContentWriter.clock st)
             content (ContentWriter.hourly_runway_days metadata)
             (ContentWriter.hourly_urgency metadata)
             (ContentWriter.hourly_current_strategy metadata)
             (OutputProcessor.countWords content)))
       st (snd run)) /\
  (forall day content metadata,
     let run :=
       ContentWriter.writeDailyJournal stringify_journal unlink_done day
         content metadata st in
     fst run = Js.Resolved (ContentWriter.journal_path day) /\
     ContentWriter.wrote_only unlink_done (ContentWriter.JournalFile day)
       (stringify_journal
          (ContentWriter.mkDailyJournal day (ContentWriter.clock st) content
             (ContentWriter.journal_meta_runway_days metadata)
             (ContentWriter.journal_meta_urgency metadata)
             (ContentWriter.journal_meta_current_strategy metadata)
             (ContentWriter.journal_meta_things_shipped metadata)
             (ContentWriter.journal_meta_revenue_total metadata)
             (OutputProcessor.countWords content)))
       st (snd run)) /\
  (forall currentDay daysRemaining runwayDays thingsShipped revenueTotal
          currentStrategy,
     let run :=
       ContentWriter.updateLanding stringify_landing unlink_done currentDay
         daysRemaining runwayDays thingsShipped revenueTotal currentStrategy
         st in
     fst run = Js.Resolved ContentWriter.landing_path /\
     ContentWriter.wrote_only unlink_done ContentWriter.LandingFile
       (stringify_landing
          (ContentWriter.mkLandingData currentDay daysRemaining runwayDays
             thingsShipped revenueTotal currentStrategy
             (ContentWriter.clock st)))
       st (snd run)).
Proof.
  intros Hquiet. split; [|split].
  - intros day hour content metadata run. subst run.
    unfold ContentWriter.writeHourlyUpdate, Prog.and_then, Prog.bind.
    cbv zeta. rewrite ContentWriter_countWords_runs.
    change (OutputProcessor.count_runs false content)
      with (OutputProcessor.countWords content).
    match goal with
    | |- context [ContentWriter.safeWriteJson ?s _ _ ?d st] =>
        destruct (safeWriteJson_effect s unlink_done
                    (ContentWriter.HourlyFile day hour) d st Hquiet)
          as [Hr Hw];
        cbn [ContentWriter.path_of] in Hr, Hw;
        destruct (ContentWriter.safeWriteJson s unlink_done
                    (ContentWriter.hourly_path day hour) d st) as [r st']
    end.
    cbn [fst snd] in *. subst r. split; [reflexivity | exact Hw].
  - intros day content metadata run. subst run.
    unfold ContentWriter.writeDailyJournal, Prog.and_then, Prog.bind.
    cbv zeta. rewrite ContentWriter_countWords_runs.
    change (OutputProcessor.count_runs false content)
      with (OutputProcessor.countWords content).
    match goal with
    | |- context [ContentWriter.safeWriteJson ?s _ _ ?d st] =>
        destruct (safeWriteJson_effect s unlink_done
                    (ContentWriter.JournalFile day) d st Hquiet)
          as [Hr Hw];
        cbn [ContentWriter.path_of] in Hr, Hw;
        destruct (ContentWriter.safeWriteJson s unlink_done
                    (ContentWriter.journal_path day) d st) as [r st']
    end.
    cbn [fst snd] in *. subst r. split; [reflexivity | exact Hw].
  - intros currentDay daysRemaining runwayDays thingsShipped revenueTotal
      currentStrategy run. subst run.
    unfold ContentWriter.updateLanding, Prog.and_then, Prog.bind.
    cbv zeta.
    match goal with
    | |- context [ContentWriter.safeWriteJson ?s _ _ ?d st] =>
        destruct (safeWriteJson_effect s unlink_done
                    ContentWriter.LandingFile d st Hquiet) as [Hr Hw];
        cbn [ContentWriter.path_of] in Hr, Hw;
        destruct (ContentWriter.safeWriteJson s unlink_done
                    ContentWriter.landing_path d st) as [r st']
    end.
    cbn [fst snd] in *. subst r. split; [reflexivity | exact Hw].
Qed.

Lemma content_writers_write_only_their_file_witness :
  let stringify_hourly := fun u : ContentWriter.HourlyUpdate =>
    ContentWriter.update_content u in
  let stringify_journal := fun j : ContentWriter.DailyJournal =>
    ContentWriter.journal_content j in
  let stringify_landing := fun l : ContentWriter.LandingData =>
    ContentWriter.landing_currentStrategy l in
  let st :=
    ContentWriter.mkState
      {[ ContentWriter.journal_path 4 := "yesterday" ]} [] "t0" in
  let run :=
    ContentWriter.writeHourlyUpdate stringify_hourly false 5 10 "shipped"
      (ContentWriter.mkHourlyMetadata (Js.of_Z 8) "focused" "tools") st in
  fst run = Js.Resolved "website/content/hourly/day5_hour10.json" /\
  ContentWriter.files (snd run) !! ContentWriter.journal_path 4
    = Some "yesterday".
Proof.
  intros stringify_hourly stringify_journal stringify_landing st run.
  destruct (content_writers_write_only_their_file stringify_hourly
              stringify_journal stringify_landing false st eq_refl)
    as (Hh & _ & _).
  destruct (Hh 5 10 "shipped"
              (ContentWriter.mkHourlyMetadata (Js.of_Z 8) "focused" "tools"))
    as (Hr & _ & _ & _ & Hother & _).
  split; [exact Hr|].
  pose proof (Hother (ContentWriter.JournalFile 4)) as Hkept.
  cbn [ContentWriter.path_of] in Hkept.
  unfold run. rewrite Hkept by discriminate.
  apply lookup_singleton_eq.
Defined.

(** ** Code fences in a decision answer *)

Section FenceFacts.
Import Js OutputProcessor ResponseShapes.

Lemma prefix_fence_other (c : ascii) (rest : string) :
  is_backtick c = false -> String.prefix "```" (String c rest) = false.
Proof.
  intros Hc. cbn [String.prefix].
  destruct (ascii_dec "`" c) as [<-|]; [discriminate Hc | reflexivity].
Qed.

Lemma after_fence_skip (prose rest : string) :
  no_backtick prose = true ->
  after_fence (prose ++ ("```" ++ rest)) = Some rest.
Proof.
  induction prose as [|c prose IH]; intros Hp.
  - change (after_fence (String "`" (String "`" (String "`" rest)))
            = Some rest).
    cbn [after_fence].
    change (String "`" (String "`" (String "`" rest))) with ("```" ++ rest).
    now rewrite prefix_append.
  - cbn [no_backtick] in Hp. apply andb_true_iff in Hp.
    destruct Hp as [Hc Hp]. apply negb_true_iff in Hc.
    change (after_fence (String c (prose ++ ("```" ++ rest))) = Some rest).
    cbn [after_fence]. rewrite prefix_fence_other by exact Hc. auto.
Qed.

Lemma before_fence_stop (body tail : string) :
  no_backtick body = true ->
  before_fence (body ++ ("```" ++ tail)) = Some body.
Proof.
  induction body as [|c body IH]; intros Hb.
  - change (before_fence (String "`" (String "`" (String "`" tail)))
            = Some "").
    cbn [before_fence].
    change (String "`" (String "`" (String "`" tail))) with ("```" ++ tail).
    now rewrite prefix_append.
  - cbn [no_backtick] in Hb. apply andb_true_iff in Hb.
    destruct Hb as [Hc Hb]. apply negb_true_iff in Hc.
    change (before_fence (String c (body ++ ("```" ++ tail)))
            = Some (String c body)).
    cbn [before_fence]. rewrite prefix_fence_other by exact Hc.
    now rewrite IH.
Qed.

Lemma after_fence_none (s : string) :
  no_backtick s = true -> after_fence s = None.
Proof.
  induction s as [|c s IH]; intros Hs; [reflexivity|].
  cbn [no_backtick] in Hs. apply andb_true_iff in Hs.
  destruct Hs as [Hc Hs]. apply negb_true_iff in Hc.
  cbn [after_fence]. rewrite prefix_fence_other by exact Hc. auto.
Qed.

Lemma no_backtick_trimStart (s : string) :
  no_backtick s = true -> no_backtick (trimStart s) = true.
Proof.
  induction s as [|c s IH]; intros Hs; [reflexivity|].
  cbn [trimStart]. destruct (is_whitespace c); [|exact Hs].
  cbn [no_backtick] in Hs. apply andb_true_iff in Hs. tauto.
Qed.

Lemma no_backtick_trimEnd (s : string) :
  no_backtick s = true -> no_backtick (trimEnd s) = true.
Proof.
  induction s as [|c s IH]; intros Hs; [reflexivity|].
  cbn [no_backtick] in Hs. apply andb_true_iff in Hs. destruct Hs as [Hc Hs].
  cbn [trimEnd]. specialize (IH Hs).
  destruct (trimEnd s) as [|c' s'].
  - destruct (is_whitespace c); [reflexivity|].
    cbn [no_backtick]. now rewrite Hc.
  - cbn [no_backtick] in *. now rewrite Hc, IH.
Qed.

Lemma trimStart_append (s tail : string) :
  all_whitespace s = false -> trimStart (s ++ tail) = trimStart s ++ tail.
Proof.
  induction s as [|c s IH]; intros Hs; [discriminate Hs|].
  change (trimStart (String c (s ++ tail)) = trimStart (String c s) ++ tail).
  cbn [trimStart all_whitespace] in *.
  destruct (is_whitespace c); [apply IH; exact Hs | reflexivity].
Qed.

Lemma trimStart_idem (s : string) : trimStart (trimStart s) = trimStart s.
Proof.
  induction s as [|c s IH]; [reflexivity|].
  cbn [trimStart]. destruct (is_whitespace c) eqn:Hc; [exact IH|].
  cbn [trimStart]. now rewrite Hc.
Qed.

Lemma trimEnd_fence (s : string) : trimEnd (s ++ "```") = s ++ "```".
Proof.
  induction s as [|c s IH]; [reflexivity|].
  change (trimEnd (String c (s ++ "```")) = String c (s ++ "```")).
  cbn [trimEnd]. rewrite IH. destruct s; reflexivity.
Qed.

Lemma trimStart_empty (s : string) :
  trimStart s = "" -> all_whitespace s = true.
Proof.
  induction s as [|c s IH]; [reflexivity|].
  cbn [trimStart all_whitespace].
  destruct (is_whitespace c); [exact IH | discriminate].
Qed.

Lemma trim_non_empty (s : string) :
  all_whitespace s = false -> trim s <> "".
Proof.
  intros Hs. unfold trim.
  destruct (trimStart_head s) as [E | (c & rest & E & Hc)].
  - apply trimStart_empty in E. congruence.
  - rewrite E. destruct (trimEnd_head c rest Hc) as [rest' ->]. discriminate.
Qed.

(** The text handed to [JSON.parse] for a fenced body. *)
Lemma json_text_fenced (prose body tail : string) :
  no_backtick prose = true -> no_backtick body = true ->
  all_whitespace body = false ->
  json_text (prose ++ fenced body ++ tail) = trim body.
Proof.
  intros Hp Hb Hws. unfold json_text, fence_capture, fenced.
  replace (prose ++ ("```json" ++ body ++ "```") ++ tail)
    with (prose ++ ("```" ++ ("json" ++ (body ++ ("```" ++ tail))))).
  2:{ f_equal. rewrite !append_assoc_l. reflexivity. }
  rewrite after_fence_skip by exact Hp.
  rewrite prefix_append.
  change (skip 4 ("json" ++ (body ++ ("```" ++ tail))))
    with (body ++ ("```" ++ tail)).
  rewrite trimStart_append by exact Hws.
  rewrite before_fence_stop by (apply no_backtick_trimStart; exact Hb).
  unfold trim. now rewrite trimStart_idem.
Qed.

Lemma json_text_plain (s : string) :
  no_backtick s = true -> json_text s = s.
Proof.
  intros Hs. unfold json_text, fence_capture.
  now rewrite after_fence_none.
Qed.

End FenceFacts.

(** X24: a code fence is transparent to the decision parser.  For a body
    without backticks that is not blank, the text handed to JSON.parse for
    the body inside a json code block, with any backtick-free prose before
    and any text after, is the trimmed body; and parseActivityDecision
    gives the same result for the fenced answer as for the bare body. *)
Theorem code_fence_transparent
    (rt : Json.Runtime) (prose body tail : string) :
  ResponseShapes.no_backtick prose = true ->
  ResponseShapes.no_backtick body = true ->
  Js.all_whitespace body = false ->
  OutputProcessor.json_text (prose ++ ResponseShapes.fenced body ++ tail)
    = Js.trim body /\
  OutputProcessor.parseActivityDecision rt
    (OutputProcessor.mkResponse (ResponseShapes.fenced body))
  = OutputProcessor.parseActivityDecision rt (OutputProcessor.mkResponse body).
Proof.
  intros Hp Hb Hws.
  split; [now apply json_text_fenced|].
  unfold OutputProcessor.parseActivityDecision, OutputProcessor.parseContent.
  cbn [OutputProcessor.content].
  assert (Htrim : Js.trim (ResponseShapes.fenced body)
                  = ResponseShapes.fenced body).
  { unfold Js.trim, ResponseShapes.fenced.
    change (Js.trimStart ("```json" ++ body ++ "```"))
      with ("```json" ++ body ++ "```").
    replace ("```json" ++ body ++ "```") with (("```json" ++ body) ++ "```")
      by (now rewrite append_assoc_l).
    apply trimEnd_fence. }
  rewrite Htrim.
  change (String.eqb (ResponseShapes.fenced body) "") with false.
  cbv iota.
  pose proof (json_text_fenced "" body "" eq_refl Hb Hws) as Hj.
  rewrite append_empty_r in Hj.
  change ("" ++ ResponseShapes.fenced body)
    with (ResponseShapes.fenced body) in Hj.
  cbv zeta. rewrite Hj.
  assert (Hne : body <> "") by (intros ->; discriminate Hws).
  apply String.eqb_neq in Hne. rewrite Hne.
  pose proof (trim_non_empty body Hws) as Hnt.
  apply String.eqb_neq in Hnt. rewrite Hnt.
  rewrite json_text_plain; [reflexivity|].
  unfold Js.trim. now apply no_backtick_trimEnd, no_backtick_trimStart.
Qed.

Lemma code_fence_transparent_witness :
  OutputProcessor.json_text
    ("Here is my plan:" ++ ResponseShapes.fenced " {} " ++ "Done.")
  = "{}".
Proof.
  apply (code_fence_transparent (Samples.runtime_for "" Json.JNull)
           "Here is my plan:" " {} " "Done."); reflexivity.
Defined.

(** ** The two parsers of a decision *)

Section TwoParsers.
Import Js Json.

Variable rt : Runtime.

Lemma is_text_truthy (v : option json) :
  ActivityDecisionTask.is_text v = true ->
  truthy v = true /\ exists s, v = Some (JStr s) /\ s <> "".
Proof.
  destruct v as [[| | |s| |]|]; try discriminate.
  cbn. intros H. split; [exact H|]. exists s. split; [reflexivity|].
  intros ->. discriminate H.
Qed.

Lemma check_activity_sound (activity : json) :
  ActivityDecisionTask.check_activity rt activity = Resolved tt ->
  OutputProcessor.well_formed_activity activity /\
  ActivityDecisionTask.timed_activity activity.
Proof.
  unfold ActivityDecisionTask.check_activity.
  destruct activity as [| | | | |fields]; cbn [readProp]; try discriminate.
  destruct (OutputProcessor.is_activity_type (assoc "type" fields)) eqn:Ety;
    cbn [negb]; [|discriminate].
  destruct (ActivityDecisionTask.is_text (assoc "action" fields)) eqn:Ea;
    cbn [negb]; [|discriminate].
  destruct (ActivityDecisionTask.is_text (assoc "reasoning" fields)) eqn:Er;
    cbn [negb]; [|discriminate].
  destruct (assoc "duration_minutes" fields) as [[| |n| | |]|] eqn:Ed;
    try discriminate.
  cbn [ActivityDecisionTask.is_duration].
  destruct (le n (of_Z 0)) eqn:En; [discriminate|]. intros _.
  destruct (is_activity_type_In _ Ety) as (ty & Hty & Hin).
  destruct (is_text_truthy _ Ea) as (Hta & a & Ha & Hane).
  destruct (is_text_truthy _ Er) as (Htr & r & Hr & Hrne).
  split.
  - exists fields, ty. auto.
  - exists fields, a, r, n. rewrite Ed. auto 10.
Qed.

Lemma check_activities_sound (items : list json) :
  ActivityDecisionTask.check_activities rt items = Resolved tt ->
  Forall OutputProcessor.well_formed_activity items /\
  Forall ActivityDecisionTask.timed_activity items.
Proof.
  induction items as [|a items IH]; cbn; [split; constructor|].
  destruct (ActivityDecisionTask.check_activity rt a) as [[]|e] eqn:Ea;
    [|discriminate].
  intros H. destruct (IH H) as [H1 H2].
  destruct (check_activity_sound a Ea) as [Ha1 Ha2].
  split; constructor; assumption.
Qed.

End TwoParsers.

(** X25: the activity decision task parses more strictly than the output
    processor.  Whatever answer parseResponse accepts, parseActivityDecision
    accepts too, with the same activities, urgency assessment, confidence
    and strategy notes; and every activity the task accepted has texts
    that are not empty and a numeric duration that is not 0 or less, which
    the processor does not ask for. *)
Theorem parseResponse_stricter
    (rt : Json.Runtime) (content : string)
    (d : ActivityDecisionTask.ActivityDecision) :
  Js.all_whitespace content = false ->
  ActivityDecisionTask.parseResponse rt content = Js.Resolved d ->
  (exists d',
     OutputProcessor.parseActivityDecision rt
       (OutputProcessor.mkResponse content) = Js.Resolved d' /\
     OutputProcessor.activities d' = ActivityDecisionTask.activities d /\
     OutputProcessor.urgency_assessment d'
       = ActivityDecisionTask.urgency_assessment d /\
     OutputProcessor.confidence_in_strategy d'
       = ActivityDecisionTask.confidence_in_strategy d /\
     OutputProcessor.strategy_notes d'
       = ActivityDecisionTask.strategy_notes d) /\
  Forall ActivityDecisionTask.timed_activity
    (ActivityDecisionTask.activities d).
Proof.
  intros Hws. unfold ActivityDecisionTask.parseResponse. cbv zeta.
  destruct (Json.JSON_parse rt (OutputProcessor.json_text (Js.trim content)))
    as [v|e] eqn:Ep; [|discriminate].
  destruct v as [| | | | |fields]; cbn [Json.readProp]; try discriminate.
  destruct (Json.assoc "activities" fields) as [[| | | |items|]|] eqn:Eact;
    try discriminate.
  destruct (Json.assoc "urgency_assessment" fields)
    as [[| | |urgency| |]|] eqn:Eu; try discriminate.
  destruct (Json.assoc "confidence_in_strategy" fields)
    as [[| |c| | |]|] eqn:Ec; try discriminate.
  destruct (ActivityDecisionTask.check_activities rt items) as [[]|e] eqn:Ev;
    [|discriminate].
  intros [= <-]. cbn [ActivityDecisionTask.activities
    ActivityDecisionTask.urgency_assessment
    ActivityDecisionTask.confidence_in_strategy
    ActivityDecisionTask.strategy_notes].
  destruct (check_activities_sound rt items Ev) as [Hwf Htimed].
  split; [|exact Htimed].
  exists (OutputProcessor.mkDecision (Json.JObj fields) items urgency c
            (Json.assoc "strategy_notes" fields)).
  split; [|auto].
  unfold OutputProcessor.parseActivityDecision, OutputProcessor.parseContent.
  cbn [OutputProcessor.content].
  assert (Hne : content <> "") by (intros ->; discriminate Hws).
  apply String.eqb_neq in Hne. rewrite Hne.
  pose proof (trim_non_empty content Hws) as Hnt.
  apply String.eqb_neq in Hnt. rewrite Hnt.
  cbv zeta. rewrite Ep.
  unfold OutputProcessor.validate_decision. cbn [Json.readProp].
  rewrite Eact, Eu, Ec.
  rewrite (validate_activities_complete rt items Hwf). reflexivity.
Qed.

Lemma parseResponse_stricter_witness :
  let rt := Samples.runtime_for TaskSamples.timed_plan_text
              TaskSamples.timed_plan in
  exists d',
    OutputProcessor.parseActivityDecision rt
      (OutputProcessor.mkResponse TaskSamples.timed_plan_text)
    = Js.Resolved d' /\
    length (OutputProcessor.activities d') = 1%nat.
Proof.
  intros rt.
  destruct (parseResponse_stricter rt TaskSamples.timed_plan_text
              (ActivityDecisionTask.mkDecision
                 [Json.JObj [("type", Json.JStr "BUILD");
                             ("action", Json.JStr "ship the page");
                             ("reasoning", Json.JStr "runway");
                             ("duration_minutes", Json.JNum (Js.of_Z 30))]]
                 "calm" (Js.Finite (3 # 4)) None))
    as [(d' & Hd & Hact & _) _]; [reflexivity | reflexivity |].
  exists d'. split; [exact Hd|]. rewrite Hact. reflexivity.
Defined.

(** The processor accepts a plan without durations; the task rejects it. *)
Example parseResponse_rejects_untimed_plan :
  let rt := Samples.runtime_for TaskSamples.untimed_plan_text
              TaskSamples.untimed_plan in
  ActivityDecisionTask.parseResponse rt TaskSamples.untimed_plan_text
    = Js.Rejected (Js.mkError "Activity missing valid duration_minutes") /\
  exists d',
    OutputProcessor.parseActivityDecision rt
      (OutputProcessor.mkResponse TaskSamples.untimed_plan_text)
    = Js.Resolved d'.
Proof. split; [reflexivity|]. eexists. reflexivity. Qed.

(** ** The shipped counter *)

Section MetricsCounterFacts.
Import Js Metrics MetricsCounter.

Variable JSON_parse : string -> outcome Metrics.
Variable JSON_stringify : option Z -> Metrics -> string.
Variable plus_one : number -> number.

Lemma getMetrics_stable (st : State) :
  fst (getMetrics JSON_parse (snd (getMetrics JSON_parse st)))
  = fst (getMetrics JSON_parse st).
Proof.
  unfold getMetrics.
  destruct (cachedMetrics st) as [c|] eqn:Ec; cbn [fst snd].
  - now rewrite Ec.
  - reflexivity.
Qed.

Lemma incrementShipped_run (st : State) :
  let before := fst (getMetrics JSON_parse st) in
  let run := incrementShipped JSON_parse JSON_stringify plus_one st in
  let after :=
    mkMetrics (plus_one (thingsShipped before)) (revenueTotal before)
      (currentStrategy before) (keyMetrics before) in
  fst run = plus_one (thingsShipped before) /\
  cachedMetrics (snd run) = Some after /\
  metrics_file (snd run) = Some (Resolved (JSON_stringify (Some 2) after)).
Proof.
  intros before run after. subst run.
  unfold incrementShipped, Prog.bind.
  pose proof (getMetrics_stable st) as Hstable.
  destruct (getMetrics JSON_parse st) as [current st0] eqn:Eg.
  cbn [fst snd] in Hstable. subst before. cbn [fst] in after.
  destruct (updateMetrics_run JSON_parse JSON_stringify
              (mkPartial (Some (plus_one (thingsShipped current)))
                 None None None) st0) as (Hr & Hc & Hf).
  rewrite Hstable in Hr, Hc, Hf.
  cbn [spread p_thingsShipped p_revenueTotal p_currentStrategy p_keyMetrics]
    in Hr, Hc, Hf.
  rewrite (left_id_L ∅ (∪)) in Hr, Hc, Hf.
  destruct (updateMetrics JSON_parse JSON_stringify _ st0) as [updated st1].
  cbn [fst snd Prog.ret] in *. subst updated. auto.
Qed.

Lemma incrementShipped_times_run (n : nat) (st : State) :
  let before := fst (getMetrics JSON_parse st) in
  let after :=
    mkMetrics (Nat.iter (S n) plus_one (thingsShipped before))
      (revenueTotal before) (currentStrategy before) (keyMetrics before) in
  exists st',
    incrementShipped_times JSON_parse JSON_stringify plus_one (S n) st
      = (Some (thingsShipped after), st') /\
    cachedMetrics st' = Some after /\
    metrics_file st' = Some (Resolved (JSON_stringify (Some 2) after)).
Proof.
  cbv zeta. induction n as [|n IH].
  - change (incrementShipped_times JSON_parse JSON_stringify plus_one 1 st)
      with (let (shipped, st') :=
              incrementShipped JSON_parse JSON_stringify plus_one st in
            (Some shipped, st')).
    destruct (incrementShipped_run st) as (Hr & Hc & Hf).
    destruct (incrementShipped JSON_parse JSON_stringify plus_one st)
      as [shipped st1].
    cbn [fst snd] in *. subst shipped. eauto.
  - destruct IH as (st1 & Hrun & Hc1 & _).
    change (incrementShipped_times JSON_parse JSON_stringify plus_one
              (S (S n)) st)
      with (let (_, st1) :=
              incrementShipped_times JSON_parse JSON_stringify plus_one
                (S n) st in
            let (shipped, st') :=
              incrementShipped JSON_parse JSON_stringify plus_one st1 in
            (Some shipped, st')).
    rewrite Hrun.
    destruct (incrementShipped_run st1) as (Hr & Hc & Hf).
    rewrite (getMetrics_cached JSON_parse st1 _ Hc1) in Hr, Hc, Hf.
    cbn [fst thingsShipped revenueTotal currentStrategy keyMetrics]
      in Hr, Hc, Hf.
    destruct (incrementShipped JSON_parse JSON_stringify plus_one st1)
      as [shipped st2].
    cbn [fst snd] in *. subst shipped. eauto.
Qed.

End MetricsCounterFacts.

(** X26: incrementShipped adds one to the shipped counter and touches
    nothing else: it returns the engine's thingsShipped + 1, and the
    record cached and written to the file is the one getMetrics returned
    before with that counter; called n times in a row it applies + 1
    n times. *)
Theorem incrementShipped_counts
    (JSON_parse : string -> Js.outcome Metrics.Metrics)
    (JSON_stringify : option Z -> Metrics.Metrics -> string)
    (plus_one : Js.number -> Js.number)
    (n : nat) (st : Metrics.State) :
  let before := fst (Metrics.getMetrics JSON_parse st) in
  let run :=
    MetricsCounter.incrementShipped_times JSON_parse JSON_stringify plus_one
      (S n) st in
  let after :=
    Metrics.mkMetrics
      (Nat.iter (S n) plus_one (Metrics.thingsShipped before))
      (Metrics.revenueTotal before) (Metrics.currentStrategy before)
      (Metrics.keyMetrics before) in
  fst run = Some (Nat.iter (S n) plus_one (Metrics.thingsShipped before)) /\
  fst (Metrics.getMetrics JSON_parse (snd run)) = after /\
  Metrics.metrics_file (snd run)
    = Some (Js.Resolved (JSON_stringify (Some 2) after)).
Proof.
  cbv zeta.
  destruct (incrementShipped_times_run JSON_parse JSON_stringify plus_one n st)
    as (st' & Hrun & Hc & Hf).
  cbv zeta in Hrun, Hc, Hf. rewrite Hrun. cbn [fst snd].
  rewrite (getMetrics_cached JSON_parse st' _ Hc). auto.
Qed.

(** ** The runway check job *)

Section RunwayCheck.
Import Js Logger SchedulerJobs.

Lemma warnings_app (a b : list LogEntry) :
  warnings (a ++ b) = (warnings a ++ warnings b)%list.
Proof. apply List.filter_app. Qed.

Lemma wrapWithLogging_resolves (name : string) (handler : Prog.exc State unit)
    (startTime endTime : Z) (st : State) :
  fst (wrapWithLogging name handler startTime endTime st) = Resolved tt.
Proof.
  unfold wrapWithLogging. cbv zeta.
  destruct (handler _) as [[u|e] st2]; reflexivity.
Qed.

End RunwayCheck.

(** X27: the scheduled runway check never fails and warns exactly when the
    runway is below 7 days.  Whatever the runway file holds, the job
    resolves, leaves the store as it was, and adds to the log the start
    line, the status line, at most one warning and the completion line:
    the critical warning when the runway days are below 3, the low-runway
    warning when they are below 7 but not below 3, and no warning
    otherwise (at exactly 7 days, or when the value is not a number). *)
Theorem runwayCheckJob_warns_below_seven
    (JSON_parse : string -> Js.outcome RunwayStore.RunwayState)
    (env : Time.Env) (later startTime endTime : Z)
    (st : SchedulerJobs.State) :
  let run :=
    SchedulerJobs.runwayCheckJob JSON_parse env later startTime endTime st in
  let days :=
    RunwayStore.getRunwayDays JSON_parse env (SchedulerJobs.store st) in
  fst run = Js.Resolved tt /\
  SchedulerJobs.store (snd run) = SchedulerJobs.store st /\
  (exists status_line,
     Logger.level status_line = Logger.LInfo /\
     SchedulerJobs.log (snd run) =
       (SchedulerJobs.log st
        ++ [Logger.mkLog Logger.LInfo "Executing scheduled task: runwayCheck" [];
            status_line]
        ++ (if Js.lt days (Js.of_Z 3) then [SchedulerJobs.warn_critical days]
            else if Js.lt days (Js.of_Z 7) then [SchedulerJobs.warn_low days]
            else [])
        ++ [Logger.mkLog Logger.LInfo "Completed scheduled task: runwayCheck"
              [("durationMs", Logger.LNum (endTime - startTime))]])%list) /\
  (SchedulerJobs.warnings (SchedulerJobs.log (snd run))
     = SchedulerJobs.warnings (SchedulerJobs.log st)
   <-> Js.lt days (Js.of_Z 7) = false).
Proof.
  intros run days. subst run.
  unfold SchedulerJobs.runwayCheckJob, SchedulerJobs.wrapWithLogging,
    SchedulerJobs.runwayCheckTask, RunwayStore.getRunwayStatus.
  cbv zeta.
  cbn [RunwayStore.status_urgencyLevel RunwayStore.status_runwayDays
       SchedulerJobs.emit SchedulerJobs.store SchedulerJobs.log].
  fold days. unfold RunwayTracker.getUrgencyLevel.
  assert (Hmono : Js.lt days (Js.of_Z 3) = true ->
                  Js.lt days (Js.of_Z 7) = true).
  { destruct days as [q| | |]; cbn; try congruence.
    intros H. apply Qlt_bool_iff in H. apply Qlt_bool_iff.
    unfold inject_Z in *. lra. }
  destruct (Js.lt days (Js.of_Z 3)) eqn:E3.
  - rewrite (Hmono eq_refl).
    cbn [fst snd SchedulerJobs.emit SchedulerJobs.store SchedulerJobs.log].
    split; [reflexivity|]. split; [reflexivity|]. split.
    + eexists. split; [|rewrite <- !app_assoc; reflexivity]. reflexivity.
    + rewrite !warnings_app. cbn.
      split; [|discriminate]. intros H.
      apply (f_equal (@length _)) in H. rewrite !length_app in H.
      cbn in H. lia.
  - destruct (Js.lt days (Js.of_Z 7)) eqn:E7.
    + cbn [fst snd SchedulerJobs.emit SchedulerJobs.store SchedulerJobs.log].
      split; [reflexivity|]. split; [reflexivity|]. split.
      * eexists. split; [|rewrite <- !app_assoc; reflexivity]. reflexivity.
      * rewrite !warnings_app. cbn.
        split; [|discriminate]. intros H.
        apply (f_equal (@length _)) in H. rewrite !length_app in H.
        cbn in H. lia.
    + destruct (Js.le days (Js.of_Z 14));
        cbn [fst snd SchedulerJobs.emit SchedulerJobs.store SchedulerJobs.log];
        (split; [reflexivity|]; split; [reflexivity|]; split;
         [eexists; split; [|rewrite <- !app_assoc; reflexivity]; reflexivity
         |rewrite !warnings_app; cbn; rewrite !app_nil_r; tauto]).
Qed.
